(** * Satellite telemetry simulation and anomaly detection pipeline

    A shallow embedding of [src/js/telemetry.js] (class
    [TelemetrySimulator]), of [src/js/anomaly-detection.js] (classes
    [AnomalyDetector], [StatisticalModel], [IsolationForest] and
    [LSTMTimeSeriesDetector]) and of the health score and the reset of
    the faults of [src/js/main.js] (class [SatelliteHealthApp]).

    Conventions of the embedding:
    - a JavaScript number that holds a measurement is a real number
      ([R]); rounding of IEEE doubles is not modelled.  Where the source
      can produce [NaN] out of [undefined], the result type is [num],
      which adds [NaN] to the reals;
    - [Date.now()] is an explicit argument [now : Z] (epoch milliseconds)
      of every operation that reads the clock; one synchronous call reads
      one clock value;
    - [Math.random()] is a sequence of draws [nat -> R] together with the
      position of the next draw ([Rng]);
    - [setTimeout] is a list of pending timers kept next to the objects;
    - objects that are shared between two arrays and mutated in place
      (the anomaly records) live in a store and the arrays hold
      references into it;
    - the [message], [recommendation] and [explanation] texts of an
      anomaly, the console output and the DOM events are presentation
      only and are left out. *)

From Stdlib Require Import Reals Lra Lia ZArith.
From stdpp Require Import base decidable option list gmap strings.

#[local] Open Scope Z_scope.
#[local] Open Scope R_scope.

(** ** JavaScript numbers *)

#[global] Instance Rlt_decision (x y : R) : Decision (x < y) := Rlt_dec x y.
#[global] Instance Rgt_decision (x y : R) : Decision (x > y) := Rgt_dec x y.
#[global] Instance Rle_decision (x y : R) : Decision (x <= y) := Rle_dec x y.
#[global] Instance Rge_decision (x y : R) : Decision (x >= y) := Rge_dec x y.
#[global] Instance Req_decision : EqDecision R := Req_dec_T.

(** [a < b], [a > b], ... as JavaScript evaluates them on two numbers. *)
Definition ltb (a b : R) : bool := bool_decide (a < b).
Definition gtb (a b : R) : bool := bool_decide (a > b).
Definition geb (a b : R) : bool := bool_decide (a >= b).
Definition eqb (a b : R) : bool := bool_decide (a = b).

(** A number that may be [NaN]. *)
Inductive num : Type :=
  | NaN : num
  | Fin : R -> num.

Definition num_add (a b : num) : num :=
  match a, b with
  | Fin x, Fin y => Fin (x + y)
  | _, _ => NaN
  end.

Definition num_sub (a b : num) : num :=
  match a, b with
  | Fin x, Fin y => Fin (x - y)
  | _, _ => NaN
  end.

(** Division; the embedding only divides by a finite non-zero number,
    the quotients by zero of IEEE arithmetic are outside it. *)
Definition num_div (a b : num) : num :=
  match a, b with
  | Fin x, Fin y => Fin (x / y)
  | _, _ => NaN
  end.

(** [Math.min] and [Math.max] return [NaN] as soon as one argument is. *)
Definition Math_min (a b : num) : num :=
  match a, b with
  | Fin x, Fin y => Fin (Rmin x y)
  | _, _ => NaN
  end.

Definition Math_max (a b : num) : num :=
  match a, b with
  | Fin x, Fin y => Fin (Rmax x y)
  | _, _ => NaN
  end.

(** [a > b] on possibly-[NaN] numbers: false as soon as one is [NaN]. *)
Definition num_gtb (a b : num) : bool :=
  match a, b with
  | Fin x, Fin y => gtb x y
  | _, _ => false
  end.

(** [Math.log2], [Math.ceil], [Math.floor], [Math.trunc] on reals. *)
Definition Math_log2 (x : R) : R := ln x / ln 2.
Definition Math_ceil (x : R) : Z := Zceil x.
Definition Math_floor (x : R) : Z := Zfloor x.
Definition Math_trunc (x : R) : Z := if ltb x 0 then Zceil x else Zfloor x.

(** [a % b] on numbers: the remainder has the sign of the dividend. *)
Definition js_rem (a b : R) : R := a - b * IZR (Math_trunc (a / b)).

(** [Number(x.toFixed(d))]: the nearest multiple of [10^-d] and, on a
    tie, the one farther from zero: [toFixed] rounds the absolute value,
    taking the larger candidate on a tie, and puts the sign back. *)
Definition toFixed (x : R) (d : nat) : R :=
  if ltb x 0 then - (IZR (Zfloor (- x * 10 ^ d + / 2)) / 10 ^ d)
  else IZR (Zfloor (x * 10 ^ d + / 2)) / 10 ^ d.

(** [arr.reduce((sum, val) => sum + val, 0)]. *)
Definition sum (l : list R) : R := fold_left Rplus l 0.

(** ** JavaScript arrays *)

(** [arr.slice(k)] for an integer [k]: a negative [k] counts from the
    end of the array. *)
Definition js_slice_from {A} (k : Z) (l : list A) : list A :=
  if (k <? 0)%Z then drop (length l - Z.to_nat (- k)) l else drop (Z.to_nat k) l.

(** [arr.slice(a, b)] for negative [a] and [b], both counted from the
    end of the array. *)
Definition js_slice_neg {A} (a b : nat) (l : list A) : list A :=
  let from := (length l - a)%nat in
  let to := (length l - b)%nat in
  take (to - from) (drop from l).

(** [arr.shift()]: drops the first element. *)
Definition shift {A} (l : list A) : list A := tail l.

(** ** Random draws and the clock *)

(** The results of the successive calls of [Math.random()] and the
    index of the next one. *)
Record Rng : Type := mkRng { draws : nat -> R; pos : nat }.

Definition random (g : Rng) : R * Rng :=
  (draws g (pos g), {| draws := draws g; pos := S (pos g) |}).

(** The arithmetic of the engine on doubles, where a claim depends on
    it.  [round] takes the exact result of an addition, a subtraction or
    a division to the double that the operation returns; [Math_pow2] is
    [Math.pow(x, 2)] and [Math_sqrt] is [Math.sqrt(x)], library
    functions whose result the language leaves to the engine. *)
Record Arithmetic : Type :=
  { round : R -> R;
    Math_pow2 : R -> R;
    Math_sqrt : R -> R }.

(** The arithmetic of the reals, without any rounding. *)
Definition real_arithmetic : Arithmetic :=
  {| round := fun x => x; Math_pow2 := fun x => x ^ 2; Math_sqrt := sqrt |}.

(** ** [telemetry.js]: the simulator *)

Module Telemetry.

Inductive Status : Type := normal | warning | critical.

#[global] Instance Status_eq_dec : EqDecision Status.
Proof. solve_decision. Defined.

(** [this.subsystems]: the constant configuration table set up by the
    constructor and never assigned afterwards. *)
Module subsystems.
Module battery.
Definition voltage_base : R := 24.
Definition voltage_range : R := 2.
Definition current_base : R := -2.5.
Definition current_noise : R := 0.1.
Definition temperature_base : R := 20.
Definition temperature_threshold : R := 45.
Definition capacity_base : R := 100.
Definition capacity_degradation : R := 0.0001.
End battery.
Module solar.
Definition power_base : R := 2400.
Definition power_efficiency : R := 0.98.
Definition voltage_base : R := 32.
Definition voltage_range : R := 3.
Definition temperature_base : R := -10.
Definition temperature_threshold : R := 85.
End solar.
Module thermal.
Definition processor_base : R := 35.
Definition processor_range : R := 10.
Definition processor_threshold : R := 70.
Definition battery_base : R := 20.
Definition battery_threshold : R := 45.
Definition solar_base : R := -10.
Definition solar_range : R := 40.
Definition solar_threshold : R := 85.
Definition radiator_base : R := -50.
End thermal.
Module communication.
Definition signalStrength_base : R := -85.
Definition signalStrength_range : R := 15.
Definition signalStrength_threshold : R := -110.
Definition dataRate_base : R := 256.
Definition dataRate_range : R := 64.
Definition errorRate_base : R := 0.001.
Definition errorRate_range : R := 0.005.
Definition errorRate_threshold : R := 0.1.
Definition antennaTemp_base : R := 25.
Definition antennaTemp_range : R := 5.
End communication.
Module attitude.
Definition roll_range : R := 2.
Definition roll_drift : R := 0.01.
Definition pitch_range : R := 2.
Definition pitch_drift : R := 0.01.
Definition yaw_range : R := 2.
Definition yaw_drift : R := 0.01.
Definition angularVelocity_base : R := 0.001.
Definition angularVelocity_range : R := 0.002.
End attitude.
End subsystems.

(** *** Status determination *)

Definition getBatteryStatus (voltage temperature capacity : R) : Status :=
  if gtb temperature subsystems.battery.temperature_threshold
     || ltb voltage 20 || ltb capacity 60
  then critical
  else if gtb temperature 35 || ltb voltage 22 || ltb capacity 80
  then warning
  else normal.

Definition getSolarStatus (power temperature : R) : Status :=
  if ltb power (subsystems.solar.power_base * 0.3)
     || gtb temperature subsystems.solar.temperature_threshold
  then critical
  else if ltb power (subsystems.solar.power_base * 0.7) || gtb temperature 60
  then warning
  else normal.

Definition getThermalStatus (processor battery solar : R) : Status :=
  if gtb processor subsystems.thermal.processor_threshold
     || gtb battery subsystems.thermal.battery_threshold
     || gtb solar subsystems.thermal.solar_threshold
  then critical
  else if gtb processor 50 || gtb battery 35 || gtb solar 60
  then warning
  else normal.

Definition getCommunicationStatus (signalStrength errorRate : R) : Status :=
  if ltb signalStrength subsystems.communication.signalStrength_threshold
     || gtb errorRate subsystems.communication.errorRate_threshold
  then critical
  else if ltb signalStrength (-100) || gtb errorRate 0.05
  then warning
  else normal.


(** *** Telemetry records *)

Module Battery.
Record t : Type := mk
  { voltage : R; current : R; temperature : R; capacity : R;
    status : Status }.
End Battery.

Module Solar.
Record t : Type := mk
  { power : R; voltage : R; current : R; temperature : R;
    efficiency : R; status : Status }.
End Solar.

Module Power.
Record t : Type := mk
  { battery : Battery.t; solar : Solar.t; eclipse : bool }.
End Power.

Module Thermal.
Record t : Type := mk
  { processor : R; battery : R; solar : R; radiator : R;
    status : Status }.
End Thermal.

Module Communication.
Record t : Type := mk
  { signalStrength : R; dataRate : R; errorRate : R;
    antennaTemperature : R; status : Status }.
End Communication.

Module Attitude.
Record t : Type := mk
  { roll : R; pitch : R; yaw : R; angularVelocity : R }.
End Attitude.

Module Point.
Record t : Type := mk
  { timestamp : Z; missionTime : R; power : Power.t;
    thermal : Thermal.t; communication : Communication.t;
    attitude : Attitude.t }.
End Point.

(** [this.dataHistory]; the [anomalies] entry is declared by the
    constructor and never used, it is kept as a list of points. *)
Record DataHistory : Type := mkHistory
  { h_power : list Point.t; h_thermal : list Point.t;
    h_communication : list Point.t; h_attitude : list Point.t;
    h_anomalies : list Point.t }.

(** The simulator object.  [simulatedFailures] is a plain JavaScript
    object used as a map from property names to flags. *)
Record Simulator : Type := mkSimulator
  { startTime : Z;
    isRunning : bool;
    dataHistory : DataHistory;
    simulatedFailures : gmap string bool;
    missionPhase : string }.

(** [if (this.simulatedFailures.k)] for one of the four names that the
    generators read, which are properties of the object itself: the
    flag, or [undefined], which is falsy, when the property is
    missing. *)
Definition failing (s : Simulator) (k : string) : bool :=
  default false (simulatedFailures s !! k).

(** *** Signal generation *)

(** [(Math.random() - 0.5) * k]. *)
Definition noise (g : Rng) (k : R) : R * Rng :=
  let '(r, g) := random g in ((r - 0.5) * k, g).

Definition generatePowerTelemetry (s : Simulator) (missionTime : R) (g : Rng)
  : Power.t * Rng :=
  let orbitPosition := js_rem missionTime 5400 / 5400 in
  let inEclipse := gtb orbitPosition 0.6 && ltb orbitPosition 0.9 in
  let '(n1, g) := noise g 0.1 in
  let batteryVoltage :=
    subsystems.battery.voltage_base
    + sin (missionTime * 0.001) * subsystems.battery.voltage_range * 0.3 + n1 in
  let '(n2, g) := noise g subsystems.battery.current_noise in
  let batteryCurrent :=
    subsystems.battery.current_base + (if inEclipse then -3 else 1) + n2 in
  let '(n3, g) := noise g 2 in
  let batteryTemp :=
    subsystems.battery.temperature_base + sin (missionTime * 0.0005) * 5 + n3 in
  let batteryCapacity :=
    Rmax 50 (subsystems.battery.capacity_base
             - missionTime * subsystems.battery.capacity_degradation) in
  let solarPower := subsystems.solar.power_base * subsystems.solar.power_efficiency in
  let '(solarPower, g) :=
    if inEclipse then (solarPower * 0.1, g)
    else let '(r, g) := random g in (solarPower * (0.8 + r * 0.4), g) in
  let solarVoltage :=
    subsystems.solar.voltage_base
    + (solarPower / subsystems.solar.power_base - 0.5) * subsystems.solar.voltage_range in
  let solarCurrent := solarPower / solarVoltage in
  let '(n4, g) := noise g 5 in
  let solarTemp :=
    subsystems.solar.temperature_base + (if inEclipse then -30 else 30)
    + sin (missionTime * 0.0008) * 10 + n4 in
  let '(batteryTemp, batteryVoltage, batteryCurrent) :=
    if failing s "battery"
    then (batteryTemp + 25, batteryVoltage * 0.85, batteryCurrent * 1.5)
    else (batteryTemp, batteryVoltage, batteryCurrent) in
  let '(solarPower, solarTemp) :=
    if failing s "solar" then (solarPower * 0.3, solarTemp + 20)
    else (solarPower, solarTemp) in
  ({| Power.battery :=
        {| Battery.voltage := toFixed batteryVoltage 2;
           Battery.current := toFixed batteryCurrent 2;
           Battery.temperature := toFixed batteryTemp 1;
           Battery.capacity := toFixed batteryCapacity 1;
           Battery.status :=
             getBatteryStatus batteryVoltage batteryTemp batteryCapacity |};
      Power.solar :=
        {| Solar.power := toFixed solarPower 1;
           Solar.voltage := toFixed solarVoltage 2;
           Solar.current := toFixed solarCurrent 2;
           Solar.temperature := toFixed solarTemp 1;
           Solar.efficiency :=
             toFixed (solarPower / subsystems.solar.power_base * 100) 1;
           Solar.status := getSolarStatus solarPower solarTemp |};
      Power.eclipse := inEclipse |}, g).

Definition generateThermalTelemetry (s : Simulator) (missionTime : R) (g : Rng)
  : Thermal.t * Rng :=
  let '(n1, g) := noise g (subsystems.thermal.processor_range * 0.1) in
  let processorTemp :=
    subsystems.thermal.processor_base + sin (missionTime * 0.001) * 5 + n1 in
  let '(n2, g) := noise g 2 in
  let batteryTemp :=
    subsystems.thermal.battery_base + sin (missionTime * 0.0008) * 3 + n2 in
  let '(n3, g) := noise g 5 in
  let solarTemp :=
    subsystems.thermal.solar_base
    + sin (missionTime * 0.0005) * subsystems.thermal.solar_range * 0.3 + n3 in
  let '(n4, g) := noise g 3 in
  let radiatorTemp :=
    subsystems.thermal.radiator_base + sin (missionTime * 0.0003) * 10 + n4 in
  let '(processorTemp, batteryTemp) :=
    if failing s "thermal" then (processorTemp + 20, batteryTemp + 15)
    else (processorTemp, batteryTemp) in
  ({| Thermal.processor := toFixed processorTemp 1;
      Thermal.battery := toFixed batteryTemp 1;
      Thermal.solar := toFixed solarTemp 1;
      Thermal.radiator := toFixed radiatorTemp 1;
      Thermal.status := getThermalStatus processorTemp batteryTemp solarTemp |},
   g).

Definition generateCommunicationTelemetry (s : Simulator) (missionTime : R)
  (g : Rng) : Communication.t * Rng :=
  let '(n1, g) := noise g 3 in
  let signalStrength :=
    subsystems.communication.signalStrength_base
    + sin (missionTime * 0.0012) * subsystems.communication.signalStrength_range * 0.5
    + n1 in
  let '(n2, g) := noise g 10 in
  let dataRate :=
    subsystems.communication.dataRate_base
    + sin (missionTime * 0.0015) * subsystems.communication.dataRate_range * 0.3
    + n2 in
  let '(r3, g) := random g in
  let errorRate :=
    subsystems.communication.errorRate_base
    + Rmax 0 (sin (missionTime * 0.002) * subsystems.communication.errorRate_range * 0.5
              + (r3 - 0.5) * subsystems.communication.errorRate_range * 0.2) in
  let '(n4, g) := noise g subsystems.communication.antennaTemp_range in
  let antennaTemp := subsystems.communication.antennaTemp_base + n4 in
  let '(signalStrength, dataRate, errorRate) :=
    if failing s "communication"
    then (signalStrength - 20, dataRate * 0.1, errorRate * 10)
    else (signalStrength, dataRate, errorRate) in
  ({| Communication.signalStrength := toFixed signalStrength 1;
      Communication.dataRate := toFixed dataRate 0;
      Communication.errorRate := toFixed errorRate 4;
      Communication.antennaTemperature := toFixed antennaTemp 1;
      Communication.status := getCommunicationStatus signalStrength errorRate |},
   g).

Definition generateAttitudeTelemetry (missionTime : R) (g : Rng)
  : Attitude.t * Rng :=
  let '(n1, g) := noise g subsystems.attitude.roll_drift in
  let roll := sin (missionTime * 0.0001) * subsystems.attitude.roll_range + n1 in
  let '(n2, g) := noise g subsystems.attitude.pitch_drift in
  let pitch := cos (missionTime * 0.0001) * subsystems.attitude.pitch_range + n2 in
  let '(n3, g) := noise g subsystems.attitude.yaw_drift in
  let yaw := sin (missionTime * 0.00005) * subsystems.attitude.yaw_range + n3 in
  let '(n4, g) := noise g subsystems.attitude.angularVelocity_range in
  let angularVelocity := subsystems.attitude.angularVelocity_base + n4 in
  ({| Attitude.roll := toFixed roll 3;
      Attitude.pitch := toFixed pitch 3;
      Attitude.yaw := toFixed yaw 3;
      Attitude.angularVelocity := toFixed angularVelocity 6 |}, g).

(** *** History and the public operations *)

(** [generateTelemetryPoint(timestamp, isHistorical)]; the second
    argument is not read. *)
Definition generateTelemetryPoint (s : Simulator) (timestamp : Z) (g : Rng)
  : Point.t * Simulator * Rng :=
  let missionTime := IZR (timestamp - startTime s) / 1000 in
  let '(powerData, g) := generatePowerTelemetry s missionTime g in
  let '(thermalData, g) := generateThermalTelemetry s missionTime g in
  let '(commData, g) := generateCommunicationTelemetry s missionTime g in
  let '(attitudeData, g) := generateAttitudeTelemetry missionTime g in
  let telemetryPoint :=
    {| Point.timestamp := timestamp; Point.missionTime := missionTime;
       Point.power := powerData; Point.thermal := thermalData;
       Point.communication := commData; Point.attitude := attitudeData |} in
  let h := dataHistory s in
  let power := h_power h ++ [telemetryPoint] in
  let thermal := h_thermal h ++ [telemetryPoint] in
  let communication := h_communication h ++ [telemetryPoint] in
  let h' :=
    if (300 <? length power)%nat
    then {| h_power := shift power; h_thermal := shift thermal;
            h_communication := shift communication;
            h_attitude := h_attitude h; h_anomalies := h_anomalies h |}
    else {| h_power := power; h_thermal := thermal;
            h_communication := communication;
            h_attitude := h_attitude h; h_anomalies := h_anomalies h |} in
  (telemetryPoint,
   {| startTime := startTime s; isRunning := isRunning s; dataHistory := h';
      simulatedFailures := simulatedFailures s;
      missionPhase := missionPhase s |},
   g).

(** The loop of [initializeHistory]: [i] runs from its start value down
    to 1. *)
Fixpoint initializeHistory_loop (i : nat) (now : Z) (s : Simulator) (g : Rng)
  : Simulator * Rng :=
  match i with
  | O => (s, g)
  | S i' =>
      let timestamp := (now - Z.of_nat i * 1000)%Z in
      let '(_, s, g) := generateTelemetryPoint s timestamp g in
      initializeHistory_loop i' now s g
  end.

Definition initializeHistory (now : Z) (s : Simulator) (g : Rng)
  : Simulator * Rng :=
  initializeHistory_loop 60 now s g.

(** [new TelemetrySimulator()]. *)
Definition constructor (now : Z) (g : Rng) : Simulator * Rng :=
  initializeHistory now
    {| startTime := now;
       isRunning := false;
       dataHistory :=
         {| h_power := []; h_thermal := []; h_communication := [];
            h_attitude := []; h_anomalies := [] |};
       simulatedFailures :=
         <["battery" := false]>
           (<["solar" := false]>
              (<["thermal" := false]> (<["communication" := false]> ∅)));
       missionPhase := "nominal" |}
    g.

Definition set_isRunning (b : bool) (s : Simulator) : Simulator :=
  {| startTime := startTime s; isRunning := b; dataHistory := dataHistory s;
     simulatedFailures := simulatedFailures s;
     missionPhase := missionPhase s |}.

Definition set_simulatedFailures (m : gmap string bool) (s : Simulator)
  : Simulator :=
  {| startTime := startTime s; isRunning := isRunning s;
     dataHistory := dataHistory s; simulatedFailures := m;
     missionPhase := missionPhase s |}.

(** [start] and [stop]; the interval timer exists exactly while
    [isRunning] holds. *)
Definition start (s : Simulator) : Simulator :=
  if isRunning s then s else set_isRunning true s.

Definition stop (s : Simulator) : Simulator :=
  if isRunning s then set_isRunning false s else s.

(** A pending [setTimeout] of [simulateFailure]: the time at which it
    fires and the subsystem its callback clears. *)
Record Timer : Type := mkTimer { fireAt : Z; target : string }.

(** [this.simulatedFailures[k] = v], an assignment to a property of a
    plain object.  The name ["__proto__"] is special: unless the object
    has a property of its own under that name, the assignment goes to
    the setter that [Object.prototype] provides, which ignores a value
    that is no object, so that nothing is recorded.  Under every other
    name the property is created or overwritten. *)
Definition assignable (m : gmap string bool) (k : string) : bool :=
  negb (String.eqb k "__proto__") || bool_decide (is_Some (m !! k)).

Definition assign (k : string) (v : bool) (m : gmap string bool)
  : gmap string bool :=
  if assignable m k then <[k := v]> m else m.

Definition clearFailure (s : Simulator) (subsystem : string) : Simulator :=
  set_simulatedFailures (assign subsystem false (simulatedFailures s)) s.

(** [simulateFailure] sets the flag and arms a new timer; the handle
    that [setTimeout] returns is dropped. *)
Definition simulateFailure (s : Simulator) (subsystem : string) (now : Z)
  : Simulator * Timer :=
  (set_simulatedFailures (assign subsystem true (simulatedFailures s)) s,
   {| fireAt := (now + 30000)%Z; target := subsystem |}).

Definition getLatestTelemetry (s : Simulator) : option Point.t :=
  last (h_power (dataHistory s)).

(** The names that every plain object inherits from [Object.prototype]:
    reading one of them from [dataHistory] gives a function, or, for
    ["__proto__"], the prototype object itself. *)
Definition Object_prototype : list string :=
  [ "constructor"; "__defineGetter__"; "__defineSetter__"; "hasOwnProperty";
    "__lookupGetter__"; "__lookupSetter__"; "isPrototypeOf";
    "propertyIsEnumerable"; "toString"; "valueOf"; "__proto__";
    "toLocaleString" ].

Definition inherited (name : string) : bool :=
  existsb (String.eqb name) Object_prototype.

(** The value of [this.dataHistory[subsystem] || this.dataHistory.power]. *)
Inductive HistoryValue : Type :=
  | HArray (points : list Point.t)
  | HInherited.

(** An array, even an empty one, is truthy, and so is every inherited
    value; the fallback is taken only for a name that [dataHistory]
    neither has nor inherits. *)
Definition history_of (h : DataHistory) (subsystem : string) : HistoryValue :=
  if String.eqb subsystem "power" then HArray (h_power h)
  else if String.eqb subsystem "thermal" then HArray (h_thermal h)
  else if String.eqb subsystem "communication" then HArray (h_communication h)
  else if String.eqb subsystem "attitude" then HArray (h_attitude h)
  else if String.eqb subsystem "anomalies" then HArray (h_anomalies h)
  else if inherited subsystem then HInherited
  else HArray (h_power h).

(** [getHistoricalData]: [None] stands for the [TypeError] that
    [history.slice] raises when [history] is an inherited value, which
    has no [slice] method. *)
Definition getHistoricalData (s : Simulator) (subsystem : string) (minutes : R)
  : option (list Point.t) :=
  let history := history_of (dataHistory s) subsystem in
  let pointsNeeded := minutes * 60 in
  match history with
  | HArray points => Some (js_slice_from (Math_trunc (- pointsNeeded)) points)
  | HInherited => None
  end.

End Telemetry.

(** ** [anomaly-detection.js]: the rolling statistical model *)

Module StatisticalModel.

Record t : Type := mk
  { windowSize : nat;
    dataPoints : list R;
    mean : R;
    variance : R;
    standardDeviation : R }.

(** [new StatisticalModel(windowSize = 100)]. *)
Definition constructor (windowSize : nat) : t :=
  {| windowSize := windowSize; dataPoints := []; mean := 0; variance := 0;
     standardDeviation := 0 |}.

Definition default_windowSize : nat := 100.

Section Doubles.

Variable fl : Arithmetic.

(** The two reductions of [updateStatistics], over any array: each
    addition, subtraction and division returns a double. *)
Definition window_mean (l : list R) : R :=
  round fl (fold_left (fun sum val => round fl (sum + val)) l 0 / INR (length l)).

Definition window_variance (l : list R) : R :=
  round fl
    (fold_left
       (fun sum val => round fl (sum + Math_pow2 fl (round fl (val - window_mean l))))
       l 0
     / INR (length l)).

Definition updateStatistics (m : t) : t :=
  if (length (dataPoints m) <? 10)%nat then m
  else
    let mean :=
      round fl
        (fold_left (fun sum val => round fl (sum + val)) (dataPoints m) 0
         / INR (length (dataPoints m))) in
    let variance :=
      round fl
        (fold_left
           (fun sum val => round fl (sum + Math_pow2 fl (round fl (val - mean))))
           (dataPoints m) 0
         / INR (length (dataPoints m))) in
    {| windowSize := windowSize m; dataPoints := dataPoints m;
       mean := mean; variance := variance;
       standardDeviation := Math_sqrt fl variance |}.

Definition addDataPoint (m : t) (value : R) : t :=
  let pushed := dataPoints m ++ [value] in
  let dataPoints :=
    if (windowSize m <? length pushed)%nat then shift pushed else pushed in
  updateStatistics
    {| windowSize := windowSize m; dataPoints := dataPoints; mean := mean m;
       variance := variance m; standardDeviation := standardDeviation m |}.

End Doubles.

Definition hasEnoughData (m : t) : bool :=
  (20 <=? length (dataPoints m))%nat && gtb (standardDeviation m) 0.

Definition calculateAnomalyScore (m : t) (value : R) : R :=
  if negb (hasEnoughData m) then 0
  else
    let zScore := Rabs ((value - mean m) / standardDeviation m) in
    Rmin 0.999 (Rmax 0 ((zScore - 1) / 2)).

End StatisticalModel.

(** ** [anomaly-detection.js]: the isolation forest *)

Module IsolationForest.

(** A tree node object: a leaf [{ size }] or an inner node
    [{ featureIndex, splitValue, left, right }]. *)
Inductive Tree : Type :=
  | Leaf (size : nat)
  | Node (featureIndex : nat) (splitValue : R) (left right : Tree).

Record t : Type := mk
  { numTrees : nat;
    subsampleSize : nat;
    trees : list Tree;
    trainingData : list (list R);
    trained : bool }.

(** [new IsolationForest(numTrees = 10, subsampleSize = 50)]. *)
Definition constructor (numTrees subsampleSize : nat) : t :=
  {| numTrees := numTrees; subsampleSize := subsampleSize; trees := [];
     trainingData := []; trained := false |}.

Definition default_numTrees : nat := 10.
Definition default_subsampleSize : nat := 50.

(** [point[i]] on a training vector.  All training vectors have the
    width of the first one (eight in the pipeline) and the index is drawn
    below that width, so the default is never read. *)
Definition feature (point : list R) (i : nat) : R := nth i point 0.

(** [Math.min(...values)] and [Math.max(...values)] on a non-empty
    array (the callers hold at least two points). *)
Definition Math_min_list (l : list R) : R :=
  match l with
  | [] => 0
  | x :: l' => fold_left Rmin l' x
  end.

Definition Math_max_list (l : list R) : R :=
  match l with
  | [] => 0
  | x :: l' => fold_left Rmax l' x
  end.

(** [buildTree(data, currentDepth, maxDepth)], by recursion on the number
    [maxDepth - currentDepth] of levels that remain: it is zero exactly
    when [currentDepth >= maxDepth], and the recursive calls are at
    [currentDepth + 1].  The draws are taken in evaluation order: the
    feature, the split value, the left subtree, the right subtree. *)
Fixpoint buildTree_levels (levels : nat) (data : list (list R)) (g : Rng)
  : Tree * Rng :=
  match levels with
  | O => (Leaf (length data), g)
  | S levels' =>
      if (length data <=? 1)%nat then (Leaf (length data), g)
      else
        let '(r, g) := random g in
        let featureIndex :=
          Z.to_nat (Math_floor (r * INR (length (hd [] data)))) in
        let featureValues := map (fun point => feature point featureIndex) data in
        let minVal := Math_min_list featureValues in
        let maxVal := Math_max_list featureValues in
        if eqb minVal maxVal then (Leaf (length data), g)
        else
          let '(r, g) := random g in
          let splitValue := minVal + r * (maxVal - minVal) in
          let leftData :=
            List.filter (fun point => ltb (feature point featureIndex) splitValue) data in
          let rightData :=
            List.filter (fun point => geb (feature point featureIndex) splitValue) data in
          let '(l, g) := buildTree_levels levels' leftData g in
          let '(r, g) := buildTree_levels levels' rightData g in
          (Node featureIndex splitValue l r, g)
  end.

Definition buildTree (data : list (list R)) (currentDepth maxDepth : nat)
  (g : Rng) : Tree * Rng :=
  buildTree_levels (maxDepth - currentDepth) data g.

Section Training.

(** [[...data].sort(() => Math.random() - 0.5)]: which permutation a
    sort produces under a comparator that answers at random, and how
    many draws it takes, is left to the JavaScript engine. *)
Variable sort_random : list (list R) -> Rng -> list (list R) * Rng.

Definition createSubsample (f : t) (g : Rng) : list (list R) * Rng :=
  let '(shuffled, g) := sort_random (trainingData f) g in
  (take (Nat.min (subsampleSize f) (length shuffled)) shuffled, g).

(** The loop of [train]: [n] more trees are built and pushed. *)
Fixpoint train_loop (n : nat) (f : t) (trees : list Tree) (g : Rng)
  : list Tree * Rng :=
  match n with
  | O => (trees, g)
  | S n' =>
      let '(subsample, g) := createSubsample f g in
      let '(tree, g) :=
        buildTree subsample 0
          (Z.to_nat (Math_ceil (Math_log2 (INR (subsampleSize f))))) g in
      train_loop n' f (trees ++ [tree]) g
  end.

Definition train (f : t) (g : Rng) : t * Rng :=
  if (length (trainingData f) <? 20)%nat then (f, g)
  else
    let '(trees, g) := train_loop (numTrees f) f [] g in
    ({| numTrees := numTrees f; subsampleSize := subsampleSize f;
        trees := trees; trainingData := trainingData f; trained := true |}, g).

Definition addTrainingData (f : t) (features : list R) (g : Rng) : t * Rng :=
  let pushed := trainingData f ++ [features] in
  let trainingData :=
    if (500 <? length pushed)%nat then shift pushed else pushed in
  let f :=
    {| numTrees := numTrees f; subsampleSize := subsampleSize f;
       trees := trees f; trainingData := trainingData; trained := trained f |} in
  if ((length trainingData mod 50 =? 0) && (100 <=? length trainingData))%nat
  then train f g
  else (f, g).

End Training.

(** [c(n)], where [n] is the [size] property of a node object: [None]
    is [undefined], on which every arithmetic operation gives [NaN] and
    the comparison [n <= 1] is false. *)
Definition c (n : option nat) : num :=
  match n with
  | None => NaN
  | Some n =>
      if (n <=? 1)%nat then Fin 0
      else Fin (2 * (ln (INR n - 1) + 0.5772156649) - 2 * (INR n - 1) / INR n)
  end.

(** [features[i] < splitValue]: a missing entry is [undefined] and the
    comparison is false. *)
Definition feature_below (features : list R) (i : nat) (splitValue : R) : bool :=
  match features !! i with
  | Some x => ltb x splitValue
  | None => false
  end.

(** [getPathLength].  The test [!tree.featureIndex] holds for a leaf,
    where the property is [undefined], and for an inner node whose
    [featureIndex] is 0, since [!0] is true; such a node has no [size]
    property. *)
Fixpoint getPathLength (features : list R) (tree : Tree) (currentDepth : nat)
  : num :=
  match tree with
  | Leaf size => num_add (Fin (INR currentDepth)) (c (Some size))
  | Node O _ _ _ => num_add (Fin (INR currentDepth)) (c None)
  | Node (S _ as featureIndex) splitValue l r =>
      if feature_below features featureIndex splitValue
      then getPathLength features l (currentDepth + 1)
      else getPathLength features r (currentDepth + 1)
  end.

Definition predict (f : t) (features : list R) : num :=
  if negb (trained f) || (length (trees f) =? 0)%nat then Fin 0
  else
    let pathLengths := map (fun tree => getPathLength features tree 0) (trees f) in
    let avgPathLength :=
      num_div (fold_left num_add pathLengths (Fin 0))
              (Fin (INR (length pathLengths))) in
    let expectedPathLength := Math_log2 (INR (subsampleSize f)) in
    Math_max (Fin 0)
      (Math_min (Fin 1)
         (num_sub (Fin 1) (num_div avgPathLength (Fin expectedPathLength)))).

End IsolationForest.

(** ** [anomaly-detection.js]: the time-series detector *)

Module LSTMTimeSeriesDetector.

Record Baseline : Type := mkBaseline { means : list R; variances : list R }.

Record t : Type := mk
  { sequenceLength : nat;
    sequences : list (list R);
    trained : bool;
    baseline : option Baseline }.

(** [new LSTMTimeSeriesDetector(sequenceLength = 30)]. *)
Definition constructor (sequenceLength : nat) : t :=
  {| sequenceLength := sequenceLength; sequences := []; trained := false;
     baseline := None |}.

Definition default_sequenceLength : nat := 30.

(** [seqs.map(seq => seq[i])]; every vector has the five entries that
    [addSequencePoint] gives it. *)
Definition column (seqs : list (list R)) (i : nat) : list R :=
  map (fun seq => nth i seq 0) seqs.

Definition train (d : t) : t :=
  if (length (sequences d) <? sequenceLength d)%nat then d
  else
    let numFeatures := length (hd [] (sequences d)) in
    let mean_of i := sum (column (sequences d) i) / INR (length (sequences d)) in
    let variance_of i :=
      fold_left (fun sum val => sum + (val - mean_of i) ^ 2)
        (column (sequences d) i) 0
      / INR (length (sequences d)) in
    {| sequenceLength := sequenceLength d; sequences := sequences d;
       trained := true;
       baseline :=
         Some {| means := map mean_of (seq 0 numFeatures);
                 variances := map variance_of (seq 0 numFeatures) |} |}.

Definition addSequencePoint (d : t) (telemetryData : Telemetry.Point.t) : t :=
  let features :=
    [ Telemetry.Battery.voltage (Telemetry.Power.battery (Telemetry.Point.power telemetryData));
      Telemetry.Battery.current (Telemetry.Power.battery (Telemetry.Point.power telemetryData));
      Telemetry.Solar.power (Telemetry.Power.solar (Telemetry.Point.power telemetryData));
      Telemetry.Thermal.processor (Telemetry.Point.thermal telemetryData);
      Telemetry.Communication.signalStrength (Telemetry.Point.communication telemetryData) ] in
  let pushed := sequences d ++ [features] in
  let sequences := if (200 <? length pushed)%nat then shift pushed else pushed in
  let d :=
    {| sequenceLength := sequenceLength d; sequences := sequences;
       trained := trained d; baseline := baseline d |} in
  if (sequenceLength d <=? length sequences)%nat && negb (trained d)
  then train d
  else d.

(** [detectAnomaly]; its argument is not read.  [trained] is set only
    together with [baseline], so the baseline is present when it is
    read. *)
Definition detectAnomaly (d : t) (telemetryData : Telemetry.Point.t) : R :=
  if negb (trained d) || (length (sequences d) <? sequenceLength d)%nat then 0
  else
    let recentSequence :=
      js_slice_from (- Z.of_nat (sequenceLength d)) (sequences d) in
    let base := default {| means := []; variances := [] |} (baseline d) in
    let numFeatures := length (hd [] recentSequence) in
    let deviation i :=
      let recentValues := column recentSequence i in
      let recentMean := sum recentValues / INR (length recentValues) in
      Rabs (recentMean - nth i (means base) 0)
      / sqrt (nth i (variances base) 0 + 0.0001) in
    let totalDeviation :=
      fold_left (fun total i => total + deviation i) (seq 0 numFeatures) 0 in
    let avgDeviation := totalDeviation / INR numFeatures in
    Rmin 1 (Rmax 0 ((avgDeviation - 1) / 3)).

End LSTMTimeSeriesDetector.

(** ** [anomaly-detection.js]: the detector *)

Module AnomalyDetector.

Import Telemetry.

Inductive Kind : Type :=
  | threshold | statistical | ml_isolation | ml_lstm | pattern.

Inductive Severity : Type := sev_critical | sev_warning.

#[global] Instance Kind_eq_dec : EqDecision Kind.
Proof. solve_decision. Defined.

#[global] Instance Severity_eq_dec : EqDecision Severity.
Proof. solve_decision. Defined.

(** The object literal that a detector pushes.  A property that the
    literal does not set is [None].  The property [threshold] is the
    field [limit] here, the name [threshold] being the kind. *)
Record Detection : Type := mkDetection
  { type : Kind;
    severity : Severity;
    subsystem : string;
    parameter : string;
    value : option R;
    limit : option R;
    score : option R }.

(** The same object once [processDetectedAnomalies] has set [id],
    [timestamp] and [acknowledged] on it; [acknowledgedAt] and
    [acknowledgedBy] are set on acknowledgement. *)
Record Anomaly : Type := mkAnomaly
  { detection : Detection;
    id : string;
    timestamp : Z;
    acknowledged : bool;
    acknowledgedAt : option Z;
    acknowledgedBy : option string }.

(** [this.thresholds], a constant table. *)
Module thresholds.
Module battery.
Definition voltage_min : R := 20.
Definition voltage_max : R := 28.
Definition voltage_critical_min : R := 18.
Definition voltage_critical_max : R := 30.
Definition temperature_max : R := 45.
Definition temperature_critical_max : R := 55.
End battery.
Module solar.
Definition power_min : R := 1200.
Definition power_critical_min : R := 800.
End solar.
Module thermal.
Definition processor_critical_max : R := 85.
End thermal.
Module communication.
Definition signalStrength_critical_min : R := -120.
End communication.
End thresholds.

Definition detectThresholdAnomalies (data : Point.t) : list Detection :=
  let battery := Power.battery (Point.power data) in
  let solar := Power.solar (Point.power data) in
  let thermal := Point.thermal data in
  let comm := Point.communication data in
  let found (sev : Severity) (sub par : string) (v lim : R) :=
    [ {| type := threshold; severity := sev; subsystem := sub;
         parameter := par; value := Some v; limit := Some lim;
         score := None |} ] in
  (if ltb (Battery.voltage battery) thresholds.battery.voltage_critical_min
      || gtb (Battery.voltage battery) thresholds.battery.voltage_critical_max
   then found sev_critical "battery" "voltage" (Battery.voltage battery)
          (if ltb (Battery.voltage battery) thresholds.battery.voltage_critical_min
           then thresholds.battery.voltage_critical_min
           else thresholds.battery.voltage_critical_max)
   else if ltb (Battery.voltage battery) thresholds.battery.voltage_min
           || gtb (Battery.voltage battery) thresholds.battery.voltage_max
   then found sev_warning "battery" "voltage" (Battery.voltage battery)
          (if ltb (Battery.voltage battery) thresholds.battery.voltage_min
           then thresholds.battery.voltage_min
           else thresholds.battery.voltage_max)
   else [])
  ++ (if gtb (Battery.temperature battery) thresholds.battery.temperature_critical_max
      then found sev_critical "battery" "temperature" (Battery.temperature battery)
             thresholds.battery.temperature_critical_max
      else if gtb (Battery.temperature battery) thresholds.battery.temperature_max
      then found sev_warning "battery" "temperature" (Battery.temperature battery)
             thresholds.battery.temperature_max
      else [])
  ++ (if negb (Power.eclipse (Point.power data))
         && ltb (Solar.power solar) thresholds.solar.power_critical_min
      then found sev_critical "solar" "power" (Solar.power solar)
             thresholds.solar.power_critical_min
      else if negb (Power.eclipse (Point.power data))
              && ltb (Solar.power solar) thresholds.solar.power_min
      then found sev_warning "solar" "power" (Solar.power solar)
             thresholds.solar.power_min
      else [])
  ++ (if gtb (Thermal.processor thermal) thresholds.thermal.processor_critical_max
      then found sev_critical "thermal" "processor" (Thermal.processor thermal)
             thresholds.thermal.processor_critical_max
      else [])
  ++ (if ltb (Communication.signalStrength comm)
             thresholds.communication.signalStrength_critical_min
      then found sev_critical "communication" "signalStrength"
             (Communication.signalStrength comm)
             thresholds.communication.signalStrength_critical_min
      else []).

(** [this.statisticalModels]. *)
Record StatisticalModels : Type := mkModels
  { battery_voltage : StatisticalModel.t;
    battery_current : StatisticalModel.t;
    battery_temperature : StatisticalModel.t;
    solar_power : StatisticalModel.t;
    processor_temp : StatisticalModel.t;
    signal_strength : StatisticalModel.t }.

(** The detector object.  [store] holds the anomaly objects; [anomalies]
    and [anomalyHistory] are arrays of references (indices) into it, so
    that a mutation of an object is seen through both arrays. *)
Record t : Type := mk
  { store : list Anomaly;
    anomalies : list nat;
    anomalyHistory : list nat;
    isolationForest : IsolationForest.t;
    lstmDetector : LSTMTimeSeriesDetector.t;
    statisticalModels : StatisticalModels;
    isTraining : bool;
    trainingComplete : bool;
    detectionEnabled : bool }.

(** [new AnomalyDetector()]. *)
Definition constructor : t :=
  let model := StatisticalModel.constructor StatisticalModel.default_windowSize in
  {| store := []; anomalies := []; anomalyHistory := [];
     isolationForest :=
       IsolationForest.constructor IsolationForest.default_numTrees
         IsolationForest.default_subsampleSize;
     lstmDetector :=
       LSTMTimeSeriesDetector.constructor
         LSTMTimeSeriesDetector.default_sequenceLength;
     statisticalModels :=
       {| battery_voltage := model; battery_current := model;
          battery_temperature := model; solar_power := model;
          processor_temp := model; signal_strength := model |};
     isTraining := false; trainingComplete := false;
     detectionEnabled := true |}.

(** *** The detectors *)

Definition detectStatisticalAnomalies (d : t) (data : Point.t)
  : list Detection :=
  let models := statisticalModels d in
  (* [param.split('_')[0]], [param.split('_').slice(1).join('_')], the
     model under [param] and the value, in the order of the literal *)
  let parameters :=
    [ ("battery", "voltage", battery_voltage models,
       Battery.voltage (Power.battery (Point.power data)));
      ("battery", "current", battery_current models,
       Battery.current (Power.battery (Point.power data)));
      ("battery", "temperature", battery_temperature models,
       Battery.temperature (Power.battery (Point.power data)));
      ("solar", "power", solar_power models,
       Solar.power (Power.solar (Point.power data)));
      ("processor", "temp", processor_temp models,
       Thermal.processor (Point.thermal data));
      ("signal", "strength", signal_strength models,
       Communication.signalStrength (Point.communication data)) ] in
  flat_map
    (fun '(sub, par, model, v) =>
       if StatisticalModel.hasEnoughData model then
         let anomalyScore := StatisticalModel.calculateAnomalyScore model v in
         if gtb anomalyScore 0.95 then
           [ {| type := statistical;
                severity := if gtb anomalyScore 0.99 then sev_critical else sev_warning;
                subsystem := sub; parameter := par; value := Some v;
                limit := None; score := Some anomalyScore |} ]
         else []
       else [])
    parameters.

(** The eight-entry vector that [detectMLAnomalies] and [updateModels]
    build from a sample. *)
Definition featureVector (data : Point.t) : list R :=
  [ Battery.voltage (Power.battery (Point.power data));
    Battery.current (Power.battery (Point.power data));
    Battery.temperature (Power.battery (Point.power data));
    Solar.power (Power.solar (Point.power data));
    Thermal.processor (Point.thermal data);
    Thermal.battery (Point.thermal data);
    Communication.signalStrength (Point.communication data);
    Communication.errorRate (Point.communication data) ].

Definition detectMLAnomalies (d : t) (data : Point.t) : list Detection :=
  let features := featureVector data in
  let isolationScore := IsolationForest.predict (isolationForest d) features in
  let lstmScore := LSTMTimeSeriesDetector.detectAnomaly (lstmDetector d) data in
  (if num_gtb isolationScore (Fin 0.7) then
     [ {| type := ml_isolation;
          severity :=
            if num_gtb isolationScore (Fin 0.9) then sev_critical else sev_warning;
          subsystem := "system"; parameter := "multivariate"; value := None;
          limit := None;
          score := match isolationScore with Fin x => Some x | NaN => None end |} ]
   else [])
  ++ (if gtb lstmScore 0.8 then
        [ {| type := ml_lstm;
             severity := if gtb lstmScore 0.95 then sev_critical else sev_warning;
             subsystem := "system"; parameter := "temporal"; value := None;
             limit := None; score := Some lstmScore |} ]
      else []).

(** [average] and [variance], the utility methods. *)
Definition average (arr : list R) : R := sum arr / INR (length arr).

Definition variance (arr : list R) : R :=
  let avg := average arr in
  fold_left (fun sum val => sum + (val - avg) ^ 2) arr 0 / INR (length arr).

(** [detectPatternAnomalies] reads the history of the global
    simulator, which is passed as [sim].  The name it asks for is
    ["power"], a property of [dataHistory], so that the call of
    [getHistoricalData] returns an array. *)
Definition detectPatternAnomalies (sim : Simulator) (data : Point.t)
  : list Detection :=
  match getHistoricalData sim "power" 0.5 with
  | None => []
  | Some history =>
  if (length history <? 10)%nat then []
  else
    let recent := js_slice_from (-5) history in
    let previous := js_slice_neg 10 5 history in
    let voltage_of (p : Point.t) := Battery.voltage (Power.battery (Point.power p)) in
    let recentBatteryVoltage := map voltage_of recent in
    let previousBatteryVoltage := map voltage_of previous in
    let voltageChange :=
      Rabs (average recentBatteryVoltage - average previousBatteryVoltage) in
    let solarPowers :=
      map (fun p : Point.t => Solar.power (Power.solar (Point.power p))) recent in
    let solarVariance := variance solarPowers in
    (if gtb voltageChange 1 then
       [ {| type := pattern;
            severity := if gtb voltageChange 2 then sev_critical else sev_warning;
            subsystem := "battery"; parameter := "voltage_rate";
            value := Some voltageChange; limit := None; score := None |} ]
     else [])
    ++ (if gtb solarVariance 100000 && negb (Power.eclipse (Point.power data)) then
          [ {| type := pattern; severity := sev_warning; subsystem := "solar";
               parameter := "power_stability"; value := Some (sqrt solarVariance);
               limit := None; score := None |} ]
        else [])
  end.

(** *** The alert lists *)

Definition set_alerts (st : list Anomaly) (active history : list nat) (d : t) : t :=
  {| store := st; anomalies := active; anomalyHistory := history;
     isolationForest := isolationForest d; lstmDetector := lstmDetector d;
     statisticalModels := statisticalModels d; isTraining := isTraining d;
     trainingComplete := trainingComplete d;
     detectionEnabled := detectionEnabled d |}.

(** The objects that an array of references holds. *)
Definition objects (st : list Anomaly) (refs : list nat) : list Anomaly :=
  omap (fun r => st !! r) refs.

(** Two anomalies agree on subsystem, parameter, type and severity. *)
Definition same_key (a b : Anomaly) : bool :=
  String.eqb (subsystem (detection a)) (subsystem (detection b))
  && String.eqb (parameter (detection a)) (parameter (detection b))
  && bool_decide (type (detection a) = type (detection b))
  && bool_decide (severity (detection a) = severity (detection b)).

Definition isDuplicateAnomaly (d : t) (newAnomaly : Anomaly) (now : Z) : bool :=
  let recentAnomalies :=
    List.filter (fun a => (now - timestamp a <? 30000)%Z)
      (objects (store d) (anomalies d)) in
  existsb (fun existing => same_key existing newAnomaly) recentAnomalies.

Definition acknowledge (a : Anomaly) (at_ : Z) (by_ : string) : Anomaly :=
  {| detection := detection a; id := id a; timestamp := timestamp a;
     acknowledged := true; acknowledgedAt := Some at_;
     acknowledgedBy := Some by_ |}.

(** The [filter] of [cleanupOldAnomalies]: its callback marks the
    objects that it drops.  Every reference in [anomalies] was allocated
    by a push, so the lookup succeeds. *)
Fixpoint cleanup_filter (now : Z) (refs : list nat) (st : list Anomaly)
  : list nat * list Anomaly :=
  match refs with
  | [] => ([], st)
  | r :: refs' =>
      match st !! r with
      | Some anomaly =>
          if (300000 <? now - timestamp anomaly)%Z then
            let st :=
              if negb (acknowledged anomaly)
              then <[r := acknowledge anomaly now "auto-cleanup"]> st
              else st in
            cleanup_filter now refs' st
          else
            let '(kept, st) := cleanup_filter now refs' st in
            (r :: kept, st)
      | None => cleanup_filter now refs' st
      end
  end.

Definition cleanupOldAnomalies (d : t) (now : Z) : t :=
  let '(kept, st) := cleanup_filter now (anomalies d) (store d) in
  set_alerts st kept (anomalyHistory d) d.

Section Engine.

(** [x.toString(36)], the base-36 text of a number. *)
Variable toString36 : R -> string.

(** See [IsolationForest.createSubsample]. *)
Variable sort_random : list (list R) -> Rng -> list (list R) * Rng.

(** See [StatisticalModel.updateStatistics]. *)
Variable fl : Arithmetic.

Definition generateAnomalyId (now : Z) (g : Rng) : string * Rng :=
  let '(r, g) := random g in
  (toString36 (IZR now) +:+ String.substring 2 5 (toString36 r), g).

(** The loop of [processDetectedAnomalies].  A pushed object is
    allocated in the store and its reference goes to both arrays. *)
Fixpoint process_loop (batch : list Detection) (timestamp now : Z) (d : t)
  (g : Rng) : t * Rng :=
  match batch with
  | [] => (d, g)
  | found :: batch' =>
      let '(id, g) := generateAnomalyId now g in
      let anomaly :=
        {| detection := found; id := id; timestamp := timestamp;
           acknowledged := false; acknowledgedAt := None;
           acknowledgedBy := None |} in
      let d :=
        if negb (isDuplicateAnomaly d anomaly now) then
          let ref := length (store d) in
          set_alerts (store d ++ [anomaly]) (anomalies d ++ [ref])
            (anomalyHistory d ++ [ref]) d
        else d in
      process_loop batch' timestamp now d g
  end.

Definition processDetectedAnomalies (d : t) (batch : list Detection)
  (timestamp now : Z) (g : Rng) : t * Rng :=
  let '(d, g) := process_loop batch timestamp now d g in
  let d := cleanupOldAnomalies d now in
  let d :=
    if (1000 <? length (anomalyHistory d))%nat
    then set_alerts (store d) (anomalies d)
           (js_slice_from (-500) (anomalyHistory d)) d
    else d in
  (d, g).

Definition updateModels (d : t) (data : Point.t) (g : Rng) : t * Rng :=
  let models := statisticalModels d in
  let models :=
    {| battery_voltage :=
         StatisticalModel.addDataPoint fl (battery_voltage models)
           (Battery.voltage (Power.battery (Point.power data)));
       battery_current :=
         StatisticalModel.addDataPoint fl (battery_current models)
           (Battery.current (Power.battery (Point.power data)));
       battery_temperature :=
         StatisticalModel.addDataPoint fl (battery_temperature models)
           (Battery.temperature (Power.battery (Point.power data)));
       solar_power :=
         StatisticalModel.addDataPoint fl (solar_power models)
           (Solar.power (Power.solar (Point.power data)));
       processor_temp :=
         StatisticalModel.addDataPoint fl (processor_temp models)
           (Thermal.processor (Point.thermal data));
       signal_strength :=
         StatisticalModel.addDataPoint fl (signal_strength models)
           (Communication.signalStrength (Point.communication data)) |} in
  let '(forest, g) :=
    IsolationForest.addTrainingData sort_random (isolationForest d)
      (featureVector data) g in
  ({| store := store d; anomalies := anomalies d;
      anomalyHistory := anomalyHistory d; isolationForest := forest;
      lstmDetector :=
        LSTMTimeSeriesDetector.addSequencePoint (lstmDetector d) data;
      statisticalModels := models; isTraining := isTraining d;
      trainingComplete := trainingComplete d;
      detectionEnabled := detectionEnabled d |}, g).

Definition processTelemetry (d : t) (sim : Simulator) (telemetryData : Point.t)
  (now : Z) (g : Rng) : t * Rng :=
  let thresholdAnomalies := detectThresholdAnomalies telemetryData in
  let statisticalAnomalies := detectStatisticalAnomalies d telemetryData in
  let mlAnomalies :=
    if trainingComplete d then detectMLAnomalies d telemetryData else [] in
  let patternAnomalies := detectPatternAnomalies sim telemetryData in
  let found :=
    thresholdAnomalies ++ statisticalAnomalies ++ mlAnomalies
    ++ patternAnomalies in
  let '(d, g) :=
    if (0 <? length found)%nat
    then processDetectedAnomalies d found (Point.timestamp telemetryData) now g
    else (d, g) in
  updateModels d telemetryData g.

(** The callback that [trainMLModels] schedules after three seconds. *)
Definition trainingCallback (d : t) (g : Rng) : t * Rng :=
  let '(forest, g) := IsolationForest.train sort_random (isolationForest d) g in
  ({| store := store d; anomalies := anomalies d;
      anomalyHistory := anomalyHistory d; isolationForest := forest;
      lstmDetector := LSTMTimeSeriesDetector.train (lstmDetector d);
      statisticalModels := statisticalModels d; isTraining := false;
      trainingComplete := true; detectionEnabled := detectionEnabled d |}, g).

End Engine.

(** [trainMLModels]: the result and the detector; when the result is
    [true] a [trainingCallback] has been scheduled. *)
Definition trainMLModels (d : t) : bool * t :=
  if isTraining d then (false, d)
  else
    (true,
     {| store := store d; anomalies := anomalies d;
        anomalyHistory := anomalyHistory d;
        isolationForest := isolationForest d; lstmDetector := lstmDetector d;
        statisticalModels := statisticalModels d; isTraining := true;
        trainingComplete := trainingComplete d;
        detectionEnabled := detectionEnabled d |}).

(** *** The public queries and the acknowledgement *)

Definition getActiveAnomalies (d : t) : list Anomaly :=
  List.filter (fun a => negb (acknowledged a)) (objects (store d) (anomalies d)).

Definition getAnomalyHistory (d : t) (hours : R) (now : Z) : list Anomaly :=
  let cutoff := IZR now - hours * 60 * 60 * 1000 in
  List.filter (fun a => gtb (IZR (timestamp a)) cutoff)
    (objects (store d) (anomalyHistory d)).

(** [this.anomalies.find(a => a.id === anomalyId)], as a reference. *)
Fixpoint find_by_id (st : list Anomaly) (refs : list nat) (anomalyId : string)
  : option nat :=
  match refs with
  | [] => None
  | r :: refs' =>
      match st !! r with
      | Some a => if String.eqb (id a) anomalyId then Some r
                  else find_by_id st refs' anomalyId
      | None => find_by_id st refs' anomalyId
      end
  end.

(** The references whose object has another [id]; every reference of
    the array is allocated. *)
Definition other_ids (st : list Anomaly) (refs : list nat) (anomalyId : string)
  : list nat :=
  List.filter (fun r => match st !! r with
                        | Some a => negb (String.eqb (id a) anomalyId)
                        | None => true
                        end) refs.

Definition acknowledgeAnomaly (d : t) (anomalyId : string)
  (acknowledgedBy : string) (now : Z) : bool * t :=
  match find_by_id (store d) (anomalies d) anomalyId with
  | Some r =>
      let st := alter (fun a => acknowledge a now acknowledgedBy) r (store d) in
      (true, set_alerts st (other_ids st (anomalies d) anomalyId) (anomalyHistory d) d)
  | None => (false, d)
  end.

End AnomalyDetector.

(** ** The page: both global objects, the random draws and the timers *)

Module System.

Import Telemetry.

(** [window.telemetrySimulator], [window.anomalyDetector], the state of
    [Math.random] and the pending [setTimeout] callbacks: the ones of
    [simulateFailure] and the due times of the ones of [trainMLModels]. *)
Record t : Type := mk
  { simulator : Simulator;
    detector : AnomalyDetector.t;
    rng : Rng;
    failureTimers : list Timer;
    trainingTimers : list Z }.

(** What can happen to the page: a call of a public method, one firing
    of the interval timer of [start] ([Tick]), or the clock reaching
    [now] with the callbacks that are due by then run ([Timeout]). *)
Inductive Event : Type :=
  | Start
  | Stop
  | Tick (now : Z)
  | SimulateFailure (subsystem : string) (now : Z)
  | ClearFailure (subsystem : string)
  | Timeout (now : Z)
  | AcknowledgeAnomaly (anomalyId acknowledgedBy : string) (now : Z)
  | TrainMLModels (now : Z).

Definition set_simulator (sim : Simulator) (s : t) : t :=
  {| simulator := sim; detector := detector s; rng := rng s;
     failureTimers := failureTimers s; trainingTimers := trainingTimers s |}.

Definition set_detector (d : AnomalyDetector.t) (s : t) : t :=
  {| simulator := simulator s; detector := d; rng := rng s;
     failureTimers := failureTimers s; trainingTimers := trainingTimers s |}.

Definition due (now : Z) (timer : Timer) : bool := (fireAt timer <=? now)%Z.

Section Engine.

Variable toString36 : R -> string.
Variable sort_random : list (list R) -> Rng -> list (list R) * Rng.
Variable fl : Arithmetic.

(** The two scripts, loaded at time [now]. *)
Definition init (now : Z) (g : Rng) : t :=
  let '(sim, g) := constructor now g in
  {| simulator := sim; detector := AnomalyDetector.constructor; rng := g;
     failureTimers := []; trainingTimers := [] |}.

(** The interval callback of [start]: [generateTelemetryPoint()] and
    [broadcastUpdate()], whose event the listener of the detector
    receives in the same run. *)
Definition tick (now : Z) (s : t) : t :=
  if negb (isRunning (simulator s)) then s
  else
    let '(_, sim, g) := generateTelemetryPoint (simulator s) now (rng s) in
    match getLatestTelemetry sim with
    | Some latest =>
        if AnomalyDetector.detectionEnabled (detector s) then
          let '(d, g) :=
            AnomalyDetector.processTelemetry toString36 sort_random fl
              (detector s) sim latest now g in
          {| simulator := sim; detector := d; rng := g;
             failureTimers := failureTimers s;
             trainingTimers := trainingTimers s |}
        else
          {| simulator := sim; detector := detector s; rng := g;
             failureTimers := failureTimers s;
             trainingTimers := trainingTimers s |}
    | None =>
        {| simulator := sim; detector := detector s; rng := g;
           failureTimers := failureTimers s;
           trainingTimers := trainingTimers s |}
    end.

(** The callbacks of the failure timers that are due, oldest first. *)
Definition fire_failureTimers (now : Z) (s : t) : t :=
  let fired := List.filter (due now) (failureTimers s) in
  let pending := List.filter (fun timer => negb (due now timer)) (failureTimers s) in
  {| simulator :=
       fold_left (fun sim timer => clearFailure sim (target timer)) fired
         (simulator s);
     detector := detector s; rng := rng s; failureTimers := pending;
     trainingTimers := trainingTimers s |}.

Definition fire_trainingTimers (now : Z) (s : t) : t :=
  let fired := List.filter (fun at_ => (at_ <=? now)%Z) (trainingTimers s) in
  let pending := List.filter (fun at_ => negb (at_ <=? now)%Z) (trainingTimers s) in
  let '(d, g) :=
    fold_left
      (fun '(d, g) _ => AnomalyDetector.trainingCallback sort_random d g)
      fired (detector s, rng s) in
  {| simulator := simulator s; detector := d; rng := g;
     failureTimers := failureTimers s; trainingTimers := pending |}.

Definition step (s : t) (e : Event) : t :=
  match e with
  | Start => set_simulator (start (simulator s)) s
  | Stop => set_simulator (stop (simulator s)) s
  | Tick now => tick now s
  | SimulateFailure subsystem now =>
      let '(sim, timer) := simulateFailure (simulator s) subsystem now in
      {| simulator := sim; detector := detector s; rng := rng s;
         failureTimers := failureTimers s ++ [timer];
         trainingTimers := trainingTimers s |}
  | ClearFailure subsystem =>
      set_simulator (clearFailure (simulator s) subsystem) s
  | Timeout now => fire_trainingTimers now (fire_failureTimers now s)
  | AcknowledgeAnomaly anomalyId acknowledgedBy now =>
      set_detector
        (snd (AnomalyDetector.acknowledgeAnomaly (detector s) anomalyId
                acknowledgedBy now)) s
  | TrainMLModels now =>
      let '(scheduled, d) := AnomalyDetector.trainMLModels (detector s) in
      {| simulator := simulator s; detector := d; rng := rng s;
         failureTimers := failureTimers s;
         trainingTimers :=
           if scheduled then trainingTimers s ++ [(now + 3000)%Z]
           else trainingTimers s |}
  end.

Definition run (events : list Event) (s : t) : t := fold_left step events s.

End Engine.

End System.

(** ** [main.js]: the health of the system and the reset of the faults *)

Module Main.

Import Telemetry.

(** [appState.systemHealth]. *)
Inductive Health : Type := health_nominal | health_warning | health_critical.

(** [calculateHealthScore(telemetry)]: the four weighted scores are
    pushed to an array that is then summed up. *)
Definition calculateHealthScore (telemetry : Point.t) : R :=
  let batteryScore :=
    Rmin 1 (Battery.capacity (Power.battery (Point.power telemetry)) / 100) in
  let solarScore :=
    Rmin 1 (Solar.efficiency (Power.solar (Point.power telemetry)) / 100) in
  let thermalScore :=
    if ltb (Thermal.processor (Point.thermal telemetry)) 60 then 1
    else Rmax 0 ((80 - Thermal.processor (Point.thermal telemetry)) / 20) in
  let commScore :=
    Rmin 1
      (Rmax 0
         ((Communication.signalStrength (Point.communication telemetry) + 120)
          / 40)) in
  sum [batteryScore * 0.3; solarScore * 0.25; thermalScore * 0.25;
       commScore * 0.2].

(** [updateSystemHealth()]: the value of [appState.systemHealth] that
    the call leaves; without a latest sample it returns early. *)
Definition updateSystemHealth (sim : Simulator) (systemHealth : Health) : Health :=
  match getLatestTelemetry sim with
  | None => systemHealth
  | Some telemetry =>
      let healthScore := calculateHealthScore telemetry in
      if ltb healthScore 0.3 then health_critical
      else if ltb healthScore 0.7 then health_warning
      else health_nominal
  end.

(** [clearAllFailures()]: [clearFailure] on every key of
    [simulatedFailures]. *)
Definition clearAllFailures (sim : Simulator) : Simulator :=
  fold_left clearFailure (map fst (map_to_list (simulatedFailures sim))) sim.

End Main.

(** ** Concrete runs *)

Module Scenario.

(** An engine whose [Math.random] returns 0.1 at every call, whose sort
    leaves the array in its order under the random comparator, and whose
    [toString(36)] is not looked into. *)
Definition steady : Rng := {| draws := fun _ => 0.1; pos := 0 |}.

Definition keep_order (data : list (list R)) (g : Rng) : list (list R) * Rng :=
  (data, g).

Definition no_text (x : R) : string := "".

(** Twenty feature vectors of a quiet satellite whose battery voltage
    creeps up by 0.01 V per sample. *)
Definition reading (k : nat) : list R :=
  [24 + INR k / 100; -1.5; 20; 2352; 35; 20; -85; 0.001].

Definition readings : list (list R) := map reading (seq 0 20).

(** The forest after [addTrainingData] was called on each of them. *)
Definition fed_forest : IsolationForest.t :=
  fst (fold_left
         (fun '(f, g) features =>
            IsolationForest.addTrainingData keep_order f features g)
         readings
         (IsolationForest.constructor IsolationForest.default_numTrees
            IsolationForest.default_subsampleSize, steady)).

(** The same forest after [train()]. *)
Definition trained_forest : IsolationForest.t :=
  fst (IsolationForest.train keep_order fed_forest steady).

(** A critical battery temperature, as [detectThresholdAnomalies]
    reports it. *)
Definition hot_battery : AnomalyDetector.Detection :=
  {| AnomalyDetector.type := AnomalyDetector.threshold;
     AnomalyDetector.severity := AnomalyDetector.sev_critical;
     AnomalyDetector.subsystem := "battery";
     AnomalyDetector.parameter := "temperature";
     AnomalyDetector.value := Some 70;
     AnomalyDetector.limit := Some 55;
     AnomalyDetector.score := None |}.

(** The fresh detector after that detection was processed at time 0,
    with a sample stamped 0. *)
Definition alerted : AnomalyDetector.t * Rng :=
  AnomalyDetector.processDetectedAnomalies no_text AnomalyDetector.constructor
    [hot_battery] 0 0 steady.

(** The same detection again, from a sample stamped 29999 and processed
    one millisecond later. *)
Definition alerted_twice : AnomalyDetector.t * Rng :=
  AnomalyDetector.processDetectedAnomalies no_text (fst alerted)
    [hot_battery] 29999 30000 (snd alerted).

(** [toString(36)] at the two numbers that the next scenario passes to
    it, the clock reading 0 and the draw 0.1. *)
Definition base36 (x : R) : string :=
  if eqb x 0 then "0" else "0.3lllllllllm".

(** A critically low battery voltage, as [detectThresholdAnomalies]
    reports it. *)
Definition flat_battery : AnomalyDetector.Detection :=
  {| AnomalyDetector.type := AnomalyDetector.threshold;
     AnomalyDetector.severity := AnomalyDetector.sev_critical;
     AnomalyDetector.subsystem := "battery";
     AnomalyDetector.parameter := "voltage";
     AnomalyDetector.value := Some 17;
     AnomalyDetector.limit := Some 18;
     AnomalyDetector.score := None |}.

(** The fresh detector after both battery detections of one sample,
    stamped 0, were processed at time 0: the two calls of
    [generateAnomalyId] read the same clock and draw the same number. *)
Definition alerted_pair : AnomalyDetector.t * Rng :=
  AnomalyDetector.processDetectedAnomalies base36 AnomalyDetector.constructor
    [flat_battery; hot_battery] 0 0 steady.


(** A nominal sample in sunlight, stamped [timestamp]. *)
Definition quiet (timestamp : Z) : Telemetry.Point.t :=
  {| Telemetry.Point.timestamp := timestamp;
     Telemetry.Point.missionTime := IZR timestamp / 1000;
     Telemetry.Point.power :=
       {| Telemetry.Power.battery :=
            {| Telemetry.Battery.voltage := 24; Telemetry.Battery.current := -1.5;
               Telemetry.Battery.temperature := 20; Telemetry.Battery.capacity := 100;
               Telemetry.Battery.status := Telemetry.normal |};
          Telemetry.Power.solar :=
            {| Telemetry.Solar.power := 2352; Telemetry.Solar.voltage := 33.44;
               Telemetry.Solar.current := 70.33; Telemetry.Solar.temperature := 20;
               Telemetry.Solar.efficiency := 98; Telemetry.Solar.status := Telemetry.normal |};
          Telemetry.Power.eclipse := false |};
     Telemetry.Point.thermal :=
       {| Telemetry.Thermal.processor := 35; Telemetry.Thermal.battery := 20;
          Telemetry.Thermal.solar := -10; Telemetry.Thermal.radiator := -50;
          Telemetry.Thermal.status := Telemetry.normal |};
     Telemetry.Point.communication :=
       {| Telemetry.Communication.signalStrength := -85;
          Telemetry.Communication.dataRate := 256;
          Telemetry.Communication.errorRate := 0.001;
          Telemetry.Communication.antennaTemperature := 25;
          Telemetry.Communication.status := Telemetry.normal |};
     Telemetry.Point.attitude :=
       {| Telemetry.Attitude.roll := 0; Telemetry.Attitude.pitch := 2;
          Telemetry.Attitude.yaw := 0; Telemetry.Attitude.angularVelocity := 0.001 |} |}.

(** The simulator, started at time 0, after a quiet minute that ends at
    time 400000: its histories hold the sixty samples stamped 341000,
    342000, ..., 400000. *)
Definition quiet_minute : list Telemetry.Point.t :=
  map (fun k => quiet (341000 + 1000 * Z.of_nat k)) (seq 0 60).

Definition quiet_simulator : Telemetry.Simulator :=
  {| Telemetry.startTime := 0;
     Telemetry.isRunning := true;
     Telemetry.dataHistory :=
       {| Telemetry.h_power := quiet_minute; Telemetry.h_thermal := quiet_minute;
          Telemetry.h_communication := quiet_minute; Telemetry.h_attitude := [];
          Telemetry.h_anomalies := [] |};
     Telemetry.simulatedFailures :=
       <["battery" := false]>
         (<["solar" := false]>
            (<["thermal" := false]> (<["communication" := false]> ∅)));
     Telemetry.missionPhase := "nominal" |}.

(** The detector with its alert of time 0, after the sample of time
    400000 was processed at that time. *)
Definition alerted_later : AnomalyDetector.t * Rng :=
  AnomalyDetector.processTelemetry no_text keep_order real_arithmetic (fst alerted)
    quiet_simulator (quiet 400000) 400000 (snd alerted).

End Scenario.

(** ** Invariants and relations used in the statements *)

(** The three written histories move in step and stay within 300
    entries; the two others stay empty. *)
Definition history_ok (h : Telemetry.DataHistory) : Prop :=
  length (Telemetry.h_thermal h) = length (Telemetry.h_power h)
  /\ length (Telemetry.h_communication h) = length (Telemetry.h_power h)
  /\ (length (Telemetry.h_power h) <= 300)%nat
  /\ Telemetry.h_attitude h = []
  /\ Telemetry.h_anomalies h = [].

(** What a history holds after a push that evicts the oldest entry of
    a full history. *)
Definition pushed (l : list Telemetry.Point.t) (p : Telemetry.Point.t)
  : list Telemetry.Point.t :=
  (if (length l =? 300)%nat then shift l else l) ++ [p].

(** The four names that the constructor puts into [simulatedFailures]. *)
Definition known (subsystem : string) : Prop :=
  subsystem = "battery" \/ subsystem = "solar" \/ subsystem = "thermal"
  \/ subsystem = "communication".

(** The two bounds of the detector. *)
Definition detector_ok (d : AnomalyDetector.t) : Prop :=
  (length (IsolationForest.trainingData (AnomalyDetector.isolationForest d)) <= 500)%nat
  /\ (length (AnomalyDetector.anomalyHistory d) <= 1000)%nat.

Definition system_ok (s : System.t) : Prop :=
  history_ok (Telemetry.dataHistory (System.simulator s))
  /\ detector_ok (System.detector s).

(** In an array of anomalies, a later one with the key of an earlier
    one was detected at least 30 seconds after it. *)
Fixpoint apart (l : list AnomalyDetector.Anomaly) : Prop :=
  match l with
  | [] => True
  | a :: l' =>
      (forall b, In b l' -> AnomalyDetector.same_key a b = true ->
                 (30000 <= AnomalyDetector.timestamp b - AnomalyDetector.timestamp a)%Z)
      /\ apart l'
  end.

(** Two stores hold, under every reference, objects that differ in
    their acknowledgement only. *)
Definition same_stamps (st st' : list AnomalyDetector.Anomaly) : Prop :=
  length st' = length st
  /\ forall r a, st !! r = Some a ->
       exists a', st' !! r = Some a'
                  /\ AnomalyDetector.detection a' = AnomalyDetector.detection a
                  /\ AnomalyDetector.timestamp a' = AnomalyDetector.timestamp a
                  /\ AnomalyDetector.id a' = AnomalyDetector.id a.

(** The references of the active array are allocated and its entries
    are [apart]. *)
Definition dedup_ok (d : AnomalyDetector.t) : Prop :=
  (forall r, In r (AnomalyDetector.anomalies d) ->
             (r < length (AnomalyDetector.store d))%nat)
  /\ apart (AnomalyDetector.objects (AnomalyDetector.store d)
              (AnomalyDetector.anomalies d)).

(** The test under which the filter of [cleanupOldAnomalies] keeps a
    reference. *)
Definition fresh (now : Z) (st : list AnomalyDetector.Anomaly) (r : nat) : bool :=
  match st !! r with
  | Some a => negb (300000 <? now - AnomalyDetector.timestamp a)%Z
  | None => false
  end.

Definition page_ok (s : System.t) : Prop :=
  system_ok s /\ dedup_ok (System.detector s).

(** ** Measures used in the further statements *)

(** How bad a status is. *)
Definition rank (s : Telemetry.Status) : nat :=
  match s with
  | Telemetry.normal => 0
  | Telemetry.warning => 1
  | Telemetry.critical => 2
  end.

(** Every draw of [Math.random()] lies in [0, 1). *)
Definition unit_draws (g : Rng) : Prop := forall n, 0 <= draws g n < 1.

(** The eclipse test of [generatePowerTelemetry], as a function of the
    mission time. *)
Definition orbit_eclipse (missionTime : R) : bool :=
  gtb (js_rem missionTime 5400 / 5400) 0.6
  && ltb (js_rem missionTime 5400 / 5400) 0.9.

(** The three written histories hold the same samples, at least the
    sixty of the constructor. *)
Definition history_same (h : Telemetry.DataHistory) : Prop :=
  Telemetry.h_thermal h = Telemetry.h_power h
  /\ Telemetry.h_communication h = Telemetry.h_power h
  /\ (60 <= length (Telemetry.h_power h) <= 300)%nat
  /\ Telemetry.h_attitude h = []
  /\ Telemetry.h_anomalies h = [].

(** ** Predicates on the alert lists *)

(** Every reference of the active array is allocated and its object is
    unacknowledged. *)
(** The object under the reference [r] carries the id [anomalyId]. *)
Definition has_id (st : list AnomalyDetector.Anomaly) (anomalyId : string)
  (r : nat) : bool :=
  match st !! r with
  | Some a => String.eqb (AnomalyDetector.id a) anomalyId
  | None => false
  end.

Definition active_ok (d : AnomalyDetector.t) : Prop :=
  forall r, In r (AnomalyDetector.anomalies d) ->
    exists a, AnomalyDetector.store d !! r = Some a
              /\ AnomalyDetector.acknowledged a = false.

(** The sweep of [cleanupOldAnomalies] at [now] over the array [refs]
    marks the object [a] under the reference [r]: the array holds [r],
    the object is older than five minutes and is unacknowledged. *)
Definition swept (now : Z) (refs : list nat) (r : nat)
  (a : AnomalyDetector.Anomaly) : bool :=
  existsb (Nat.eqb r) refs
  && (300000 <? now - AnomalyDetector.timestamp a)%Z
  && negb (AnomalyDetector.acknowledged a).

(** ** Measures of an isolation tree *)

(** The sum of the [size] properties of the leaves. *)
Fixpoint leaf_sizes (tree : IsolationForest.Tree) : nat :=
  match tree with
  | IsolationForest.Leaf size => size
  | IsolationForest.Node _ _ l r => (leaf_sizes l + leaf_sizes r)%nat
  end.

Fixpoint height (tree : IsolationForest.Tree) : nat :=
  match tree with
  | IsolationForest.Leaf _ => 0%nat
  | IsolationForest.Node _ _ l r => S (Nat.max (height l) (height r))
  end.

(** Every inner node splits on a feature below [width]. *)
Fixpoint splits_below (width : nat) (tree : IsolationForest.Tree) : Prop :=
  match tree with
  | IsolationForest.Leaf _ => True
  | IsolationForest.Node featureIndex _ l r =>
      (featureIndex < width)%nat /\ splits_below width l /\ splits_below width r
  end.

(** The descent of [getPathLength] for [features] ends at an inner node
    that splits on feature 0. *)
Fixpoint ends_at_feature0 (features : list R) (tree : IsolationForest.Tree)
  : bool :=
  match tree with
  | IsolationForest.Leaf _ => false
  | IsolationForest.Node O _ _ _ => true
  | IsolationForest.Node (S _ as featureIndex) splitValue l r =>
      if IsolationForest.feature_below features featureIndex splitValue
      then ends_at_feature0 features l
      else ends_at_feature0 features r
  end.

(** The forest after [addTrainingData] on each vector of a list. *)
Definition fed (sort_random : list (list R) -> Rng -> list (list R) * Rng)
  (vectors : list (list R)) (f : IsolationForest.t) (g : Rng)
  : IsolationForest.t * Rng :=
  fold_left
    (fun '(f, g) features => IsolationForest.addTrainingData sort_random f features g)
    vectors (f, g).

(** ** The input of the time-series detector *)

(** The five-entry vector that [addSequencePoint] pushes. *)
Definition sequence_features (telemetryData : Telemetry.Point.t) : list R :=
  [ Telemetry.Battery.voltage
      (Telemetry.Power.battery (Telemetry.Point.power telemetryData));
    Telemetry.Battery.current
      (Telemetry.Power.battery (Telemetry.Point.power telemetryData));
    Telemetry.Solar.power
      (Telemetry.Power.solar (Telemetry.Point.power telemetryData));
    Telemetry.Thermal.processor (Telemetry.Point.thermal telemetryData);
    Telemetry.Communication.signalStrength
      (Telemetry.Point.communication telemetryData) ].

(** A detector that holds the given vectors and was not trained. *)
Definition unfitted (sequenceLength : nat) (vectors : list (list R))
  : LSTMTimeSeriesDetector.t :=
  {| LSTMTimeSeriesDetector.sequenceLength := sequenceLength;
     LSTMTimeSeriesDetector.sequences := vectors;
     LSTMTimeSeriesDetector.trained := false;
     LSTMTimeSeriesDetector.baseline := None |}.

(** ** The training of the detector on the page *)

(** A training callback is pending exactly while [isTraining] holds,
    and then it is the only one. *)
Definition training_ok (s : System.t) : Prop :=
  length (System.trainingTimers s)
  = if AnomalyDetector.isTraining (System.detector s) then 1%nat else 0%nat.

(** The two kinds of detection of [detectMLAnomalies]. *)
Definition is_ml (kind : AnomalyDetector.Kind) : bool :=
  match kind with
  | AnomalyDetector.ml_isolation | AnomalyDetector.ml_lstm => true
  | _ => false
  end.

(** No training was requested and no object of the store is a
    detection of [detectMLAnomalies]. *)
Definition untrained_ok (s : System.t) : Prop :=
  AnomalyDetector.trainingComplete (System.detector s) = false
  /\ System.trainingTimers s = []
  /\ Forall (fun a => is_ml (AnomalyDetector.type (AnomalyDetector.detection a))
                      = false)
       (AnomalyDetector.store (System.detector s)).

(** The events other than a request of training. *)
Definition no_training (e : System.Event) : bool :=
  match e with
  | System.TrainMLModels _ => false
  | _ => true
  end.

(** ** Battery voltages of a history *)

Definition voltage_of (p : Telemetry.Point.t) : R :=
  Telemetry.Battery.voltage (Telemetry.Power.battery (Telemetry.Point.power p)).

(** The battery voltage of each sample of a list lies in a range. *)
Definition voltages_within (low high : R) (l : list Telemetry.Point.t) : Prop :=
  Forall (fun p => low <= voltage_of p <= high) l.

(** A sample as [Scenario.quiet], with the battery voltage of a battery
    fault. *)
Definition sagging (timestamp : Z) : Telemetry.Point.t :=
  {| Telemetry.Point.timestamp := timestamp;
     Telemetry.Point.missionTime := IZR timestamp / 1000;
     Telemetry.Point.power :=
       {| Telemetry.Power.battery :=
            {| Telemetry.Battery.voltage := 20.4;
               Telemetry.Battery.current := -2.25;
               Telemetry.Battery.temperature := 45;
               Telemetry.Battery.capacity := 100;
               Telemetry.Battery.status := Telemetry.critical |};
          Telemetry.Power.solar :=
            Telemetry.Power.solar (Telemetry.Point.power (Scenario.quiet timestamp));
          Telemetry.Power.eclipse := false |};
     Telemetry.Point.thermal := Telemetry.Point.thermal (Scenario.quiet timestamp);
     Telemetry.Point.communication :=
       Telemetry.Point.communication (Scenario.quiet timestamp);
     Telemetry.Point.attitude := Telemetry.Point.attitude (Scenario.quiet timestamp) |}.

(** A simulator as [Scenario.quiet_simulator] with the given power
    history. *)
Definition with_power_history (l : list Telemetry.Point.t) : Telemetry.Simulator :=
  {| Telemetry.startTime := 0;
     Telemetry.isRunning := true;
     Telemetry.dataHistory :=
       {| Telemetry.h_power := l; Telemetry.h_thermal := l;
          Telemetry.h_communication := l; Telemetry.h_attitude := [];
          Telemetry.h_anomalies := [] |};
     Telemetry.simulatedFailures :=
       Telemetry.simulatedFailures Scenario.quiet_simulator;
     Telemetry.missionPhase := "nominal" |}.

(** * Properties *)


(** C3: the battery status is determined by the three arguments alone:
    it is [critical] exactly when voltage < 20 or temperature > 45 or
    capacity < 60; otherwise [warning] exactly when voltage < 22 or
    temperature > 35 or capacity < 80; otherwise [normal]. *)
Theorem getBatteryStatus_thresholds (v t c : R) :
  (Telemetry.getBatteryStatus v t c = Telemetry.critical
     <-> (v < 20 \/ t > 45 \/ c < 60)) /\
  (~ (v < 20 \/ t > 45 \/ c < 60) ->
     (Telemetry.getBatteryStatus v t c = Telemetry.warning
        <-> (v < 22 \/ t > 35 \/ c < 80))) /\
  (~ (v < 20 \/ t > 45 \/ c < 60) -> ~ (v < 22 \/ t > 35 \/ c < 80) ->
     Telemetry.getBatteryStatus v t c = Telemetry.normal).
Proof.
  unfold Telemetry.getBatteryStatus, gtb, ltb,
    Telemetry.subsystems.battery.temperature_threshold.
  repeat case_bool_decide; simpl; repeat split; intros;
    try discriminate; try reflexivity; try tauto; try lra.
Qed.

(** Decides the comparisons of concrete numbers that a goal tests. *)
Ltac decide_comparisons :=
  unfold ltb, gtb, geb, eqb;
  repeat first
    [ rewrite bool_decide_eq_false_2 by lra
    | rewrite bool_decide_eq_true_2 by lra ].

(** ** Arrays *)

Lemma length_shift {A} (l : list A) : length (shift l) = (length l - 1)%nat.
Proof. destruct l; simpl; lia. Qed.

Lemma length_js_slice_from_neg {A} (n : nat) (l : list A) :
  (0 < n)%nat ->
  length (js_slice_from (- Z.of_nat n) l) = Nat.min n (length l).
Proof.
  intros Hn. unfold js_slice_from.
  destruct (Z.ltb_spec (- Z.of_nat n) 0) as [_ | H]; [| lia].
  rewrite length_drop, Z.opp_involutive, Nat2Z.id. lia.
Qed.

(** ** The rolling statistical model *)

Section StatisticalModelProperties.

Import StatisticalModel.

Variable fl : Arithmetic.







End StatisticalModelProperties.

(** Without rounding, the two reductions are the mean and the
    population variance of the array. *)
Lemma window_statistics_exact (l : list R) :
  StatisticalModel.window_mean real_arithmetic l = sum l / INR (length l)
  /\ StatisticalModel.window_variance real_arithmetic l
     = fold_left (fun acc val => acc + (val - sum l / INR (length l)) ^ 2) l 0
       / INR (length l).
Proof. split; reflexivity. Qed.



(** ** The isolation forest *)

Section IsolationForestProperties.

Import IsolationForest.

Lemma fold_num_add_NaN_acc (l : list num) : fold_left num_add l NaN = NaN.
Proof. induction l as [| x l IH]; simpl; auto. Qed.

Lemma fold_num_add_NaN (l : list num) (a : num) :
  In NaN l -> fold_left num_add l a = NaN.
Proof.
  revert a. induction l as [| x l IH]; simpl; intros a; [tauto |].
  intros [-> | Hin].
  - destruct a; simpl; apply fold_num_add_NaN_acc.
  - apply IH, Hin.
Qed.

(** An inner node that splits on feature 0 is taken for a leaf, and
    its missing [size] turns the path length into [NaN]. *)
Lemma getPathLength_feature0 (features : list R) (splitValue : R)
  (l r : Tree) (currentDepth : nat) :
  getPathLength features (Node 0 splitValue l r) currentDepth = NaN.
Proof. reflexivity. Qed.

(** One such root among the trees makes the score [NaN]. *)
Lemma predict_NaN (f : t) (features : list R) (splitValue : R) (l r : Tree) :
  trained f = true ->
  In (Node 0 splitValue l r) (trees f) ->
  predict f features = NaN.
Proof.
  intros Htrained Hin. unfold predict. rewrite Htrained.
  destruct (trees f) as [| tree trees'] eqn:E; [destruct Hin |].
  cbn [negb orb length Nat.eqb].
  rewrite fold_num_add_NaN; [reflexivity |].
  apply in_map_iff. exists (Node 0 splitValue l r). split; [reflexivity | exact Hin].
Qed.

(** Without a trained ensemble the score is 0. *)
Lemma predict_untrained (f : t) (features : list R) :
  trained f = false \/ trees f = [] -> predict f features = Fin 0.
Proof.
  unfold predict. intros [-> | ->]; [reflexivity |].
  simpl. rewrite orb_true_r. reflexivity.
Qed.

(** Whenever the score is a number it lies in [0, 1]. *)
Lemma predict_clamped (f : t) (features : list R) (y : R) :
  predict f features = Fin y -> 0 <= y <= 1.
Proof.
  unfold predict. destruct (negb (trained f) || _).
  - intros [= <-]. lra.
  - destruct (num_sub _ _) as [| x]; simpl; [discriminate |].
    intros [= <-]. split; [apply Rmax_l |].
    apply Rmax_lub; [lra | apply Rmin_l].
Qed.

Lemma fold_Rmin_acc (l : list R) (a : R) : fold_left Rmin l a <= a.
Proof.
  revert a. induction l as [| z l IH]; simpl; intros a; [lra |].
  etransitivity; [apply IH | apply Rmin_l].
Qed.

Lemma fold_Rmax_acc (l : list R) (a : R) : a <= fold_left Rmax l a.
Proof.
  revert a. induction l as [| z l IH]; simpl; intros a; [lra |].
  etransitivity; [apply Rmax_l | apply IH].
Qed.

Lemma fold_Rmin_le (l : list R) (a x : R) :
  x = a \/ In x l -> fold_left Rmin l a <= x.
Proof.
  revert a. induction l as [| z l IH]; simpl; intros a.
  - intros [Hx | []]. lra.
  - intros [Hx | [Hx | Hin]].
    + subst x. etransitivity; [apply fold_Rmin_acc | apply Rmin_l].
    + subst x. etransitivity; [apply fold_Rmin_acc | apply Rmin_r].
    + apply IH. right. exact Hin.
Qed.

Lemma fold_Rmax_ge (l : list R) (a x : R) :
  x = a \/ In x l -> x <= fold_left Rmax l a.
Proof.
  revert a. induction l as [| z l IH]; simpl; intros a.
  - intros [Hx | []]. lra.
  - intros [Hx | [Hx | Hin]].
    + subst x. etransitivity; [apply Rmax_l | apply fold_Rmax_acc].
    + subst x. etransitivity; [apply Rmax_r | apply fold_Rmax_acc].
    + apply IH. right. exact Hin.
Qed.

Lemma Math_min_list_le (l : list R) (x : R) : In x l -> Math_min_list l <= x.
Proof.
  destruct l as [| y l]; [intros [] |]. simpl.
  intros [-> | Hin]; apply fold_Rmin_le; auto.
Qed.

Lemma Math_max_list_ge (l : list R) (x : R) : In x l -> x <= Math_max_list l.
Proof.
  destruct l as [| y l]; [intros [] |]. simpl.
  intros [-> | Hin]; apply fold_Rmax_ge; auto.
Qed.

(** [buildTree] makes such a root whenever the draw for the feature is
    below the inverse of the width and feature 0 is not constant. *)
Lemma buildTree_levels_feature0 (levels : nat) (data : list (list R)) (g : Rng)
  (lo hi : R) :
  (1 < length data)%nat ->
  Math_floor (draws g (pos g) * INR (length (hd [] data))) = 0%Z ->
  In lo (map (fun point => feature point 0) data) ->
  In hi (map (fun point => feature point 0) data) ->
  lo < hi ->
  exists splitValue l r g',
    buildTree_levels (S levels) data g = (Node 0 splitValue l r, g').
Proof.
  intros Hlen Hfloor Hlo Hhi Hlt. simpl.
  destruct (Nat.leb_spec (length data) 1) as [Hle | _]; [lia |].
  rewrite Hfloor. change (Z.to_nat 0) with 0%nat.
  unfold eqb. rewrite bool_decide_eq_false_2.
  - destruct (buildTree_levels levels _ _) as [l g1].
    destruct (buildTree_levels levels _ g1) as [r g2].
    eauto.
  - pose proof (Math_min_list_le _ _ Hlo). pose proof (Math_max_list_ge _ _ Hhi).
    lra.
Qed.

Lemma train_loop_keeps (sort_random : list (list R) -> Rng -> list (list R) * Rng)
  (n : nat) (f : t) (built : list Tree) (g : Rng) (tree : Tree) :
  In tree built -> In tree (fst (train_loop sort_random n f built g)).
Proof.
  revert built g. induction n as [| n IH]; simpl; intros built g Hin; [exact Hin |].
  destruct (createSubsample _ _ _) as [subsample g1].
  destruct (buildTree _ _ _ _) as [tree' g2].
  apply IH, in_or_app. left. exact Hin.
Qed.

(** The first tree that [train] builds is among the trees it leaves. *)
Lemma train_first_tree (sort_random : list (list R) -> Rng -> list (list R) * Rng)
  (f : t) (g : Rng) (n : nat) (subsample : list (list R)) (g1 g2 : Rng)
  (tree : Tree) :
  (20 <= length (trainingData f))%nat ->
  numTrees f = S n ->
  createSubsample sort_random f g = (subsample, g1) ->
  buildTree subsample 0
    (Z.to_nat (Math_ceil (Math_log2 (INR (subsampleSize f))))) g1 = (tree, g2) ->
  In tree (trees (fst (train sort_random f g)))
  /\ trained (fst (train sort_random f g)) = true.
Proof.
  intros Hlen Hn Hsub Hbuild. unfold train.
  destruct (Nat.ltb_spec (length (trainingData f)) 20) as [Hlt | _]; [lia |].
  rewrite Hn. simpl. rewrite Hsub, Hbuild.
  pose proof (train_loop_keeps sort_random n f [tree] g2 tree) as Hkeep.
  destruct (train_loop sort_random n f [tree] g2) as [built g3].
  simpl in *. split; [apply Hkeep; auto | reflexivity].
Qed.

End IsolationForestProperties.

(** ** The trained forest of the concrete run *)

Lemma fed_forest_eq :
  Scenario.fed_forest
  = {| IsolationForest.numTrees := 10; IsolationForest.subsampleSize := 50;
       IsolationForest.trees := []; IsolationForest.trainingData := Scenario.readings;
       IsolationForest.trained := false |}.
Proof. reflexivity. Qed.

(** The depth limit of the default forest: the ceiling of log2(50). *)
Lemma maxDepth_default : Math_ceil (Math_log2 (INR 50)) = 6%Z.
Proof.
  unfold Math_ceil, Math_log2.
  assert (H2 : 0 < ln 2) by (rewrite <- ln_1; apply ln_increasing; lra).
  assert (H50 : INR 50 = 50) by (rewrite INR_IZR_INZ; reflexivity).
  assert (H32 : ln 32 = 5 * ln 2).
  { replace 32 with (2 ^ 5) by lra. rewrite ln_pow by lra. simpl. lra. }
  assert (H64 : ln 64 = 6 * ln 2).
  { replace 64 with (2 ^ 6) by lra. rewrite ln_pow by lra. simpl. lra. }
  assert (Hlo : ln 32 < ln 50) by (apply ln_increasing; lra).
  assert (Hhi : ln 50 <= ln 64) by (apply Rlt_le, ln_increasing; lra).
  rewrite H50. apply Zceil_eq. split.
  - apply Rmult_lt_reg_r with (ln 2); [exact H2 |].
    unfold Rdiv. rewrite Rmult_assoc, Rinv_l by lra. lra.
  - apply Rmult_le_reg_r with (ln 2); [exact H2 |].
    unfold Rdiv. rewrite Rmult_assoc, Rinv_l by lra. lra.
Qed.

Lemma trained_forest_root :
  exists splitValue l r,
    In (IsolationForest.Node 0 splitValue l r)
       (IsolationForest.trees Scenario.trained_forest)
    /\ IsolationForest.trained Scenario.trained_forest = true.
Proof.
  destruct (buildTree_levels_feature0 5 Scenario.readings Scenario.steady
              (24 + INR 0 / 100) (24 + INR 1 / 100))
    as (splitValue & l & r & g' & Hbuild).
  - simpl. lia.
  - unfold Math_floor. apply Zfloor_eq. simpl. lra.
  - simpl. auto.
  - simpl. auto.
  - simpl. lra.
  - exists splitValue, l, r. unfold Scenario.trained_forest.
    apply (train_first_tree Scenario.keep_order Scenario.fed_forest
             Scenario.steady 9 Scenario.readings Scenario.steady g').
    + rewrite fed_forest_eq. simpl. lia.
    + rewrite fed_forest_eq. reflexivity.
    + rewrite fed_forest_eq. reflexivity.
    + rewrite fed_forest_eq.
      cbn [IsolationForest.subsampleSize]. rewrite maxDepth_default.
      exact Hbuild.
Qed.

(** C2, at a concrete training run: twenty feature vectors whose
    battery voltage differs are added, [train()] builds the ten trees
    with every draw of [Math.random] equal to 0.1, and the score of any
    feature vector is then [NaN], neither 0 nor a number of [0, 1]. *)
Theorem predict_after_training_is_NaN (features : list R) :
  Scenario.trained_forest
  = fst (IsolationForest.train Scenario.keep_order Scenario.fed_forest Scenario.steady)
  /\ IsolationForest.trainingData Scenario.fed_forest = Scenario.readings
  /\ IsolationForest.trained Scenario.trained_forest = true
  /\ IsolationForest.predict Scenario.trained_forest features = NaN.
Proof.
  destruct trained_forest_root as (splitValue & l & r & Hin & Htrained).
  repeat split; [exact Htrained |].
  eapply predict_NaN; eassumption.
Qed.

(** ** The simulator: history and fault flags *)

Section SimulatorProperties.

Import Telemetry.

(** [generateTelemetryPoint] changes the three written histories and
    nothing else of the simulator. *)
Lemma generateTelemetryPoint_spec (s : Simulator) (timestamp : Z) (g : Rng) :
  exists p g',
    generateTelemetryPoint s timestamp g
    = (p,
       {| startTime := startTime s; isRunning := isRunning s;
          dataHistory :=
            if (300 <? length (h_power (dataHistory s) ++ [p]))%nat
            then {| h_power := shift (h_power (dataHistory s) ++ [p]);
                    h_thermal := shift (h_thermal (dataHistory s) ++ [p]);
                    h_communication := shift (h_communication (dataHistory s) ++ [p]);
                    h_attitude := h_attitude (dataHistory s);
                    h_anomalies := h_anomalies (dataHistory s) |}
            else {| h_power := h_power (dataHistory s) ++ [p];
                    h_thermal := h_thermal (dataHistory s) ++ [p];
                    h_communication := h_communication (dataHistory s) ++ [p];
                    h_attitude := h_attitude (dataHistory s);
                    h_anomalies := h_anomalies (dataHistory s) |};
          simulatedFailures := simulatedFailures s;
          missionPhase := missionPhase s |},
       g')
    /\ Point.timestamp p = timestamp.
Proof.
  unfold generateTelemetryPoint.
  destruct (generatePowerTelemetry s _ g) as [powerData g1].
  destruct (generateThermalTelemetry s _ g1) as [thermalData g2].
  destruct (generateCommunicationTelemetry s _ g2) as [commData g3].
  destruct (generateAttitudeTelemetry _ g3) as [attitudeData g4].
  eexists _, _. split; reflexivity.
Qed.

Lemma generateTelemetryPoint_history_ok (s : Simulator) (timestamp : Z) (g : Rng) :
  history_ok (dataHistory s) ->
  history_ok (dataHistory (snd (fst (generateTelemetryPoint s timestamp g)))).
Proof.
  intros (Ht & Hc & Hp & Ha & Hn).
  destruct (generateTelemetryPoint_spec s timestamp g) as (p & g' & -> & _).
  simpl. unfold history_ok.
  destruct (Nat.ltb_spec 300 (length (h_power (dataHistory s) ++ [p]))) as [Hfull | Hroom];
    simpl; rewrite ?length_shift, ?length_app in *; simpl in *;
    repeat split; auto; lia.
Qed.

Lemma initializeHistory_loop_history_ok (i : nat) (now : Z) (s : Simulator) (g : Rng) :
  history_ok (dataHistory s) ->
  history_ok (dataHistory (fst (initializeHistory_loop i now s g))).
Proof.
  revert s g. induction i as [| i IH]; intros s g Hok; [exact Hok |].
  cbn [initializeHistory_loop].
  pose proof (generateTelemetryPoint_history_ok s (now - Z.of_nat (S i) * 1000) g Hok) as H.
  destruct (generateTelemetryPoint s _ g) as [[p s'] g']. apply IH. exact H.
Qed.

Lemma constructor_history_ok (now : Z) (g : Rng) :
  history_ok (dataHistory (fst (constructor now g))).
Proof.
  unfold constructor, initializeHistory.
  apply initializeHistory_loop_history_ok. repeat split; simpl; lia.
Qed.

Lemma initializeHistory_loop_simulatedFailures (i : nat) (now : Z) (s : Simulator)
  (g : Rng) :
  simulatedFailures (fst (initializeHistory_loop i now s g)) = simulatedFailures s
  /\ isRunning (fst (initializeHistory_loop i now s g)) = isRunning s.
Proof.
  revert s g. induction i as [| i IH]; intros s g; [split; reflexivity |].
  cbn [initializeHistory_loop].
  destruct (generateTelemetryPoint_spec s (now - Z.of_nat (S i) * 1000) g)
    as (p & g' & -> & _).
  match goal with
  | |- context [initializeHistory_loop i now ?s' g'] =>
      destruct (IH s' g') as [H1 H2]
  end.
  split; [rewrite H1 | rewrite H2]; reflexivity.
Qed.

End SimulatorProperties.

(** ** Capacity of the training pool and of the alert history *)

Section CapacityProperties.

Variable toString36 : R -> string.
Variable sort_random : list (list R) -> Rng -> list (list R) * Rng.
Variable fl : Arithmetic.

Lemma train_trainingData (f : IsolationForest.t) (g : Rng) :
  IsolationForest.trainingData (fst (IsolationForest.train sort_random f g))
  = IsolationForest.trainingData f.
Proof.
  unfold IsolationForest.train. destruct (_ <? _)%nat; [reflexivity |].
  destruct (IsolationForest.train_loop _ _ _ _ _). reflexivity.
Qed.

Lemma addTrainingData_bound (f : IsolationForest.t) (features : list R) (g : Rng) :
  (length (IsolationForest.trainingData f) <= 500)%nat ->
  (length (IsolationForest.trainingData
             (fst (IsolationForest.addTrainingData sort_random f features g)))
   <= 500)%nat.
Proof.
  intros Hlen. unfold IsolationForest.addTrainingData.
  set (pool := if (500 <? _)%nat then _ else _).
  assert (Hpool : (length pool <= 500)%nat).
  { unfold pool.
    destruct (Nat.ltb_spec 500 (length (IsolationForest.trainingData f ++ [features])))
      as [H | H]; rewrite ?length_shift, ?length_app in *; simpl in *; lia. }
  destruct (_ && _); [rewrite train_trainingData |]; exact Hpool.
Qed.

Lemma cleanupOldAnomalies_history (d : AnomalyDetector.t) (now : Z) :
  AnomalyDetector.anomalyHistory (AnomalyDetector.cleanupOldAnomalies d now)
  = AnomalyDetector.anomalyHistory d.
Proof.
  unfold AnomalyDetector.cleanupOldAnomalies.
  destruct (AnomalyDetector.cleanup_filter _ _ _). reflexivity.
Qed.

Lemma cleanupOldAnomalies_models (d : AnomalyDetector.t) (now : Z) :
  AnomalyDetector.isolationForest (AnomalyDetector.cleanupOldAnomalies d now)
  = AnomalyDetector.isolationForest d.
Proof.
  unfold AnomalyDetector.cleanupOldAnomalies.
  destruct (AnomalyDetector.cleanup_filter _ _ _). reflexivity.
Qed.

Lemma process_loop_models (batch : list AnomalyDetector.Detection)
  (timestamp now : Z) (d : AnomalyDetector.t) (g : Rng) :
  AnomalyDetector.isolationForest
    (fst (AnomalyDetector.process_loop toString36 batch timestamp now d g))
  = AnomalyDetector.isolationForest d.
Proof.
  revert d g. induction batch as [| found batch IH]; intros d g; [reflexivity |].
  cbn [AnomalyDetector.process_loop].
  destruct (AnomalyDetector.generateAnomalyId toString36 now g) as [id g1].
  rewrite IH. destruct (negb _); reflexivity.
Qed.

Lemma processDetectedAnomalies_bound (d : AnomalyDetector.t)
  (batch : list AnomalyDetector.Detection) (timestamp now : Z) (g : Rng) :
  let d' :=
    fst (AnomalyDetector.processDetectedAnomalies toString36 d batch timestamp now g) in
  (length (AnomalyDetector.anomalyHistory d') <= 1000)%nat
  /\ AnomalyDetector.isolationForest d' = AnomalyDetector.isolationForest d.
Proof.
  unfold AnomalyDetector.processDetectedAnomalies.
  pose proof (process_loop_models batch timestamp now d g) as Hm.
  destruct (AnomalyDetector.process_loop toString36 batch timestamp now d g)
    as [d1 g1].
  simpl in Hm. cbn [fst].
  destruct (Nat.ltb_spec 1000
              (length (AnomalyDetector.anomalyHistory
                         (AnomalyDetector.cleanupOldAnomalies d1 now))))
    as [Hover | Hfits].
  - cbn [AnomalyDetector.anomalyHistory AnomalyDetector.set_alerts
         AnomalyDetector.isolationForest].
    rewrite cleanupOldAnomalies_models, Hm.
    change (-500)%Z with (- Z.of_nat 500)%Z.
    rewrite length_js_slice_from_neg by lia. split; [lia | reflexivity].
  - rewrite cleanupOldAnomalies_models, Hm. split; [exact Hfits | reflexivity].
Qed.

Lemma updateModels_bound (d : AnomalyDetector.t) (data : Telemetry.Point.t) (g : Rng) :
  let d' := fst (AnomalyDetector.updateModels sort_random fl d data g) in
  AnomalyDetector.anomalyHistory d' = AnomalyDetector.anomalyHistory d
  /\ AnomalyDetector.anomalies d' = AnomalyDetector.anomalies d
  /\ AnomalyDetector.store d' = AnomalyDetector.store d
  /\ ((length (IsolationForest.trainingData (AnomalyDetector.isolationForest d))
       <= 500)%nat ->
      (length (IsolationForest.trainingData (AnomalyDetector.isolationForest d'))
       <= 500)%nat).
Proof.
  unfold AnomalyDetector.updateModels.
  pose proof (addTrainingData_bound (AnomalyDetector.isolationForest d)
                (AnomalyDetector.featureVector data) g) as Hb.
  destruct (IsolationForest.addTrainingData sort_random _ _ g) as [forest g1].
  simpl in *. auto.
Qed.

Lemma processTelemetry_ok (d : AnomalyDetector.t) (sim : Telemetry.Simulator)
  (data : Telemetry.Point.t) (now : Z) (g : Rng) :
  detector_ok d ->
  detector_ok (fst (AnomalyDetector.processTelemetry toString36 sort_random fl
                      d sim data now g)).
Proof.
  intros [Hpool Hhist]. unfold AnomalyDetector.processTelemetry.
  set (found := _ ++ _).
  assert (Hmid : exists d1 g1,
             (if (0 <? length found)%nat
              then AnomalyDetector.processDetectedAnomalies toString36 d found
                     (Telemetry.Point.timestamp data) now g
              else (d, g)) = (d1, g1) /\ detector_ok d1).
  { destruct (0 <? length found)%nat.
    - destruct (processDetectedAnomalies_bound d found
                  (Telemetry.Point.timestamp data) now g) as [H1 H2].
      destruct (AnomalyDetector.processDetectedAnomalies _ _ _ _ _ _) as [d1 g1].
      exists d1, g1. simpl in *. split; [reflexivity |].
      split; [rewrite H2; exact Hpool | exact H1].
    - exists d, g. split; [reflexivity | split; assumption]. }
  destruct Hmid as (d1 & g1 & -> & [Hpool1 Hhist1]).
  destruct (updateModels_bound d1 data g1) as (Hh & _ & _ & Hp).
  split; [apply Hp, Hpool1 | rewrite Hh; exact Hhist1].
Qed.

Lemma trainingCallback_ok (d : AnomalyDetector.t) (g : Rng) :
  detector_ok d ->
  detector_ok (fst (AnomalyDetector.trainingCallback sort_random d g)).
Proof.
  intros [Hpool Hhist]. unfold AnomalyDetector.trainingCallback.
  pose proof (train_trainingData (AnomalyDetector.isolationForest d) g) as Ht.
  destruct (IsolationForest.train sort_random _ g) as [forest g1].
  cbn [fst] in *. split; simpl; [rewrite Ht; exact Hpool | exact Hhist].
Qed.

Lemma acknowledgeAnomaly_ok (d : AnomalyDetector.t) (anomalyId by_ : string) (now : Z) :
  detector_ok d ->
  detector_ok (snd (AnomalyDetector.acknowledgeAnomaly d anomalyId by_ now)).
Proof.
  intros Hok. unfold AnomalyDetector.acknowledgeAnomaly.
  destruct (AnomalyDetector.find_by_id _ _ _); exact Hok.
Qed.

End CapacityProperties.

(** ** The page: an invariant of every run *)

Section SystemProperties.

Variable toString36 : R -> string.
Variable sort_random : list (list R) -> Rng -> list (list R) * Rng.
Variable fl : Arithmetic.

Lemma fold_clearFailure_dataHistory (timers : list Telemetry.Timer)
  (sim : Telemetry.Simulator) :
  Telemetry.dataHistory
    (fold_left (fun sim timer => Telemetry.clearFailure sim (Telemetry.target timer))
       timers sim)
  = Telemetry.dataHistory sim.
Proof.
  revert sim. induction timers as [| timer timers IH]; intros sim; [reflexivity |].
  simpl. rewrite IH. reflexivity.
Qed.

Lemma fold_trainingCallback_ok (fired : list Z) (d : AnomalyDetector.t) (g : Rng) :
  detector_ok d ->
  detector_ok
    (fst (fold_left
            (fun '(d, g) (_ : Z) => AnomalyDetector.trainingCallback sort_random d g)
            fired (d, g))).
Proof.
  revert d g. induction fired as [| at_ fired IH]; intros d g Hok; [exact Hok |].
  simpl. pose proof (trainingCallback_ok sort_random d g Hok) as H.
  destruct (AnomalyDetector.trainingCallback sort_random d g) as [d1 g1].
  apply IH. exact H.
Qed.

Lemma init_ok (now : Z) (g : Rng) : system_ok (System.init now g).
Proof.
  unfold System.init. pose proof (constructor_history_ok now g) as H.
  destruct (Telemetry.constructor now g) as [sim g1].
  split; [exact H |]. split; simpl; lia.
Qed.

Lemma tick_ok (now : Z) (s : System.t) :
  system_ok s -> system_ok (System.tick toString36 sort_random fl now s).
Proof.
  intros [Hh Hd]. unfold System.tick.
  destruct (negb _); [split; assumption |].
  pose proof (generateTelemetryPoint_history_ok (System.simulator s) now
                (System.rng s) Hh) as Hh'.
  destruct (Telemetry.generateTelemetryPoint _ now _) as [[p sim] g1].
  simpl in Hh'.
  destruct (Telemetry.getLatestTelemetry sim) as [latest |];
    [| split; assumption].
  destruct (AnomalyDetector.detectionEnabled _); [| split; assumption].
  pose proof (processTelemetry_ok toString36 sort_random fl (System.detector s)
                sim latest now g1 Hd) as Hd'.
  destruct (AnomalyDetector.processTelemetry _ _ _ _ _ _ _) as [d g2].
  split; assumption.
Qed.

Lemma step_ok (s : System.t) (e : System.Event) :
  system_ok s -> system_ok (System.step toString36 sort_random fl s e).
Proof.
  intros [Hh Hd]. destruct e; simpl.
  - unfold Telemetry.start. destruct (Telemetry.isRunning _); split; assumption.
  - unfold Telemetry.stop. destruct (Telemetry.isRunning _); split; assumption.
  - apply tick_ok. split; assumption.
  - split; assumption.
  - split; assumption.
  - unfold System.fire_trainingTimers, System.fire_failureTimers.
    cbn [System.detector System.rng System.trainingTimers System.simulator
         System.failureTimers].
    match goal with
    | |- context [fold_left ?f ?fired (System.detector s, System.rng s)] =>
        pose proof (fold_trainingCallback_ok fired (System.detector s)
                      (System.rng s) Hd) as Hd';
        destruct (fold_left f fired (System.detector s, System.rng s)) as [d g]
    end.
    split; simpl; [rewrite fold_clearFailure_dataHistory; exact Hh | exact Hd'].
  - split; [exact Hh | apply acknowledgeAnomaly_ok, Hd].
  - unfold AnomalyDetector.trainMLModels.
    destruct (AnomalyDetector.isTraining _); split; assumption.
Qed.

Lemma run_ok (events : list System.Event) (s : System.t) :
  system_ok s -> system_ok (System.run toString36 sort_random fl events s).
Proof.
  revert s. induction events as [| e events IH]; intros s Hok; [exact Hok |].
  simpl. apply IH, step_ok, Hok.
Qed.

End SystemProperties.

(** C6: after any sequence of events, of any length, from the start of
    the page, each rolling telemetry history holds at most 300 entries,
    the training pool of the isolation forest at most 500 feature
    vectors, and the alert history at most 1000 entries. *)
Theorem capacity_bounds (toString36 : R -> string)
  (sort_random : list (list R) -> Rng -> list (list R) * Rng) (fl : Arithmetic)
  (now : Z) (g : Rng) (events : list System.Event) :
  let s := System.run toString36 sort_random fl events (System.init now g) in
  let h := Telemetry.dataHistory (System.simulator s) in
  (length (Telemetry.h_power h) <= 300)%nat
  /\ (length (Telemetry.h_thermal h) <= 300)%nat
  /\ (length (Telemetry.h_communication h) <= 300)%nat
  /\ (length (Telemetry.h_attitude h) <= 300)%nat
  /\ (length (IsolationForest.trainingData
                (AnomalyDetector.isolationForest (System.detector s))) <= 500)%nat
  /\ (length (AnomalyDetector.anomalyHistory (System.detector s)) <= 1000)%nat.
Proof.
  intros s h.
  destruct (run_ok toString36 sort_random fl events (System.init now g) (init_ok now g))
    as [(Ht & Hc & Hp & Ha & _) [Hpool Hhist]].
  fold s in Ht, Hc, Hp, Ha, Hpool, Hhist. fold h in Ht, Hc, Hp, Ha.
  rewrite Ha. simpl. repeat split; lia.
Qed.

(** ** The rolling histories *)

Lemma generateTelemetryPoint_lists (s : Telemetry.Simulator) (timestamp : Z) (g : Rng) :
  history_ok (Telemetry.dataHistory s) ->
  exists p sim' g',
    Telemetry.generateTelemetryPoint s timestamp g = (p, sim', g')
    /\ Telemetry.Point.timestamp p = timestamp
    /\ Telemetry.h_power (Telemetry.dataHistory sim')
       = pushed (Telemetry.h_power (Telemetry.dataHistory s)) p
    /\ Telemetry.h_thermal (Telemetry.dataHistory sim')
       = pushed (Telemetry.h_thermal (Telemetry.dataHistory s)) p
    /\ Telemetry.h_communication (Telemetry.dataHistory sim')
       = pushed (Telemetry.h_communication (Telemetry.dataHistory s)) p
    /\ Telemetry.h_attitude (Telemetry.dataHistory sim') = [].
Proof.
  intros (Ht & Hc & Hp & Ha & Hn).
  destruct (generateTelemetryPoint_spec s timestamp g) as (p & g' & Heq & Hts).
  eexists _, _, _. split; [exact Heq |]. split; [exact Hts |].
  cbn [Telemetry.dataHistory]. unfold pushed. rewrite Ht, Hc, length_app. simpl.
  destruct (Nat.ltb_spec 300 (length (Telemetry.h_power (Telemetry.dataHistory s)) + 1));
    destruct (Nat.eqb_spec (length (Telemetry.h_power (Telemetry.dataHistory s))) 300);
    try lia; cbn [Telemetry.h_power Telemetry.h_thermal Telemetry.h_communication
                  Telemetry.h_attitude]; repeat split; try exact Ha.
  all: match goal with
       | |- shift (?l ++ _) = _ =>
           destruct l; [simpl in *; lia | reflexivity]
       end.
Qed.

(** C9, as the claim states it, fails at the first tick after the page
    is loaded: the sample made at time 1000 is at the end of the power
    history and is not in the attitude history. *)
Lemma attitude_history_not_written :
  let '(sim, g) := Telemetry.constructor 0 Scenario.steady in
  let '(p, sim', _) := Telemetry.generateTelemetryPoint sim 1000 g in
  last (Telemetry.h_power (Telemetry.dataHistory sim')) = Some p
  /\ ~ In p (Telemetry.h_attitude (Telemetry.dataHistory sim')).
Proof.
  pose proof (constructor_history_ok 0 Scenario.steady) as Hok.
  destruct (Telemetry.constructor 0 Scenario.steady) as [sim g]. simpl in Hok.
  destruct (generateTelemetryPoint_lists sim 1000 g Hok)
    as (p & sim' & g' & -> & _ & Hpow & _ & _ & Hatt).
  rewrite Hpow, Hatt. unfold pushed. rewrite last_snoc.
  split; [reflexivity | intros []].
Qed.

(** C9, amended: at every tick, in every state that the page can be in,
    the new sample is appended to the power, thermal and communication
    histories, the oldest entry of each being evicted when it already
    held 300 entries, so that none exceeds 300; the attitude history is
    not written and is empty. *)
Theorem sample_appended_to_written_histories (toString36 : R -> string)
  (sort_random : list (list R) -> Rng -> list (list R) * Rng) (fl : Arithmetic)
  (now : Z) (g : Rng) (events : list System.Event) (timestamp : Z) :
  let s := System.run toString36 sort_random fl events (System.init now g) in
  let h := Telemetry.dataHistory (System.simulator s) in
  let '(p, sim', _) :=
    Telemetry.generateTelemetryPoint (System.simulator s) timestamp (System.rng s) in
  let h' := Telemetry.dataHistory sim' in
  let evict (l : list Telemetry.Point.t) :=
    if (length l =? 300)%nat then shift l else l in
  Telemetry.Point.timestamp p = timestamp
  /\ Telemetry.h_power h' = evict (Telemetry.h_power h) ++ [p]
  /\ Telemetry.h_thermal h' = evict (Telemetry.h_thermal h) ++ [p]
  /\ Telemetry.h_communication h' = evict (Telemetry.h_communication h) ++ [p]
  /\ (length (Telemetry.h_power h') <= 300)%nat
  /\ (length (Telemetry.h_thermal h') <= 300)%nat
  /\ (length (Telemetry.h_communication h') <= 300)%nat
  /\ Telemetry.h_attitude h' = [].
Proof.
  intros s h.
  destruct (run_ok toString36 sort_random fl events (System.init now g) (init_ok now g))
    as [Hok _].
  fold s in Hok. fold h in Hok.
  pose proof (generateTelemetryPoint_history_ok (System.simulator s) timestamp
                (System.rng s) Hok) as Hok'.
  destruct (generateTelemetryPoint_lists (System.simulator s) timestamp
              (System.rng s) Hok)
    as (p & sim' & g' & Heq & Hts & Hpow & Hth & Hco & Hatt).
  rewrite Heq in Hok' |- *. cbn [fst snd] in Hok'.
  destruct Hok' as (Ht' & Hc' & Hp' & _).
  fold h in Hpow, Hth, Hco.
  repeat split; try assumption; lia.
Qed.

(** ** Fault injection *)

Section FaultProperties.

Import Telemetry.

(** The generated sample depends on the simulator through its start
    time and the four known flags only. *)
Lemma generateTelemetryPoint_flags (s1 s2 : Simulator) (timestamp : Z) (g : Rng) :
  startTime s1 = startTime s2 ->
  (forall k, known k -> failing s1 k = failing s2 k) ->
  fst (fst (generateTelemetryPoint s1 timestamp g))
  = fst (fst (generateTelemetryPoint s2 timestamp g))
  /\ snd (generateTelemetryPoint s1 timestamp g)
     = snd (generateTelemetryPoint s2 timestamp g).
Proof.
  intros Hstart Hflags.
  assert (Hb : failing s1 "battery" = failing s2 "battery") by (apply Hflags; red; auto).
  assert (Hs : failing s1 "solar" = failing s2 "solar") by (apply Hflags; red; auto).
  assert (Ht : failing s1 "thermal" = failing s2 "thermal") by (apply Hflags; red; auto).
  assert (Hc : failing s1 "communication" = failing s2 "communication")
    by (apply Hflags; red; auto).
  unfold generateTelemetryPoint. rewrite Hstart.
  assert (Hpow : forall m g, generatePowerTelemetry s1 m g = generatePowerTelemetry s2 m g).
  { intros m g0. unfold generatePowerTelemetry. rewrite Hb, Hs. reflexivity. }
  assert (Hthe : forall m g, generateThermalTelemetry s1 m g = generateThermalTelemetry s2 m g).
  { intros m g0. unfold generateThermalTelemetry. rewrite Ht. reflexivity. }
  assert (Hcom : forall m g,
             generateCommunicationTelemetry s1 m g = generateCommunicationTelemetry s2 m g).
  { intros m g0. unfold generateCommunicationTelemetry. rewrite Hc. reflexivity. }
  rewrite Hpow. destruct (generatePowerTelemetry s2 _ g) as [powerData g1].
  rewrite Hthe. destruct (generateThermalTelemetry s2 _ g1) as [thermalData g2].
  rewrite Hcom. destruct (generateCommunicationTelemetry s2 _ g2) as [commData g3].
  destruct (generateAttitudeTelemetry _ g3) as [attitudeData g4].
  split; reflexivity.
Qed.

Lemma constructor_simulatedFailures (now : Z) (g : Rng) :
  simulatedFailures (fst (constructor now g))
  = <["battery" := false]>
      (<["solar" := false]>
         (<["thermal" := false]> (<["communication" := false]> ∅))).
Proof.
  unfold constructor, initializeHistory.
  rewrite (proj1 (initializeHistory_loop_simulatedFailures _ _ _ _)). reflexivity.
Qed.

(** What an assignment leaves under the assigned name and under the
    other ones. *)
Lemma assign_plain (k : string) (v : bool) (m : gmap string bool) :
  k <> "__proto__" -> assign k v m = <[k := v]> m.
Proof.
  intros Hk. unfold assign, assignable.
  rewrite (proj2 (String.eqb_neq _ _) Hk). reflexivity.
Qed.

Lemma assign_own (k : string) (v : bool) (m : gmap string bool) :
  is_Some (m !! k) -> assign k v m = <[k := v]> m.
Proof.
  intros Hk. unfold assign, assignable.
  rewrite (bool_decide_eq_true_2 _ Hk), orb_true_r. reflexivity.
Qed.

Lemma assign_ignored (v : bool) (m : gmap string bool) :
  m !! "__proto__" = None -> assign "__proto__" v m = m.
Proof.
  intros Hk. unfold assign, assignable. rewrite Hk.
  rewrite bool_decide_eq_false_2 by (intros [b Hb]; discriminate Hb).
  reflexivity.
Qed.

Lemma lookup_assign_ne (k k' : string) (v : bool) (m : gmap string bool) :
  k <> k' -> assign k v m !! k' = m !! k'.
Proof.
  intros Hne. unfold assign. destruct (assignable m k); [| reflexivity].
  apply lookup_insert_ne. exact Hne.
Qed.

(** After [obj[k] = false] the flag under [k] does not read as set. *)
Lemma failing_assign_false (k : string) (m : gmap string bool) :
  default false (assign k false m !! k) = false.
Proof.
  unfold assign, assignable.
  destruct (String.eqb_spec k "__proto__") as [-> | Hne]; cbn [negb orb].
  - case_bool_decide as Hown; [rewrite lookup_insert_eq; reflexivity |].
    destruct (m !! "__proto__") as [b |] eqn:Hb; [| reflexivity].
    exfalso. apply Hown. eauto.
  - rewrite lookup_insert_eq. reflexivity.
Qed.

(** Firing a list of failure timers clears the flag of each of them. *)
Lemma fold_clearFailure_cleared (timers : list Timer) (sim : Simulator) (timer : Timer) :
  In timer timers ->
  failing (fold_left (fun sim timer => clearFailure sim (target timer)) timers sim)
    (target timer) = false.
Proof.
  assert (Hstay : forall timers sim k,
             failing sim k = false ->
             failing (fold_left (fun sim timer => clearFailure sim (target timer))
                        timers sim) k = false).
  { clear. induction timers as [| t timers IH]; intros sim k Hk; [exact Hk |].
    simpl. apply IH. unfold failing, clearFailure. simpl.
    destruct (decide (target t = k)) as [-> | Hne].
    - apply failing_assign_false.
    - rewrite lookup_assign_ne by exact Hne. exact Hk. }
  revert sim. induction timers as [| t timers IH]; intros sim; [intros [] |].
  intros [-> | Hin]; simpl.
  - apply Hstay. unfold failing, clearFailure. simpl.
    apply failing_assign_false.
  - apply IH, Hin.
Qed.

End FaultProperties.

(** C7, as the claim states it, fails for the name "propulsion": the
    call changes the fault-injection state of the freshly loaded
    simulator, where that name gets a flag. *)
Lemma unknown_name_changes_fault_state :
  let sim := fst (Telemetry.constructor 0 Scenario.steady) in
  let sim' := fst (Telemetry.simulateFailure sim "propulsion" 0) in
  Telemetry.simulatedFailures sim !! "propulsion" = None
  /\ Telemetry.simulatedFailures sim' !! "propulsion" = Some true
  /\ Telemetry.simulatedFailures sim' <> Telemetry.simulatedFailures sim.
Proof.
  cbv zeta. unfold Telemetry.simulateFailure. cbn [fst Telemetry.set_simulatedFailures
    Telemetry.simulatedFailures].
  rewrite constructor_simulatedFailures, assign_plain by discriminate.
  assert (Hnone : (<["battery" := false]>
                     (<["solar" := false]>
                        (<["thermal" := false]> (<["communication" := false]> ∅)))
                   : gmap string bool) !! "propulsion" = None)
    by (vm_compute; reflexivity).
  split; [exact Hnone |]. split; [apply lookup_insert_eq |].
  intros Heq. apply (f_equal (fun m => m !! "propulsion")) in Heq.
  rewrite lookup_insert_eq, Hnone in Heq. discriminate.
Qed.

(** C7, amended: for a name [s] outside battery, solar, thermal and
    communication, [simulateFailure(s)] returns; it leaves the four known
    flags, the histories, the start time, the running state and the
    mission phase as they were, and every sample generated afterwards is
    the one that would have been generated without the call; it arms a
    timer, due 30 seconds later, whose callback again leaves the known
    flags alone.  For every such name but ["__proto__"] the call does
    record a flag [s = true], which the callback of the timer resets to
    false.  For ["__proto__"], on a flags object without a property of
    its own under that name, neither the call nor the callback records
    anything: the flags are as before. *)
Theorem simulateFailure_unknown (sim : Telemetry.Simulator) (s : string) (now : Z)
  (Hunknown : ~ known s) :
  let '(sim', timer) := Telemetry.simulateFailure sim s now in
  (forall k, known k ->
     Telemetry.simulatedFailures sim' !! k = Telemetry.simulatedFailures sim !! k)
  /\ Telemetry.dataHistory sim' = Telemetry.dataHistory sim
  /\ Telemetry.startTime sim' = Telemetry.startTime sim
  /\ Telemetry.isRunning sim' = Telemetry.isRunning sim
  /\ Telemetry.missionPhase sim' = Telemetry.missionPhase sim
  /\ (forall timestamp g,
        fst (fst (Telemetry.generateTelemetryPoint sim' timestamp g))
        = fst (fst (Telemetry.generateTelemetryPoint sim timestamp g))
        /\ snd (Telemetry.generateTelemetryPoint sim' timestamp g)
           = snd (Telemetry.generateTelemetryPoint sim timestamp g))
  /\ timer = {| Telemetry.fireAt := (now + 30000)%Z; Telemetry.target := s |}
  /\ (forall k, known k ->
        Telemetry.simulatedFailures (Telemetry.clearFailure sim' (Telemetry.target timer)) !! k
        = Telemetry.simulatedFailures sim !! k)
  /\ (s <> "__proto__" ->
      Telemetry.simulatedFailures sim' !! s = Some true
      /\ Telemetry.simulatedFailures
           (Telemetry.clearFailure sim' (Telemetry.target timer)) !! s
         = Some false)
  /\ (s = "__proto__" -> Telemetry.simulatedFailures sim !! s = None ->
      Telemetry.simulatedFailures sim' = Telemetry.simulatedFailures sim
      /\ Telemetry.simulatedFailures
           (Telemetry.clearFailure sim' (Telemetry.target timer))
         = Telemetry.simulatedFailures sim).
Proof.
  unfold Telemetry.simulateFailure, Telemetry.clearFailure.
  cbn [Telemetry.set_simulatedFailures Telemetry.simulatedFailures Telemetry.target
       Telemetry.dataHistory Telemetry.startTime Telemetry.isRunning
       Telemetry.missionPhase].
  assert (Hne : forall k, known k -> s <> k) by (intros k Hk ->; exact (Hunknown Hk)).
  split; [| split; [| split; [| split; [| split; [| split; [| split;
    [| split; [| split]]]]]]]]; try reflexivity.
  - intros k Hk. apply lookup_assign_ne, Hne, Hk.
  - intros timestamp g. apply generateTelemetryPoint_flags; [reflexivity |].
    intros k Hk. unfold Telemetry.failing. simpl.
    rewrite lookup_assign_ne by (apply Hne, Hk). reflexivity.
  - intros k Hk. rewrite !lookup_assign_ne by (apply Hne, Hk). reflexivity.
  - intros Hplain. rewrite !assign_plain by exact Hplain.
    split; apply lookup_insert_eq.
  - intros -> Hown.
    rewrite (assign_ignored true _ Hown), (assign_ignored false _ Hown).
    split; reflexivity.
Qed.

Lemma simulateFailure_unknown_witness :
  ~ known "propulsion"
  /\ Telemetry.simulatedFailures
       (fst (Telemetry.simulateFailure (fst (Telemetry.constructor 0 Scenario.steady))
               "propulsion" 0)) !! "propulsion" = Some true.
Proof.
  assert (H : ~ known "propulsion").
  { unfold known. intros [H | [H | [H | H]]]; discriminate H. }
  split; [exact H |].
  pose proof (simulateFailure_unknown (fst (Telemetry.constructor 0 Scenario.steady))
                "propulsion" 0 H) as Hthm.
  destruct (Telemetry.simulateFailure _ _ _) as [sim' timer].
  apply Hthm. discriminate.
Defined.

(** C8, as the claim states it, fails on the freshly loaded page: two
    injections on the battery, at times 0 and 20000, leave two pending
    timers for it, and when the first one is due, at time 30000, the
    battery flag is cleared although the second injection is only ten
    seconds old; its own timer is still pending. *)
Lemma second_injection_cleared_early :
  let s0 := System.init 0 Scenario.steady in
  let s2 :=
    System.run Scenario.no_text Scenario.keep_order real_arithmetic
      [System.SimulateFailure "battery" 0; System.SimulateFailure "battery" 20000]
      s0 in
  let s3 := System.step Scenario.no_text Scenario.keep_order real_arithmetic s2 (System.Timeout 30000) in
  System.failureTimers s2
  = [ {| Telemetry.fireAt := 30000; Telemetry.target := "battery" |};
      {| Telemetry.fireAt := 50000; Telemetry.target := "battery" |} ]
  /\ Telemetry.failing (System.simulator s2) "battery" = true
  /\ Telemetry.failing (System.simulator s3) "battery" = false
  /\ System.failureTimers s3
     = [ {| Telemetry.fireAt := 50000; Telemetry.target := "battery" |} ].
Proof.
  cbv zeta. unfold System.init.
  destruct (Telemetry.constructor 0 Scenario.steady) as [sim g].
  unfold System.run. cbn [fold_left System.step Telemetry.simulateFailure].
  cbn [System.simulator System.failureTimers System.detector System.rng
       System.trainingTimers app].
  split; [reflexivity |].
  split.
  { unfold Telemetry.failing.
    cbn [Telemetry.simulatedFailures Telemetry.set_simulatedFailures].
    rewrite !assign_plain by discriminate. rewrite lookup_insert_eq. reflexivity. }
  unfold System.fire_trainingTimers, System.fire_failureTimers.
  cbn [System.simulator System.failureTimers System.detector System.rng
       System.trainingTimers List.filter fold_left].
  split; [| reflexivity].
  unfold Telemetry.failing, Telemetry.clearFailure.
  cbn [System.due Telemetry.fireAt Telemetry.target Z.leb Z.compare Pos.compare
       Pos.compare_cont negb fold_left List.filter
       Telemetry.simulatedFailures Telemetry.set_simulatedFailures].
  apply failing_assign_false.
Qed.

(** C8, amended: every call of [simulateFailure] adds one timer, due 30
    seconds after the call, to the pending ones, and sets the flag of
    its subsystem (of every name but ["__proto__"], under which a flags
    object without such a property of its own records nothing); no call
    removes or replaces a timer.  When the clock reaches a time at which
    a pending timer is due, the flag of its subsystem is cleared,
    whatever was injected since the timer was armed, and exactly the
    timers that are due leave the pending ones. *)
Theorem failure_timers (toString36 : R -> string)
  (sort_random : list (list R) -> Rng -> list (list R) * Rng) (fl : Arithmetic)
  (s : System.t) (subsystem : string) (now : Z) :
  (let s' := System.step toString36 sort_random fl s (System.SimulateFailure subsystem now) in
   System.failureTimers s'
   = System.failureTimers s
     ++ [ {| Telemetry.fireAt := (now + 30000)%Z; Telemetry.target := subsystem |} ]
   /\ Telemetry.failing (System.simulator s') subsystem
      = (Telemetry.assignable
           (Telemetry.simulatedFailures (System.simulator s)) subsystem
         || Telemetry.failing (System.simulator s) subsystem)
   /\ (subsystem <> "__proto__" ->
       Telemetry.failing (System.simulator s') subsystem = true))
  /\ (let s' := System.step toString36 sort_random fl s (System.Timeout now) in
      System.failureTimers s'
      = List.filter (fun timer => negb (System.due now timer)) (System.failureTimers s)
      /\ forall timer,
           In timer (System.failureTimers s) ->
           (Telemetry.fireAt timer <= now)%Z ->
           Telemetry.failing (System.simulator s') (Telemetry.target timer) = false).
Proof.
  split.
  - cbv zeta. cbn [System.step Telemetry.simulateFailure System.failureTimers
                  System.simulator].
    split; [reflexivity |].
    unfold Telemetry.failing.
    cbn [Telemetry.simulatedFailures Telemetry.set_simulatedFailures].
    split.
    + unfold Telemetry.assign.
      destruct (Telemetry.assignable _ subsystem); [| reflexivity].
      rewrite lookup_insert_eq. reflexivity.
    + intros Hplain. rewrite assign_plain by exact Hplain.
      rewrite lookup_insert_eq. reflexivity.
  - cbv zeta. cbn [System.step].
    unfold System.fire_trainingTimers.
    destruct (fold_left _ _ _) as [d g]. cbn [System.failureTimers System.simulator].
    unfold System.fire_failureTimers.
    cbn [System.failureTimers System.simulator].
    split; [reflexivity |].
    intros timer Hin Hdue. apply fold_clearFailure_cleared.
    apply filter_In. split; [exact Hin |].
    unfold System.due. apply Z.leb_le. exact Hdue.
Qed.

Lemma failure_timers_witness :
  let s2 :=
    System.run Scenario.no_text Scenario.keep_order real_arithmetic
      [System.SimulateFailure "battery" 0; System.SimulateFailure "battery" 20000]
      (System.init 0 Scenario.steady) in
  In {| Telemetry.fireAt := 30000; Telemetry.target := "battery" |}
     (System.failureTimers s2)
  /\ (30000 <= 30000)%Z
  /\ Telemetry.failing
       (System.simulator
          (System.step Scenario.no_text Scenario.keep_order real_arithmetic s2 (System.Timeout 30000)))
       "battery" = false.
Proof.
  cbv zeta.
  assert (Hin : In {| Telemetry.fireAt := 30000; Telemetry.target := "battery" |}
                  (System.failureTimers
                     (System.run Scenario.no_text Scenario.keep_order real_arithmetic
                        [System.SimulateFailure "battery" 0;
                         System.SimulateFailure "battery" 20000]
                        (System.init 0
                           Scenario.steady)))).
  { unfold System.init.
    destruct (Telemetry.constructor 0 Scenario.steady) as [sim g].
    simpl. auto. }
  split; [exact Hin |]. split; [lia |].
  exact (proj2 (proj2 (failure_timers Scenario.no_text Scenario.keep_order real_arithmetic _
                         "battery" 30000))
           {| Telemetry.fireAt := 30000; Telemetry.target := "battery" |}
           Hin ltac:(simpl; lia)).
Defined.

(** ** Acknowledgement *)

Section AcknowledgeProperties.

Import AnomalyDetector.

Lemma find_by_id_None (st : list Anomaly) (refs : list nat) (anomalyId : string) :
  find_by_id st refs anomalyId = None <->
  (forall r a, In r refs -> st !! r = Some a -> id a <> anomalyId).
Proof.
  induction refs as [| r refs IH]; simpl.
  - split; [intros _ r a [] | reflexivity].
  - destruct (st !! r) as [a |] eqn:E.
    + destruct (String.eqb_spec (id a) anomalyId) as [Heq | Hne].
      * split; [discriminate |]. intros H. exfalso. exact (H r a (or_introl eq_refl) E Heq).
      * rewrite IH. split.
        -- intros H r' a' [<- | Hin] E'; [congruence | eauto].
        -- intros H r' a' Hin. apply H. right. exact Hin.
    + rewrite IH. split.
      * intros H r' a' [<- | Hin] E'; [congruence | eauto].
      * intros H r' a' Hin. apply H. right. exact Hin.
Qed.

Lemma find_by_id_Some (st : list Anomaly) (refs : list nat) (anomalyId : string)
  (r : nat) :
  find_by_id st refs anomalyId = Some r ->
  In r refs /\ exists a, st !! r = Some a /\ id a = anomalyId.
Proof.
  induction refs as [| r' refs IH]; simpl; [discriminate |].
  destruct (st !! r') as [a |] eqn:E.
  - destruct (String.eqb_spec (id a) anomalyId) as [Heq | Hne].
    + intros [= <-]. split; [left; reflexivity | eauto].
    + intros H. destruct (IH H) as [Hin Ha]. split; [right; exact Hin | exact Ha].
  - intros H. destruct (IH H) as [Hin Ha]. split; [right; exact Hin | exact Ha].
Qed.

(** [find] returns the first reference whose object has the id. *)
Lemma find_by_id_first (st : list Anomaly) (refs : list nat) (anomalyId : string)
  (r : nat) :
  find_by_id st refs anomalyId = Some r ->
  exists before after,
    refs = before ++ r :: after
    /\ Forall (fun r' => has_id st anomalyId r' = false) before.
Proof.
  induction refs as [| r' refs IH]; simpl; [discriminate |].
  destruct (st !! r') as [a |] eqn:E.
  - destruct (String.eqb (id a) anomalyId) eqn:Heq.
    + intros [= <-]. exists [], refs. split; [reflexivity | constructor].
    + intros H. destruct (IH H) as (before & after & -> & Hbefore).
      exists (r' :: before), after. split; [reflexivity |].
      apply List.Forall_cons; [| exact Hbefore].
      unfold has_id. rewrite E. exact Heq.
  - intros H. destruct (IH H) as (before & after & -> & Hbefore).
    exists (r' :: before), after. split; [reflexivity |].
    apply List.Forall_cons; [| exact Hbefore].
    unfold has_id. rewrite E. reflexivity.
Qed.

(** The filter of [acknowledgeAnomaly] reads the ids after the object
    found was marked, which leaves its id as it was. *)
Lemma other_ids_acknowledged (st : list Anomaly) (refs : list nat)
  (anomalyId by_ : string) (now : Z) (r : nat) :
  other_ids (alter (fun a => acknowledge a now by_) r st) refs anomalyId
  = List.filter (fun r' => negb (has_id st anomalyId r')) refs.
Proof.
  unfold other_ids, has_id. apply filter_ext. intros r'.
  destruct (Nat.eq_dec r' r) as [-> | Hne].
  - rewrite list_lookup_alter_eq. destruct (st !! r); reflexivity.
  - rewrite list_lookup_alter_ne by auto. destruct (st !! r'); reflexivity.
Qed.

End AcknowledgeProperties.

(** The two alerts of [Scenario.alerted_pair] and their ids. *)
Lemma alerted_pair_alerts :
  let d := fst Scenario.alerted_pair in
  let alert found :=
    {| AnomalyDetector.detection := found; AnomalyDetector.id := "03llll";
       AnomalyDetector.timestamp := 0; AnomalyDetector.acknowledged := false;
       AnomalyDetector.acknowledgedAt := None;
       AnomalyDetector.acknowledgedBy := None |} in
  AnomalyDetector.store d = [alert Scenario.flat_battery; alert Scenario.hot_battery]
  /\ AnomalyDetector.anomalies d = [0; 1]%nat
  /\ AnomalyDetector.anomalyHistory d = [0; 1]%nat.
Proof.
  cbv zeta.
  assert (Hzero : Scenario.base36 (IZR 0) = "0").
  { unfold Scenario.base36, eqb. rewrite bool_decide_eq_true_2; reflexivity. }
  assert (Htenth : Scenario.base36 0.1 = "0.3lllllllllm").
  { unfold Scenario.base36, eqb. rewrite bool_decide_eq_false_2 by lra. reflexivity. }
  unfold Scenario.alerted_pair, AnomalyDetector.processDetectedAnomalies.
  cbn [AnomalyDetector.process_loop]. unfold AnomalyDetector.generateAnomalyId.
  cbn [random Scenario.steady draws pos]. rewrite Hzero, Htenth.
  repeat split; reflexivity.
Qed.

(** C10, at a concrete state: one sample with a critically low battery
    voltage and a critically high battery temperature is processed; the
    two alerts are created at the same clock reading and with equal
    draws of [Math.random()], so they receive the same id.  Both are
    active.  Acknowledging that id returns true and marks the first of
    them, but empties the active array: the second alert has left the
    active set as well, and it is unacknowledged. *)
Theorem acknowledgeAnomaly_removes_unacknowledged :
  let d := fst Scenario.alerted_pair in
  let d' := snd (AnomalyDetector.acknowledgeAnomaly d "03llll" "operator" 5000) in
  exists a b,
    AnomalyDetector.getActiveAnomalies d = [a; b]
    /\ AnomalyDetector.detection a = Scenario.flat_battery
    /\ AnomalyDetector.detection b = Scenario.hot_battery
    /\ AnomalyDetector.id a = "03llll"
    /\ AnomalyDetector.id b = "03llll"
    /\ fst (AnomalyDetector.acknowledgeAnomaly d "03llll" "operator" 5000) = true
    /\ AnomalyDetector.anomalies d' = []
    /\ AnomalyDetector.objects (AnomalyDetector.store d')
         (AnomalyDetector.anomalyHistory d')
       = [AnomalyDetector.acknowledge a 5000 "operator"; b]
    /\ AnomalyDetector.acknowledged b = false.
Proof.
  cbv zeta. destruct alerted_pair_alerts as (Hstore & Hactive & Hhistory).
  unfold AnomalyDetector.getActiveAnomalies, AnomalyDetector.acknowledgeAnomaly.
  rewrite Hstore, Hactive, Hhistory.
  eexists _, _. repeat split; reflexivity.
Qed.

(** C10, amended: an id that no active alert has makes
    [acknowledgeAnomaly] return false and leave the detector, so the
    active set and the history, as it is.  An id that an active alert
    has makes it return true and record the acknowledgement with its
    time and author on the first active alert with that id, the one
    object that both arrays share, no other object changing; the
    history array is unchanged; and the active array loses every alert
    with that id, the marked one and the others.  When the id is that of
    one active alert only, that alert is the marked one and no other
    leaves the active set. *)
Theorem acknowledgeAnomaly_spec (d : AnomalyDetector.t) (anomalyId by_ : string)
  (now : Z) :
  ((forall r a, In r (AnomalyDetector.anomalies d) ->
                AnomalyDetector.store d !! r = Some a ->
                AnomalyDetector.id a <> anomalyId) ->
   AnomalyDetector.acknowledgeAnomaly d anomalyId by_ now = (false, d))
  /\ (forall r a,
        In r (AnomalyDetector.anomalies d) ->
        AnomalyDetector.store d !! r = Some a ->
        AnomalyDetector.id a = anomalyId ->
        exists before r0 after a0,
          AnomalyDetector.anomalies d = before ++ r0 :: after
          /\ Forall (fun r' => has_id (AnomalyDetector.store d) anomalyId r' = false)
               before
          /\ AnomalyDetector.store d !! r0 = Some a0
          /\ AnomalyDetector.id a0 = anomalyId
          /\ let '(result, d') :=
               AnomalyDetector.acknowledgeAnomaly d anomalyId by_ now in
             result = true
             /\ AnomalyDetector.store d' !! r0
                = Some {| AnomalyDetector.detection := AnomalyDetector.detection a0;
                          AnomalyDetector.id := AnomalyDetector.id a0;
                          AnomalyDetector.timestamp := AnomalyDetector.timestamp a0;
                          AnomalyDetector.acknowledged := true;
                          AnomalyDetector.acknowledgedAt := Some now;
                          AnomalyDetector.acknowledgedBy := Some by_ |}
             /\ (forall r', r' <> r0 ->
                   AnomalyDetector.store d' !! r' = AnomalyDetector.store d !! r')
             /\ AnomalyDetector.anomalies d'
                = List.filter
                    (fun r' => negb (has_id (AnomalyDetector.store d) anomalyId r'))
                    (AnomalyDetector.anomalies d)
             /\ ~ In r (AnomalyDetector.anomalies d')
             /\ ((forall r' a', In r' (AnomalyDetector.anomalies d) ->
                                AnomalyDetector.store d !! r' = Some a' ->
                                AnomalyDetector.id a' = anomalyId -> r' = r) ->
                 r0 = r
                 /\ AnomalyDetector.anomalies d'
                    = List.filter (fun r' => negb (r' =? r)%nat)
                        (AnomalyDetector.anomalies d))
             /\ AnomalyDetector.anomalyHistory d' = AnomalyDetector.anomalyHistory d).
Proof.
  split.
  - intros Hnone. unfold AnomalyDetector.acknowledgeAnomaly.
    rewrite (proj2 (find_by_id_None _ _ _) Hnone). reflexivity.
  - intros r a Hin Ha Hid. unfold AnomalyDetector.acknowledgeAnomaly.
    destruct (AnomalyDetector.find_by_id _ _ _) as [r0 |] eqn:Hfind.
    + destruct (find_by_id_Some _ _ _ _ Hfind) as (Hin0 & a0 & Ha0 & Hid0).
      destruct (find_by_id_first _ _ _ _ Hfind) as (before & after & Hsplit & Hbefore).
      exists before, r0, after, a0.
      split; [exact Hsplit |]. split; [exact Hbefore |].
      split; [exact Ha0 |]. split; [exact Hid0 |].
      cbn [AnomalyDetector.store AnomalyDetector.anomalies
           AnomalyDetector.anomalyHistory AnomalyDetector.set_alerts].
      rewrite other_ids_acknowledged.
      split; [reflexivity |].
      split; [rewrite list_lookup_alter_eq, Ha0; reflexivity |].
      split; [intros r' Hne; apply list_lookup_alter_ne; auto |].
      split; [reflexivity |].
      split.
      * intros Hin'. apply filter_In in Hin'. destruct Hin' as [_ Hother].
        unfold has_id in Hother. rewrite Ha in Hother.
        rewrite (proj2 (String.eqb_eq _ _) Hid) in Hother. discriminate.
      * split; [| reflexivity].
        intros Huniq.
        assert (r0 = r) as -> by (eapply Huniq; eassumption).
        split; [reflexivity |].
        apply filter_ext_in. intros r' Hin'. unfold has_id.
        destruct (Nat.eqb_spec r' r) as [-> | Hne].
        -- rewrite Ha. rewrite (proj2 (String.eqb_eq _ _) Hid). reflexivity.
        -- destruct (AnomalyDetector.store d !! r') as [a' |] eqn:Ha'; [| reflexivity].
           destruct (String.eqb_spec (AnomalyDetector.id a') anomalyId) as [Heq | _];
             [| reflexivity].
           exfalso. apply Hne. eapply Huniq; eassumption.
    + exfalso. exact (proj1 (find_by_id_None _ _ _) Hfind r a Hin Ha Hid).
Qed.

(** ** Deduplication *)

Section DedupProperties.

Import AnomalyDetector.

Lemma same_stamps_refl (st : list Anomaly) : same_stamps st st.
Proof. split; [reflexivity | eauto]. Qed.

Lemma same_stamps_trans (st1 st2 st3 : list Anomaly) :
  same_stamps st1 st2 -> same_stamps st2 st3 -> same_stamps st1 st3.
Proof.
  intros [Hl1 H1] [Hl2 H2]. split; [congruence |].
  intros r a Ha. destruct (H1 r a Ha) as (a' & Ha' & Hd & Ht & Hi).
  destruct (H2 r a' Ha') as (a'' & Ha'' & Hd' & Ht' & Hi').
  exists a''. repeat split; congruence.
Qed.

Lemma same_stamps_None (st st' : list Anomaly) (r : nat) :
  same_stamps st st' -> st !! r = None -> st' !! r = None.
Proof.
  intros [Hl _] Hnone. apply lookup_ge_None in Hnone. apply lookup_ge_None. lia.
Qed.

Lemma same_stamps_insert (st : list Anomaly) (r : nat) (a : Anomaly) (at_ : Z)
  (by_ : string) :
  st !! r = Some a -> same_stamps st (<[r := acknowledge a at_ by_]> st).
Proof.
  intros Ha. split; [apply length_insert |].
  intros r' a' Ha'. destruct (decide (r = r')) as [<- | Hne].
  - rewrite list_lookup_insert_eq by (eapply lookup_lt_Some; eassumption).
    assert (a' = a) as -> by congruence. eauto.
  - rewrite list_lookup_insert_ne by exact Hne. eauto.
Qed.

Lemma same_stamps_alter (st : list Anomaly) (r : nat) (at_ : Z) (by_ : string) :
  same_stamps st (alter (fun a => acknowledge a at_ by_) r st).
Proof.
  split; [apply length_alter |].
  intros r' a' Ha'. destruct (decide (r = r')) as [<- | Hne].
  - rewrite list_lookup_alter_eq, Ha'. simpl. eauto.
  - rewrite list_lookup_alter_ne by exact Hne. eauto.
Qed.

Lemma same_key_stamps (a a' b b' : Anomaly) :
  detection a' = detection a -> detection b' = detection b ->
  same_key a' b' = same_key a b.
Proof. unfold same_key. intros -> ->. reflexivity. Qed.

Lemma objects_cons (st : list Anomaly) (r : nat) (refs : list nat) :
  objects st (r :: refs)
  = match st !! r with
    | Some a => a :: objects st refs
    | None => objects st refs
    end.
Proof. reflexivity. Qed.

Lemma In_objects (st : list Anomaly) (refs : list nat) (a : Anomaly) :
  In a (objects st refs) <-> exists r, In r refs /\ st !! r = Some a.
Proof.
  induction refs as [| r refs IH].
  - simpl. split; [intros [] | intros (r & [] & _)].
  - rewrite objects_cons. destruct (st !! r) as [a0 |] eqn:E; simpl; rewrite ?IH.
    + split.
      * intros [<- | (r' & Hin & Ha)]; eauto.
      * intros (r' & [<- | Hin] & Ha); [left; congruence | right; eauto].
    + split.
      * intros (r' & Hin & Ha). eauto.
      * intros (r' & [<- | Hin] & Ha); [congruence | eauto].
Qed.

(** [apart] looks at keys and detection times only. *)
Lemma apart_same_stamps (st st' : list Anomaly) (refs : list nat) :
  same_stamps st st' -> apart (objects st refs) -> apart (objects st' refs).
Proof.
  intros Hsame. induction refs as [| r refs IH]; [auto |].
  rewrite !objects_cons. destruct (st !! r) as [a |] eqn:E.
  - destruct (proj2 Hsame r a E) as (a' & -> & Hd & Ht & _).
    simpl. intros [Hhead Htail]. split; [| apply IH, Htail].
    intros b' Hin' Hkey.
    apply In_objects in Hin'. destruct Hin' as (r' & Hr' & Hb').
    destruct (st !! r') as [b |] eqn:E'.
    + destruct (proj2 Hsame r' b E') as (b'' & Hb'' & Hdb & Htb & _).
      assert (b'' = b') as -> by congruence.
      rewrite Ht, Htb. apply Hhead.
      * apply In_objects. eauto.
      * rewrite <- Hkey. symmetry. apply same_key_stamps; assumption.
    + rewrite (same_stamps_None _ _ _ Hsame E') in Hb'. discriminate.
  - rewrite (same_stamps_None _ _ _ Hsame E). exact IH.
Qed.

Lemma apart_filter_refs (st : list Anomaly) (keep : nat -> bool) (refs : list nat) :
  apart (objects st refs) -> apart (objects st (List.filter keep refs)).
Proof.
  induction refs as [| r refs IH]; [auto |].
  simpl List.filter. rewrite objects_cons.
  assert (Htail : apart (match st !! r with
                         | Some a => a :: objects st refs
                         | None => objects st refs
                         end) -> apart (objects st refs))
    by (destruct (st !! r); simpl; tauto).
  destruct (keep r); [| intros H; apply IH, Htail, H].
  rewrite objects_cons. destruct (st !! r) as [a |]; [| exact IH].
  simpl. intros [Hhead Htl]. split; [| apply IH, Htl].
  intros b Hin. apply Hhead.
  apply In_objects in Hin. destruct Hin as (r' & Hr' & Hb).
  apply In_objects. exists r'. split; [| exact Hb].
  apply filter_In in Hr'. tauto.
Qed.

Lemma apart_snoc (l : list Anomaly) (b : Anomaly) :
  apart l ->
  (forall a, In a l -> same_key a b = true ->
             (30000 <= timestamp b - timestamp a)%Z) ->
  apart (l ++ [b]).
Proof.
  induction l as [| a l IH]; simpl; [tauto |].
  intros [Hhead Htail] Hnew. split.
  - intros b' Hin. apply in_app_or in Hin. destruct Hin as [Hin | [<- | []]].
    + apply Hhead, Hin.
    + apply Hnew. left. reflexivity.
  - apply IH; [exact Htail |]. intros a' Hin. apply Hnew. right. exact Hin.
Qed.

(** Read off [apart]: any two entries of the array, in their order. *)
Lemma apart_split (l l1 l2 l3 : list Anomaly) (a b : Anomaly) :
  apart l -> l = l1 ++ a :: l2 ++ b :: l3 -> same_key a b = true ->
  (30000 <= timestamp b - timestamp a)%Z.
Proof.
  intros Hap ->. induction l1 as [| x l1 IH]; simpl in Hap.
  - destruct Hap as [Hhead _]. apply Hhead.
    apply in_or_app. right. left. reflexivity.
  - apply IH, Hap.
Qed.

End DedupProperties.

Section DedupInvariant.

Import AnomalyDetector.

Variable toString36 : R -> string.
Variable sort_random : list (list R) -> Rng -> list (list R) * Rng.
Variable fl : Arithmetic.

Lemma fresh_same_stamps (now : Z) (st st' : list Anomaly) (r : nat) :
  same_stamps st st' -> fresh now st' r = fresh now st r.
Proof.
  intros Hsame. unfold fresh. destruct (st !! r) as [a |] eqn:E.
  - destruct (proj2 Hsame r a E) as (a' & -> & _ & -> & _). reflexivity.
  - rewrite (same_stamps_None _ _ _ Hsame E). reflexivity.
Qed.

Lemma cleanup_filter_spec (now : Z) (refs : list nat) (st : list Anomaly) :
  same_stamps st (snd (cleanup_filter now refs st))
  /\ fst (cleanup_filter now refs st) = List.filter (fresh now st) refs.
Proof.
  revert st. induction refs as [| r refs IH]; intros st.
  - split; [apply same_stamps_refl | reflexivity].
  - cbn [cleanup_filter List.filter]. unfold fresh at 1.
    destruct (st !! r) as [a |] eqn:E.
    + destruct (300000 <? now - timestamp a)%Z; cbn [negb].
      * set (st1 := if negb (acknowledged a) then _ else st).
        assert (Hst1 : same_stamps st st1).
        { unfold st1. destruct (negb _);
            [apply same_stamps_insert, E | apply same_stamps_refl]. }
        destruct (IH st1) as [Hs Hk]. split.
        -- eapply same_stamps_trans; eassumption.
        -- rewrite Hk. apply filter_ext. intros r'.
           apply fresh_same_stamps, Hst1.
      * destruct (IH st) as [Hs Hk].
        destruct (cleanup_filter now refs st) as [kept st'].
        simpl in *. split; [exact Hs | congruence].
    + apply IH.
Qed.

Lemma cleanupOldAnomalies_dedup (d : t) (now : Z) :
  dedup_ok d -> dedup_ok (cleanupOldAnomalies d now).
Proof.
  intros [Hvalid Hapart]. unfold cleanupOldAnomalies.
  destruct (cleanup_filter_spec now (anomalies d) (store d)) as [Hsame Hkept].
  destruct (cleanup_filter now (anomalies d) (store d)) as [kept st'].
  simpl in Hsame, Hkept. subst kept. split; simpl.
  - intros r Hin. apply filter_In in Hin. rewrite (proj1 Hsame).
    apply Hvalid. tauto.
  - apply apart_same_stamps with (st := store d); [exact Hsame |].
    apply apart_filter_refs, Hapart.
Qed.

Lemma objects_app (st : list Anomaly) (refs1 refs2 : list nat) :
  objects st (refs1 ++ refs2) = objects st refs1 ++ objects st refs2.
Proof. unfold objects. apply omap_app. Qed.

Lemma objects_grow (st : list Anomaly) (a : Anomaly) (refs : list nat) :
  (forall r, In r refs -> (r < length st)%nat) ->
  objects (st ++ [a]) refs = objects st refs.
Proof.
  induction refs as [| r refs IH]; intros Hvalid; [reflexivity |].
  rewrite !objects_cons, IH by (intros r' Hin; apply Hvalid; right; exact Hin).
  rewrite lookup_app_l by (apply Hvalid; left; reflexivity). reflexivity.
Qed.

Lemma push_objects (st : list Anomaly) (a : Anomaly) (refs : list nat) :
  (forall r, In r refs -> (r < length st)%nat) ->
  objects (st ++ [a]) (refs ++ [length st]) = objects st refs ++ [a].
Proof.
  intros Hvalid. rewrite objects_app, objects_grow by exact Hvalid.
  rewrite objects_cons, list_lookup_middle by reflexivity. reflexivity.
Qed.

(** A pushed detection is [apart] from the active array when it is
    processed at the clock reading of its own timestamp. *)
Lemma push_dedup (d : t) (anomaly : Anomaly) :
  dedup_ok d ->
  isDuplicateAnomaly d anomaly (timestamp anomaly) = false ->
  dedup_ok (set_alerts (store d ++ [anomaly]) (anomalies d ++ [length (store d)])
              (anomalyHistory d ++ [length (store d)]) d).
Proof.
  intros [Hvalid Hapart] Hdup. split; simpl.
  - intros r Hin. rewrite length_app. simpl.
    apply in_app_or in Hin. destruct Hin as [Hin | [<- | []]]; [| lia].
    specialize (Hvalid r Hin). lia.
  - rewrite push_objects by exact Hvalid. apply apart_snoc; [exact Hapart |].
    intros a Hin Hkey.
    destruct (Z.ltb_spec (timestamp anomaly - timestamp a) 30000) as [Hnear | Hfar];
      [| lia].
    exfalso. unfold isDuplicateAnomaly in Hdup.
    assert (Hex : existsb (fun existing => same_key existing anomaly)
                    (List.filter (fun a => (timestamp anomaly - timestamp a <? 30000)%Z)
                       (objects (store d) (anomalies d))) = true).
    { apply existsb_exists. exists a. split; [| exact Hkey].
      apply filter_In. split; [exact Hin |]. apply Z.ltb_lt. exact Hnear. }
    congruence.
Qed.

Lemma process_loop_dedup (batch : list Detection) (now : Z) (d : t) (g : Rng) :
  dedup_ok d -> dedup_ok (fst (process_loop toString36 batch now now d g)).
Proof.
  revert d g. induction batch as [| found batch IH]; intros d g Hok; [exact Hok |].
  cbn [process_loop].
  destruct (generateAnomalyId toString36 now g) as [id g1].
  apply IH.
  set (anomaly := {| detection := found; id := id; timestamp := now |}).
  destruct (isDuplicateAnomaly d anomaly now) eqn:Hdup; cbn [negb]; [exact Hok |].
  apply (push_dedup d anomaly Hok). exact Hdup.
Qed.

Lemma processDetectedAnomalies_dedup (d : t) (batch : list Detection) (now : Z)
  (g : Rng) :
  dedup_ok d ->
  dedup_ok (fst (processDetectedAnomalies toString36 d batch now now g)).
Proof.
  intros Hok. unfold processDetectedAnomalies.
  pose proof (process_loop_dedup batch now d g Hok) as H1.
  destruct (process_loop toString36 batch now now d g) as [d1 g1].
  simpl in H1. apply (cleanupOldAnomalies_dedup d1 now) in H1.
  cbn [fst]. destruct (_ <? _)%nat; exact H1.
Qed.

Lemma processTelemetry_dedup (d : t) (sim : Telemetry.Simulator)
  (data : Telemetry.Point.t) (now : Z) (g : Rng) :
  Telemetry.Point.timestamp data = now ->
  dedup_ok d ->
  dedup_ok (fst (processTelemetry toString36 sort_random fl d sim data now g)).
Proof.
  intros Hts Hok. unfold processTelemetry. rewrite Hts.
  set (found := _ ++ _).
  assert (Hmid : dedup_ok
                   (fst (if (0 <? length found)%nat
                         then processDetectedAnomalies toString36 d found now now g
                         else (d, g)))).
  { destruct (0 <? length found)%nat;
      [apply processDetectedAnomalies_dedup, Hok | exact Hok]. }
  destruct (if (0 <? length found)%nat then _ else _) as [d1 g1].
  simpl in Hmid.
  destruct (updateModels_bound sort_random fl d1 data g1) as (_ & Ha & Hs & _).
  unfold dedup_ok. rewrite Ha, Hs. exact Hmid.
Qed.

Lemma acknowledgeAnomaly_dedup (d : t) (anomalyId by_ : string) (now : Z) :
  dedup_ok d -> dedup_ok (snd (acknowledgeAnomaly d anomalyId by_ now)).
Proof.
  intros [Hvalid Hapart]. unfold acknowledgeAnomaly.
  destruct (find_by_id _ _ _) as [r |]; [| split; assumption].
  split; simpl.
  - intros r' Hin. unfold other_ids in Hin. apply filter_In in Hin.
    rewrite length_alter. apply Hvalid. tauto.
  - unfold other_ids. apply apart_filter_refs.
    apply apart_same_stamps with (st := store d);
      [apply same_stamps_alter | exact Hapart].
Qed.

Lemma trainingCallback_dedup (d : t) (g : Rng) :
  dedup_ok d -> dedup_ok (fst (trainingCallback sort_random d g)).
Proof.
  intros Hok. unfold trainingCallback.
  destruct (IsolationForest.train sort_random _ g) as [forest g1]. exact Hok.
Qed.

End DedupInvariant.

(** ** The page: deduplication in every run *)

Section PageDedup.

Variable toString36 : R -> string.
Variable sort_random : list (list R) -> Rng -> list (list R) * Rng.
Variable fl : Arithmetic.

Lemma fold_trainingCallback_dedup (fired : list Z) (d : AnomalyDetector.t) (g : Rng) :
  dedup_ok d ->
  dedup_ok
    (fst (fold_left
            (fun '(d, g) (_ : Z) => AnomalyDetector.trainingCallback sort_random d g)
            fired (d, g))).
Proof.
  revert d g. induction fired as [| at_ fired IH]; intros d g Hok; [exact Hok |].
  simpl. pose proof (trainingCallback_dedup sort_random d g Hok) as H.
  destruct (AnomalyDetector.trainingCallback sort_random d g) as [d1 g1].
  apply IH. exact H.
Qed.

Lemma init_page_ok (now : Z) (g : Rng) : page_ok (System.init now g).
Proof.
  split; [apply init_ok |]. unfold System.init.
  destruct (Telemetry.constructor now g) as [sim g1].
  split; simpl; [intros r [] | exact I].
Qed.

Lemma tick_dedup (now : Z) (s : System.t) :
  page_ok s -> dedup_ok (System.detector (System.tick toString36 sort_random fl now s)).
Proof.
  intros [[Hh _] Hd]. unfold System.tick.
  destruct (negb _); [exact Hd |].
  destruct (generateTelemetryPoint_lists (System.simulator s) now (System.rng s) Hh)
    as (p & sim' & g' & -> & Hts & Hpow & _).
  unfold Telemetry.getLatestTelemetry. rewrite Hpow. unfold pushed.
  rewrite last_snoc.
  destruct (AnomalyDetector.detectionEnabled _); [| exact Hd].
  pose proof (processTelemetry_dedup toString36 sort_random fl (System.detector s)
                sim' p now g' Hts Hd) as Hd'.
  destruct (AnomalyDetector.processTelemetry _ _ _ _ _ _ _) as [d g2].
  exact Hd'.
Qed.

Lemma step_page_ok (s : System.t) (e : System.Event) :
  page_ok s -> page_ok (System.step toString36 sort_random fl s e).
Proof.
  intros Hok. split; [apply step_ok, Hok |].
  destruct Hok as [Hsys Hd]. destruct e; simpl; try exact Hd.
  - apply tick_dedup. split; assumption.
  - unfold System.fire_trainingTimers, System.fire_failureTimers.
    cbn [System.detector System.rng System.trainingTimers System.simulator
         System.failureTimers].
    match goal with
    | |- context [fold_left ?f ?fired (System.detector s, System.rng s)] =>
        pose proof (fold_trainingCallback_dedup fired (System.detector s)
                      (System.rng s) Hd) as Hd';
        destruct (fold_left f fired (System.detector s, System.rng s)) as [d g]
    end.
    exact Hd'.
  - apply acknowledgeAnomaly_dedup, Hd.
  - unfold AnomalyDetector.trainMLModels.
    destruct (AnomalyDetector.isTraining _); exact Hd.
Qed.

Lemma run_page_ok (events : list System.Event) (s : System.t) :
  page_ok s -> page_ok (System.run toString36 sort_random fl events s).
Proof.
  revert s. induction events as [| e events IH]; intros s Hok; [exact Hok |].
  simpl. apply IH, step_page_ok, Hok.
Qed.

End PageDedup.

Lemma existsb_filter {A} (p f : A -> bool) (l : list A) :
  existsb f (List.filter p l) = existsb (fun a => p a && f a) l.
Proof.
  induction l as [| a l IH]; [reflexivity |].
  simpl. destruct (p a); simpl; rewrite IH; reflexivity.
Qed.

(** C4, as the claim states it, fails when the second of two identical
    detections is processed a millisecond after its sample was stamped:
    the samples are stamped 0 and 29999, less than 30 seconds apart, and
    both alerts are active. *)
Lemma duplicate_within_30s :
  exists a b,
    AnomalyDetector.getActiveAnomalies (fst Scenario.alerted_twice) = [a; b]
    /\ AnomalyDetector.same_key a b = true
    /\ AnomalyDetector.timestamp a = 0%Z
    /\ AnomalyDetector.timestamp b = 29999%Z.
Proof. eexists _, _. repeat split; reflexivity. Qed.

(** C4, amended: the 30 seconds are counted from the detection time of
    the active alert to the clock reading at which the new detection is
    processed.  A detection is dropped, and nothing is pushed, exactly
    when an active alert with its subsystem, parameter, kind and severity
    was detected less than 30 seconds before that reading; otherwise it
    is pushed onto the active array and the history.  In every state of
    the page, where a tick processes each sample at the reading at which
    it was stamped, any two entries of the active array with the same
    key have detection times at least 30 seconds apart. *)
Theorem dedup_window (toString36 : R -> string)
  (sort_random : list (list R) -> Rng -> list (list R) * Rng) (fl : Arithmetic)
  (now0 : Z) (g0 : Rng) (events : list System.Event)
  (d : AnomalyDetector.t) (found : AnomalyDetector.Detection)
  (timestamp now : Z) (g : Rng) :
  (let page := System.run toString36 sort_random fl events (System.init now0 g0) in
   let active :=
     AnomalyDetector.objects (AnomalyDetector.store (System.detector page))
       (AnomalyDetector.anomalies (System.detector page)) in
   forall l1 a l2 b l3,
     active = l1 ++ a :: l2 ++ b :: l3 ->
     AnomalyDetector.same_key a b = true ->
     (30000 <= AnomalyDetector.timestamp b - AnomalyDetector.timestamp a)%Z)
  /\ (let anomaly :=
        {| AnomalyDetector.detection := found;
           AnomalyDetector.id := fst (AnomalyDetector.generateAnomalyId toString36 now g);
           AnomalyDetector.timestamp := timestamp;
           AnomalyDetector.acknowledged := false;
           AnomalyDetector.acknowledgedAt := None;
           AnomalyDetector.acknowledgedBy := None |} in
      let d' := fst (AnomalyDetector.process_loop toString36 [found] timestamp now d g) in
      if existsb
           (fun a => (now - AnomalyDetector.timestamp a <? 30000)%Z
                     && AnomalyDetector.same_key a anomaly)
           (AnomalyDetector.objects (AnomalyDetector.store d) (AnomalyDetector.anomalies d))
      then d' = d
      else AnomalyDetector.store d' = AnomalyDetector.store d ++ [anomaly]
           /\ AnomalyDetector.anomalies d'
              = AnomalyDetector.anomalies d ++ [length (AnomalyDetector.store d)]
           /\ AnomalyDetector.anomalyHistory d'
              = AnomalyDetector.anomalyHistory d ++ [length (AnomalyDetector.store d)]).
Proof.
  split.
  - intros page active l1 a l2 b l3 Hsplit Hkey.
    destruct (run_page_ok toString36 sort_random fl events (System.init now0 g0)
                (init_page_ok now0 g0)) as [_ [_ Hapart]].
    eapply apart_split; eassumption.
  - cbv zeta. cbn [AnomalyDetector.process_loop].
    destruct (AnomalyDetector.generateAnomalyId toString36 now g) as [id g1].
    cbn [fst]. unfold AnomalyDetector.isDuplicateAnomaly.
    rewrite existsb_filter.
    destruct (existsb _ _); reflexivity || (repeat split; reflexivity).
Qed.

(** ** The sweep of old alerts *)

Section SweepProperties.

Import AnomalyDetector.

Variable toString36 : R -> string.
Variable sort_random : list (list R) -> Rng -> list (list R) * Rng.
Variable fl : Arithmetic.

(** A sample in which no detector finds anything leaves the alert
    arrays and the anomaly objects as they are: the sweep is not run. *)
Lemma processTelemetry_quiet (d : t) (sim : Telemetry.Simulator)
  (data : Telemetry.Point.t) (now : Z) (g : Rng) :
  detectThresholdAnomalies data = [] ->
  detectStatisticalAnomalies d data = [] ->
  (if trainingComplete d then detectMLAnomalies d data else []) = [] ->
  detectPatternAnomalies sim data = [] ->
  let d' := fst (processTelemetry toString36 sort_random fl d sim data now g) in
  store d' = store d /\ anomalies d' = anomalies d
  /\ anomalyHistory d' = anomalyHistory d.
Proof.
  intros Ht Hs Hm Hp. unfold processTelemetry. rewrite Ht, Hs, Hm, Hp.
  cbn [app length Nat.ltb Nat.leb].
  destruct (updateModels_bound sort_random fl d data g) as (Hh & Ha & Hst & _).
  auto.
Qed.

End SweepProperties.

Lemma Math_trunc_half_minute : Math_trunc (- (0.5 * 60)) = (-30)%Z.
Proof.
  unfold Math_trunc. decide_comparisons. apply Zceil_eq. lra.
Qed.

Lemma quiet_no_threshold (timestamp : Z) :
  AnomalyDetector.detectThresholdAnomalies (Scenario.quiet timestamp) = [].
Proof.
  unfold AnomalyDetector.detectThresholdAnomalies. simpl.
  unfold AnomalyDetector.thresholds.battery.voltage_critical_min,
    AnomalyDetector.thresholds.battery.voltage_critical_max,
    AnomalyDetector.thresholds.battery.voltage_min,
    AnomalyDetector.thresholds.battery.voltage_max,
    AnomalyDetector.thresholds.battery.temperature_critical_max,
    AnomalyDetector.thresholds.battery.temperature_max,
    AnomalyDetector.thresholds.solar.power_critical_min,
    AnomalyDetector.thresholds.solar.power_min,
    AnomalyDetector.thresholds.thermal.processor_critical_max,
    AnomalyDetector.thresholds.communication.signalStrength_critical_min.
  decide_comparisons. reflexivity.
Qed.

Lemma quiet_no_pattern (timestamp : Z) :
  AnomalyDetector.detectPatternAnomalies Scenario.quiet_simulator
    (Scenario.quiet timestamp) = [].
Proof.
  unfold AnomalyDetector.detectPatternAnomalies, Telemetry.getHistoricalData.
  rewrite Math_trunc_half_minute.
  cbn [Telemetry.history_of Telemetry.dataHistory Scenario.quiet_simulator
       Telemetry.h_power String.eqb Ascii.eqb Bool.eqb].
  simpl.
  rewrite Rminus_diag, Rabs_R0. unfold gtb.
  rewrite (bool_decide_eq_false_2 (0 > 1)) by lra.
  rewrite bool_decide_eq_false_2; [reflexivity |].
  unfold AnomalyDetector.variance, AnomalyDetector.average, sum. simpl. lra.
Qed.

(** C5, at a concrete run: the detector holds one active alert,
    detected at time 0 and never acknowledged.  At time 400000, more
    than five minutes later, a nominal sample is processed.  No detector
    finds anything in it, [processDetectedAnomalies] is therefore not
    called, and the alert is still returned by [getActiveAnomalies],
    unacknowledged; the sweep, had it run, would have removed it. *)
Theorem stale_alert_stays_active :
  let before := fst Scenario.alerted in
  let after := fst Scenario.alerted_later in
  (exists a,
     AnomalyDetector.getActiveAnomalies before = [a]
     /\ AnomalyDetector.timestamp a = 0%Z
     /\ AnomalyDetector.acknowledged a = false
     /\ (300000 < 400000 - AnomalyDetector.timestamp a)%Z
     /\ AnomalyDetector.getActiveAnomalies after = [a])
  /\ AnomalyDetector.getActiveAnomalies
       (AnomalyDetector.cleanupOldAnomalies before 400000) = [].
Proof.
  cbv zeta. split; [| reflexivity].
  destruct (processTelemetry_quiet Scenario.no_text Scenario.keep_order real_arithmetic
              (fst Scenario.alerted) Scenario.quiet_simulator
              (Scenario.quiet 400000) 400000 (snd Scenario.alerted))
    as (Hstore & Hactive & _).
  - apply quiet_no_threshold.
  - reflexivity.
  - reflexivity.
  - apply quiet_no_pattern.
  - fold Scenario.alerted_later in Hstore, Hactive.
    unfold AnomalyDetector.getActiveAnomalies. rewrite Hstore, Hactive.
    eexists. repeat split; reflexivity.
Qed.

Lemma acknowledgeAnomaly_spec_witness :
  let d := fst Scenario.alerted_pair in
  (exists a, In 1%nat (AnomalyDetector.anomalies d)
             /\ AnomalyDetector.store d !! 1%nat = Some a
             /\ AnomalyDetector.id a = "03llll")
  /\ fst (AnomalyDetector.acknowledgeAnomaly d "03llll" "operator" 5000) = true
  /\ ~ In 1%nat
        (AnomalyDetector.anomalies
           (snd (AnomalyDetector.acknowledgeAnomaly d "03llll" "operator" 5000))).
Proof.
  cbv zeta. destruct alerted_pair_alerts as (Hstore & Hactive & _).
  assert (Hin : In 1%nat (AnomalyDetector.anomalies (fst Scenario.alerted_pair)))
    by (rewrite Hactive; right; left; reflexivity).
  destruct (AnomalyDetector.store (fst Scenario.alerted_pair) !! 1%nat) as [a |] eqn:Ha;
    [| rewrite Hstore in Ha; discriminate Ha].
  assert (Hid : AnomalyDetector.id a = "03llll")
    by (rewrite Hstore in Ha; injection Ha as <-; reflexivity).
  split; [exists a; auto |].
  destruct (proj2 (acknowledgeAnomaly_spec (fst Scenario.alerted_pair) "03llll"
                     "operator" 5000) 1%nat a Hin Ha Hid)
    as (before & r0 & after & a0 & _ & _ & _ & _ & Hthm).
  destruct (AnomalyDetector.acknowledgeAnomaly (fst Scenario.alerted_pair) "03llll"
              "operator" 5000) as [result d'].
  destruct Hthm as (Hres & _ & _ & _ & Hgone & _).
  split; [exact Hres | exact Hgone].
Defined.

(** * Further properties of the simulator *)

Section StatusProperties.

Import Telemetry.

(** A status is [critical], or at least [warning], exactly when one of
    the tests of its band holds; the tests are passed as booleans. *)
Lemma rank_bands (c w c' w' : bool) :
  (c' = true -> c = true) ->
  (w' = true -> w = true \/ c = true) ->
  (rank (if c' then critical else if w' then warning else normal)
   <= rank (if c then critical else if w then warning else normal))%nat.
Proof.
  destruct c, w, c', w'; simpl; intros Hc Hw; try lia;
    try (specialize (Hc eq_refl); discriminate);
    destruct (Hw eq_refl); discriminate.
Qed.

End StatusProperties.

(** Turns a test [a || b || ... = true] of comparisons into the
    disjunction of the comparisons. *)
Ltac split_tests :=
  unfold ltb, gtb in *;
  repeat match goal with
    | H : (_ || _) = true |- _ => apply orb_true_iff in H; destruct H as [H | H]
    | H : bool_decide _ = true |- _ => apply bool_decide_eq_true in H
    end.

Ltac pick_test :=
  unfold ltb, gtb;
  first
    [ apply bool_decide_eq_true; lra
    | apply orb_true_iff; left; pick_test
    | apply orb_true_iff; right; pick_test ].

(** X1: a status never gets worse when every reading moves to the safe
    side: higher voltage, capacity, power or signal strength, lower
    temperatures or error rate.  In particular each critical band lies
    inside the warning band of the same reading. *)
Theorem status_monotone :
  (forall v t c v' t' c', v <= v' -> t' <= t -> c <= c' ->
     (rank (Telemetry.getBatteryStatus v' t' c')
      <= rank (Telemetry.getBatteryStatus v t c))%nat)
  /\ (forall p t p' t', p <= p' -> t' <= t ->
        (rank (Telemetry.getSolarStatus p' t')
         <= rank (Telemetry.getSolarStatus p t))%nat)
  /\ (forall p b s p' b' s', p' <= p -> b' <= b -> s' <= s ->
        (rank (Telemetry.getThermalStatus p' b' s')
         <= rank (Telemetry.getThermalStatus p b s))%nat)
  /\ (forall s e s' e', s <= s' -> e' <= e ->
        (rank (Telemetry.getCommunicationStatus s' e')
         <= rank (Telemetry.getCommunicationStatus s e))%nat).
Proof.
  unfold Telemetry.getBatteryStatus, Telemetry.getSolarStatus,
    Telemetry.getThermalStatus, Telemetry.getCommunicationStatus,
    Telemetry.subsystems.battery.temperature_threshold,
    Telemetry.subsystems.solar.power_base,
    Telemetry.subsystems.solar.temperature_threshold,
    Telemetry.subsystems.thermal.processor_threshold,
    Telemetry.subsystems.thermal.battery_threshold,
    Telemetry.subsystems.thermal.solar_threshold,
    Telemetry.subsystems.communication.signalStrength_threshold,
    Telemetry.subsystems.communication.errorRate_threshold.
  repeat split; intros; apply rank_bands; intros Htest; split_tests;
    try pick_test; try (left; pick_test); try (right; pick_test).
Qed.

Lemma status_monotone_witness :
  (rank (Telemetry.getBatteryStatus 24 20 100)
   <= rank (Telemetry.getBatteryStatus 21 40 70))%nat.
Proof.
  apply (proj1 status_monotone); lra.
Defined.

Section OrbitProperties.

Import Telemetry.

Lemma generatePowerTelemetry_eclipse (s : Simulator) (missionTime : R) (g : Rng) :
  Power.eclipse (fst (generatePowerTelemetry s missionTime g))
  = orbit_eclipse missionTime.
Proof.
  unfold generatePowerTelemetry, orbit_eclipse, noise, random.
  destruct (gtb _ 0.6 && ltb _ 0.9); destruct (failing s "battery");
    destruct (failing s "solar"); reflexivity.
Qed.

Lemma js_rem_nonneg (t : R) :
  0 <= t ->
  js_rem t 5400 = t - 5400 * IZR (Zfloor (t / 5400))
  /\ 0 <= js_rem t 5400 < 5400.
Proof.
  intros Ht. unfold js_rem, Math_trunc, ltb.
  rewrite bool_decide_eq_false_2 by (unfold Rdiv; nra).
  split; [reflexivity |].
  pose proof (Zfloor_bound (t / 5400)) as Hb. lra.
Qed.

Lemma js_rem_period (t : R) : 0 <= t -> js_rem (t + 5400) 5400 = js_rem t 5400.
Proof.
  intros Ht.
  rewrite (proj1 (js_rem_nonneg t Ht)), (proj1 (js_rem_nonneg (t + 5400) ltac:(lra))).
  replace ((t + 5400) / 5400) with (t / 5400 + IZR 1) by (simpl; lra).
  rewrite Zfloor_addz, plus_IZR. lra.
Qed.

Lemma js_rem_negative (t : R) : t < 0 -> js_rem t 5400 <= 0.
Proof.
  intros Ht. unfold js_rem, Math_trunc, ltb.
  rewrite bool_decide_eq_true_2 by (unfold Rdiv; nra).
  pose proof (Zceil_bound (t / 5400)) as Hb. lra.
Qed.

Lemma js_rem_first_orbit (t : R) : 0 <= t < 5400 -> js_rem t 5400 = t.
Proof.
  intros Ht. rewrite (proj1 (js_rem_nonneg t ltac:(lra))).
  rewrite (Zfloor_eq 0) by (simpl; lra). simpl. lra.
Qed.

Lemma orbit_eclipse_negative (t : R) : t < 0 -> orbit_eclipse t = false.
Proof.
  intros Ht. unfold orbit_eclipse, gtb.
  pose proof (js_rem_negative t Ht).
  rewrite bool_decide_eq_false_2 by lra. reflexivity.
Qed.

End OrbitProperties.

(** X2: the eclipse flag of a generated power sample depends on the
    mission time only.  From mission time 0 on it has period 5400
    seconds, and within an orbit it is set exactly strictly between 3240
    and 4860 seconds; at a negative mission time, as in the history that
    the constructor makes up, it is never set. *)
Theorem eclipse_by_mission_time (s s' : Telemetry.Simulator) (g g' : Rng) (t : R) :
  let eclipse s t g :=
    Telemetry.Power.eclipse (fst (Telemetry.generatePowerTelemetry s t g)) in
  eclipse s t g = eclipse s' t g'
  /\ (0 <= t -> eclipse s (t + 5400) g = eclipse s t g)
  /\ (0 <= t < 5400 -> (eclipse s t g = true <-> 3240 < t < 4860))
  /\ (t < 0 -> eclipse s t g = false).
Proof.
  cbv beta zeta. rewrite !generatePowerTelemetry_eclipse.
  split; [reflexivity |]. split; [| split].
  - intros Ht. unfold orbit_eclipse. rewrite js_rem_period by exact Ht. reflexivity.
  - intros Ht. unfold orbit_eclipse, gtb, ltb. rewrite js_rem_first_orbit by exact Ht.
    rewrite andb_true_iff, !bool_decide_eq_true. lra.
  - apply orbit_eclipse_negative.
Qed.

Lemma eclipse_by_mission_time_witness :
  Telemetry.Power.eclipse
    (fst (Telemetry.generatePowerTelemetry Scenario.quiet_simulator 4000 Scenario.steady))
  = true
  /\ Telemetry.Power.eclipse
       (fst (Telemetry.generatePowerTelemetry Scenario.quiet_simulator
               (4000 + 5400) Scenario.steady))
     = true
  /\ Telemetry.Power.eclipse
       (fst (Telemetry.generatePowerTelemetry Scenario.quiet_simulator (-7)
               Scenario.steady))
     = false.
Proof.
  pose proof (eclipse_by_mission_time Scenario.quiet_simulator Scenario.quiet_simulator
                Scenario.steady Scenario.steady 4000) as (_ & Hper & Hin & _).
  pose proof (eclipse_by_mission_time Scenario.quiet_simulator Scenario.quiet_simulator
                Scenario.steady Scenario.steady (-7)) as (_ & _ & _ & Hneg).
  cbv beta zeta in *.
  assert (H4000 : Telemetry.Power.eclipse
                    (fst (Telemetry.generatePowerTelemetry Scenario.quiet_simulator
                            4000 Scenario.steady)) = true)
    by (apply Hin; lra).
  split; [exact H4000 |].
  split; [rewrite Hper by lra; exact H4000 | apply Hneg; lra].
Defined.

Section HistoryProperties.

Import Telemetry.

(** What [generateTelemetryPoint] returns besides the histories. *)
Lemma generateTelemetryPoint_sample (s : Simulator) (timestamp : Z) (g : Rng) :
  let p := fst (fst (generateTelemetryPoint s timestamp g)) in
  let s' := snd (fst (generateTelemetryPoint s timestamp g)) in
  Point.timestamp p = timestamp
  /\ Point.missionTime p = IZR (timestamp - startTime s) / 1000
  /\ Power.eclipse (Point.power p) = orbit_eclipse (Point.missionTime p)
  /\ startTime s' = startTime s
  /\ isRunning s' = isRunning s
  /\ simulatedFailures s' = simulatedFailures s.
Proof.
  cbv zeta. unfold generateTelemetryPoint.
  pose proof (generatePowerTelemetry_eclipse s (IZR (timestamp - startTime s) / 1000) g)
    as Hecl.
  destruct (generatePowerTelemetry s _ g) as [powerData g1].
  destruct (generateThermalTelemetry s _ g1) as [thermalData g2].
  destruct (generateCommunicationTelemetry s _ g2) as [commData g3].
  destruct (generateAttitudeTelemetry _ g3) as [attitudeData g4].
  simpl in *. auto 10.
Qed.

Lemma generateTelemetryPoint_history_same (s : Simulator) (timestamp : Z) (g : Rng) :
  history_same (dataHistory s) ->
  history_same (dataHistory (snd (fst (generateTelemetryPoint s timestamp g)))).
Proof.
  intros (Ht & Hc & Hp & Ha & Hn).
  destruct (generateTelemetryPoint_spec s timestamp g) as (p & g' & -> & _).
  cbn [fst snd dataHistory]. rewrite Ht, Hc.
  destruct (Nat.ltb_spec 300 (length (h_power (dataHistory s) ++ [p]))) as [Hfull | Hroom];
    unfold history_same; cbn [h_power h_thermal h_communication h_attitude h_anomalies];
    rewrite ?length_shift, ?length_app in *; simpl in *;
    repeat split; auto; lia.
Qed.

(** The loop of [initializeHistory] appends one sample per second,
    oldest first, none of them in eclipse. *)
Lemma initializeHistory_loop_samples (i : nat) (now : Z) (s : Simulator) (g : Rng) :
  startTime s = now ->
  h_thermal (dataHistory s) = h_power (dataHistory s) ->
  h_communication (dataHistory s) = h_power (dataHistory s) ->
  (length (h_power (dataHistory s)) + i <= 300)%nat ->
  exists pts,
    let s' := fst (initializeHistory_loop i now s g) in
    h_power (dataHistory s') = h_power (dataHistory s) ++ pts
    /\ h_thermal (dataHistory s') = h_power (dataHistory s')
    /\ h_communication (dataHistory s') = h_power (dataHistory s')
    /\ h_attitude (dataHistory s') = h_attitude (dataHistory s)
    /\ h_anomalies (dataHistory s') = h_anomalies (dataHistory s)
    /\ startTime s' = now
    /\ map Point.timestamp pts
       = map (fun k => (now - Z.of_nat k * 1000)%Z) (rev (seq 1 i))
    /\ Forall (fun p => Power.eclipse (Point.power p) = false) pts.
Proof.
  revert s g. induction i as [| i IH]; intros s g Hstart Ht Hc Hlen.
  - exists []. simpl. rewrite app_nil_r. repeat split; auto.
  - cbn [initializeHistory_loop].
    pose proof (generateTelemetryPoint_sample s (now - Z.of_nat (S i) * 1000) g)
      as (Hts & Hmt & Hecl & Hst & _).
    destruct (generateTelemetryPoint_spec s (now - Z.of_nat (S i) * 1000) g)
      as (p & g' & Heq & _).
    rewrite Heq in Hts, Hmt, Hecl, Hst |- *. cbn [fst snd] in Hts, Hmt, Hecl, Hst.
    match goal with
    | |- context [initializeHistory_loop i now ?s1 g'] => set (s1' := s1) in *
    end.
    assert (Hroom : (300 <? length (h_power (dataHistory s) ++ [p]))%nat = false).
    { apply Nat.ltb_ge. rewrite length_app. simpl. lia. }
    assert (Hpow : h_power (dataHistory s1') = h_power (dataHistory s) ++ [p])
      by (unfold s1'; cbn [dataHistory]; rewrite Hroom; reflexivity).
    assert (Hthe : h_thermal (dataHistory s1') = h_power (dataHistory s1'))
      by (unfold s1'; cbn [dataHistory]; rewrite Hroom; simpl; rewrite Ht; reflexivity).
    assert (Hcom : h_communication (dataHistory s1') = h_power (dataHistory s1'))
      by (unfold s1'; cbn [dataHistory]; rewrite Hroom; simpl; rewrite Hc; reflexivity).
    assert (Hatt : h_attitude (dataHistory s1') = h_attitude (dataHistory s)
                   /\ h_anomalies (dataHistory s1') = h_anomalies (dataHistory s))
      by (unfold s1'; cbn [dataHistory]; rewrite Hroom; split; reflexivity).
    destruct (IH s1' g') as (pts & Hp' & Ht' & Hc' & Ha' & Hn' & Hs' & Hstamps & Hdark).
    + rewrite Hst. exact Hstart.
    + exact Hthe.
    + exact Hcom.
    + rewrite Hpow, length_app. simpl. lia.
    + exists (p :: pts). cbv zeta in *.
      split; [rewrite Hp', Hpow, <- app_assoc; reflexivity |].
      split; [exact Ht' |]. split; [exact Hc' |].
      split; [rewrite Ha'; apply Hatt |]. split; [rewrite Hn'; apply Hatt |].
      split; [exact Hs' |]. split.
      * rewrite seq_S, rev_app_distr. cbn [rev app map].
        rewrite Hts, Hstamps. reflexivity.
      * constructor; [| exact Hdark].
        rewrite Hecl, Hmt. apply orbit_eclipse_negative.
        rewrite Hstart.
        replace (now - Z.of_nat (S i) * 1000 - now)%Z with (- (Z.of_nat (S i) * 1000))%Z by lia.
        rewrite opp_IZR, mult_IZR, <- INR_IZR_INZ.
        pose proof (pos_INR i). rewrite S_INR. simpl. nra.
Qed.

End HistoryProperties.

Lemma constructor_samples (now : Z) (g : Rng) :
  let s := fst (Telemetry.constructor now g) in
  let h := Telemetry.dataHistory s in
  Telemetry.startTime s = now
  /\ Telemetry.isRunning s = false
  /\ Telemetry.h_thermal h = Telemetry.h_power h
  /\ Telemetry.h_communication h = Telemetry.h_power h
  /\ map Telemetry.Point.timestamp (Telemetry.h_power h)
     = map (fun k => (now - Z.of_nat k * 1000)%Z) (rev (seq 1 60))
  /\ Forall (fun p => Telemetry.Power.eclipse (Telemetry.Point.power p) = false)
       (Telemetry.h_power h).
Proof.
  cbv zeta. unfold Telemetry.constructor, Telemetry.initializeHistory.
  match goal with
  | |- context [Telemetry.initializeHistory_loop 60 now ?s0 g] => set (s0' := s0)
  end.
  destruct (initializeHistory_loop_samples 60 now s0' g)
    as (pts & Hp & Ht & Hc & _ & _ & Hs & Hstamps & Hdark);
    try reflexivity; [simpl; lia |].
  destruct (initializeHistory_loop_simulatedFailures 60 now s0' g) as [Hflags Hrun].
  cbv zeta in *. rewrite Hp in *. simpl app in *.
  repeat split; auto.
Qed.

(** X3: a new simulator is stopped, has its four fault flags cleared and
    starts at the given time; each of its three written histories holds
    the same sixty samples, stamped one second apart from 60 seconds
    before the start to 1 second before it, oldest first, and none of
    them in eclipse. *)
Theorem constructor_prefills_history (now : Z) (g : Rng) :
  let s := fst (Telemetry.constructor now g) in
  let h := Telemetry.dataHistory s in
  Telemetry.startTime s = now
  /\ Telemetry.isRunning s = false
  /\ (forall k, Telemetry.failing s k = false)
  /\ Telemetry.h_thermal h = Telemetry.h_power h
  /\ Telemetry.h_communication h = Telemetry.h_power h
  /\ map Telemetry.Point.timestamp (Telemetry.h_power h)
     = map (fun k => (now - Z.of_nat k * 1000)%Z) (rev (seq 1 60))
  /\ Forall (fun p => Telemetry.Power.eclipse (Telemetry.Point.power p) = false)
       (Telemetry.h_power h).
Proof.
  destruct (constructor_samples now g) as (Hs & Hr & Ht & Hc & Hstamps & Hdark).
  cbv zeta in *. repeat split; auto.
  intros k. unfold Telemetry.failing. rewrite constructor_simulatedFailures.
  destruct (decide (k = "battery")) as [-> | H1]; [reflexivity |].
  rewrite lookup_insert_ne by auto.
  destruct (decide (k = "solar")) as [-> | H2]; [reflexivity |].
  rewrite lookup_insert_ne by auto.
  destruct (decide (k = "thermal")) as [-> | H3]; [reflexivity |].
  rewrite lookup_insert_ne by auto.
  destruct (decide (k = "communication")) as [-> | H4]; [reflexivity |].
  rewrite lookup_insert_ne by auto. reflexivity.
Qed.

Section PageHistory.

Variable toString36 : R -> string.
Variable sort_random : list (list R) -> Rng -> list (list R) * Rng.
Variable fl : Arithmetic.

(** A tick replaces the simulator by the one that
    [generateTelemetryPoint] leaves, when the simulator runs. *)
Lemma tick_simulator (now : Z) (s : System.t) :
  System.simulator (System.tick toString36 sort_random fl now s)
  = if Telemetry.isRunning (System.simulator s)
    then snd (fst (Telemetry.generateTelemetryPoint (System.simulator s) now
                     (System.rng s)))
    else System.simulator s.
Proof.
  unfold System.tick. destruct (Telemetry.isRunning _); [| reflexivity].
  cbn [negb].
  destruct (Telemetry.generateTelemetryPoint _ now _) as [[p sim] g1].
  destruct (Telemetry.getLatestTelemetry sim) as [latest |]; [| reflexivity].
  destruct (AnomalyDetector.detectionEnabled _); [| reflexivity].
  destruct (AnomalyDetector.processTelemetry _ _ _ _ _ _ _). reflexivity.
Qed.

(** A property of the histories that [generateTelemetryPoint] keeps is
    kept by every event. *)
Lemma step_history_invariant (P : Telemetry.DataHistory -> Prop) :
  (forall sim timestamp g,
     P (Telemetry.dataHistory sim) ->
     P (Telemetry.dataHistory
          (snd (fst (Telemetry.generateTelemetryPoint sim timestamp g))))) ->
  forall s e,
    P (Telemetry.dataHistory (System.simulator s)) ->
    P (Telemetry.dataHistory
         (System.simulator (System.step toString36 sort_random fl s e))).
Proof.
  intros Hgen s e HP. destruct e; cbn [System.step].
  - unfold Telemetry.start. destruct (Telemetry.isRunning _); exact HP.
  - unfold Telemetry.stop. destruct (Telemetry.isRunning _); exact HP.
  - rewrite tick_simulator. destruct (Telemetry.isRunning _); [apply Hgen |]; exact HP.
  - exact HP.
  - exact HP.
  - unfold System.fire_trainingTimers.
    destruct (fold_left _ _ _) as [d g]. cbn [System.simulator].
    unfold System.fire_failureTimers. cbn [System.simulator].
    rewrite fold_clearFailure_dataHistory. exact HP.
  - exact HP.
  - unfold AnomalyDetector.trainMLModels.
    destruct (AnomalyDetector.isTraining _); exact HP.
Qed.

Lemma run_history_invariant (P : Telemetry.DataHistory -> Prop) :
  (forall sim timestamp g,
     P (Telemetry.dataHistory sim) ->
     P (Telemetry.dataHistory
          (snd (fst (Telemetry.generateTelemetryPoint sim timestamp g))))) ->
  forall events s,
    P (Telemetry.dataHistory (System.simulator s)) ->
    P (Telemetry.dataHistory
         (System.simulator (System.run toString36 sort_random fl events s))).
Proof.
  intros Hgen events. induction events as [| e events IH]; intros s HP; [exact HP |].
  simpl. apply IH, step_history_invariant; assumption.
Qed.

Lemma init_history_same (now : Z) (g : Rng) :
  history_same (Telemetry.dataHistory (System.simulator (System.init now g))).
Proof.
  pose proof (constructor_samples now g) as (_ & _ & Ht & Hc & Hstamps & _).
  pose proof (constructor_history_ok now g) as (_ & _ & _ & Ha & Hn).
  unfold System.init. destruct (Telemetry.constructor now g) as [sim g1].
  cbv zeta in *. cbn [fst System.simulator] in *.
  apply (f_equal length) in Hstamps. rewrite !length_map in Hstamps.
  repeat split; auto; rewrite Hstamps; simpl; lia.
Qed.

End PageHistory.

(** X4: in every state of the page the power, thermal and communication
    histories are one and the same sequence of samples, between 60 and
    300 of them, so that [getLatestTelemetry] never answers null; and
    after a tick of a running simulator it answers a sample stamped with
    the time of that tick. *)
Theorem histories_coincide (toString36 : R -> string)
  (sort_random : list (list R) -> Rng -> list (list R) * Rng) (fl : Arithmetic)
  (now : Z) (g : Rng) (events : list System.Event) (now' : Z) :
  let s := System.run toString36 sort_random fl events (System.init now g) in
  let h := Telemetry.dataHistory (System.simulator s) in
  Telemetry.h_thermal h = Telemetry.h_power h
  /\ Telemetry.h_communication h = Telemetry.h_power h
  /\ (60 <= length (Telemetry.h_power h) <= 300)%nat
  /\ is_Some (Telemetry.getLatestTelemetry (System.simulator s))
  /\ (Telemetry.isRunning (System.simulator s) = true ->
      exists p,
        Telemetry.getLatestTelemetry
          (System.simulator
             (System.step toString36 sort_random fl s (System.Tick now')))
        = Some p
        /\ Telemetry.Point.timestamp p = now').
Proof.
  intros s h.
  pose proof (run_history_invariant toString36 sort_random fl history_same
                generateTelemetryPoint_history_same events (System.init now g)
                (init_history_same now g)) as Hsame.
  fold s in Hsame. fold h in Hsame.
  destruct Hsame as (Ht & Hc & Hlen & Ha & Hn).
  split; [exact Ht |]. split; [exact Hc |]. split; [exact Hlen |]. split.
  - unfold Telemetry.getLatestTelemetry. fold h.
    destruct (Telemetry.h_power h) as [| p l] using rev_ind; [simpl in Hlen; lia |].
    rewrite last_snoc. eauto.
  - intros Hrun. cbn [System.step]. rewrite tick_simulator, Hrun.
    destruct (generateTelemetryPoint_lists (System.simulator s) now' (System.rng s))
      as (p & sim' & g' & Heq & Hts & Hpow & _).
    + fold h. repeat split; auto; try lia. rewrite Ht; reflexivity. rewrite Hc; reflexivity.
    + rewrite Heq. cbn [fst snd]. exists p. split; [| exact Hts].
      unfold Telemetry.getLatestTelemetry. rewrite Hpow. unfold pushed.
      apply last_snoc.
Qed.

Lemma histories_coincide_witness :
  let s := System.run Scenario.no_text Scenario.keep_order real_arithmetic [System.Start]
             (System.init 0 Scenario.steady) in
  Telemetry.isRunning (System.simulator s) = true
  /\ exists p,
       Telemetry.getLatestTelemetry
         (System.simulator
            (System.step Scenario.no_text Scenario.keep_order real_arithmetic s (System.Tick 1000)))
       = Some p
       /\ Telemetry.Point.timestamp p = 1000%Z.
Proof.
  cbv zeta.
  assert (Hrun : Telemetry.isRunning
                   (System.simulator
                      (System.run Scenario.no_text Scenario.keep_order real_arithmetic [System.Start]
                         (System.init 0 Scenario.steady))) = true).
  { pose proof (constructor_samples 0 Scenario.steady) as (_ & Hstop & _).
    unfold System.init. destruct (Telemetry.constructor 0 Scenario.steady) as [sim g1].
    cbv zeta in Hstop. cbn [fst] in Hstop. simpl. unfold Telemetry.start.
    rewrite Hstop. reflexivity. }
  split; [exact Hrun |].
  exact (proj2 (proj2 (proj2 (proj2
           (histories_coincide Scenario.no_text Scenario.keep_order real_arithmetic 0 Scenario.steady
              [System.Start] 1000)))) Hrun).
Defined.

Lemma Math_trunc_neg_INR (n : nat) : Math_trunc (- INR n) = (- Z.of_nat n)%Z.
Proof.
  unfold Math_trunc, ltb. rewrite INR_IZR_INZ, <- opp_IZR.
  destruct n as [| n].
  - change (- Z.of_nat 0)%Z with 0%Z.
    rewrite bool_decide_eq_false_2 by lra. apply ZfloorZ.
  - rewrite bool_decide_eq_true_2 by (apply IZR_lt; lia).
    apply Zceil_eq. lra.
Qed.

Lemma history_of_other (h : Telemetry.DataHistory) (name : string) :
  name <> "thermal" -> name <> "communication" -> name <> "attitude" ->
  name <> "anomalies" -> Telemetry.inherited name = false ->
  Telemetry.history_of h name = Telemetry.HArray (Telemetry.h_power h).
Proof.
  intros H1 H2 H3 H4 H5. unfold Telemetry.history_of.
  destruct (String.eqb_spec name "power"); [reflexivity |].
  destruct (String.eqb_spec name "thermal"); [contradiction |].
  destruct (String.eqb_spec name "communication"); [contradiction |].
  destruct (String.eqb_spec name "attitude"); [contradiction |].
  destruct (String.eqb_spec name "anomalies"); [contradiction |].
  rewrite H5. reflexivity.
Qed.

Lemma history_of_inherited (h : Telemetry.DataHistory) (name : string) :
  Telemetry.inherited name = true ->
  Telemetry.history_of h name = Telemetry.HInherited.
Proof.
  intros H. unfold Telemetry.inherited in H.
  apply existsb_exists in H as (proto & Hin & Heq).
  apply String.eqb_eq in Heq. subst proto.
  unfold Telemetry.Object_prototype in Hin. cbn [In] in Hin.
  repeat (destruct Hin as [<- | Hin]; [reflexivity |]).
  destruct Hin.
Qed.

(** X5: in every state of the page, [getHistoricalData] answers, for a
    whole number [n] of points asked for, the last [n] samples of the
    power history, all of them when there are fewer, and, when [n] is 0,
    the whole history rather than nothing.  The names "thermal" and
    "communication" and every name that [dataHistory] neither has nor
    inherits give the same answer as "power"; "attitude" and "anomalies"
    give the empty array; a name inherited from [Object.prototype], such
    as "toString" or "__proto__", gives no answer: the call throws. *)
Theorem getHistoricalData_answers (toString36 : R -> string)
  (sort_random : list (list R) -> Rng -> list (list R) * Rng) (fl : Arithmetic)
  (now : Z) (g : Rng) (events : list System.Event)
  (name : string) (minutes : R) (n : nat) (Hn : minutes * 60 = INR n) :
  let sim := System.simulator
               (System.run toString36 sort_random fl events (System.init now g)) in
  let power := Telemetry.h_power (Telemetry.dataHistory sim) in
  Telemetry.getHistoricalData sim "power" minutes
  = Some (if (n =? 0)%nat then power else drop (length power - n) power)
  /\ (name <> "attitude" -> name <> "anomalies" ->
      Telemetry.inherited name = false ->
      Telemetry.getHistoricalData sim name minutes
      = Telemetry.getHistoricalData sim "power" minutes)
  /\ (Telemetry.inherited name = true ->
      Telemetry.getHistoricalData sim name minutes = None)
  /\ Telemetry.getHistoricalData sim "attitude" minutes = Some []
  /\ Telemetry.getHistoricalData sim "anomalies" minutes = Some [].
Proof.
  intros sim power.
  pose proof (run_history_invariant toString36 sort_random fl history_same
                generateTelemetryPoint_history_same events (System.init now g)
                (init_history_same now g)) as (Ht & Hc & _ & Ha & Hna).
  fold sim in Ht, Hc, Ha, Hna.
  unfold Telemetry.getHistoricalData. rewrite Hn, Math_trunc_neg_INR.
  assert (Hslice : forall l : list Telemetry.Point.t,
             js_slice_from (- Z.of_nat n) l
             = if (n =? 0)%nat then l else drop (length l - n) l).
  { intros l. unfold js_slice_from. destruct n as [| n']; [reflexivity |].
    destruct (Z.ltb_spec (- Z.of_nat (S n')) 0) as [_ | H]; [| lia].
    rewrite Z.opp_involutive, Nat2Z.id. reflexivity. }
  cbv zeta.
  change (Telemetry.history_of (Telemetry.dataHistory sim) "power")
    with (Telemetry.HArray (Telemetry.h_power (Telemetry.dataHistory sim))).
  change (Telemetry.history_of (Telemetry.dataHistory sim) "attitude")
    with (Telemetry.HArray (Telemetry.h_attitude (Telemetry.dataHistory sim))).
  change (Telemetry.history_of (Telemetry.dataHistory sim) "anomalies")
    with (Telemetry.HArray (Telemetry.h_anomalies (Telemetry.dataHistory sim))).
  cbv iota. rewrite !Hslice, Ha, Hna. repeat split.
  - intros H1 H2 H5.
    destruct (String.eqb_spec name "thermal") as [-> | H3].
    { change (Telemetry.history_of (Telemetry.dataHistory sim) "thermal")
        with (Telemetry.HArray (Telemetry.h_thermal (Telemetry.dataHistory sim))).
      cbv iota. rewrite Ht, Hslice. reflexivity. }
    destruct (String.eqb_spec name "communication") as [-> | H4].
    { change (Telemetry.history_of (Telemetry.dataHistory sim) "communication")
        with (Telemetry.HArray
                (Telemetry.h_communication (Telemetry.dataHistory sim))).
      cbv iota. rewrite Hc, Hslice. reflexivity. }
    rewrite history_of_other by assumption. cbv iota. rewrite Hslice. reflexivity.
  - intros Hproto. rewrite history_of_inherited by exact Hproto. reflexivity.
  - destruct (n =? 0)%nat; reflexivity.
  - destruct (n =? 0)%nat; reflexivity.
Qed.

Lemma getHistoricalData_answers_witness :
  let sim := System.simulator
               (System.run Scenario.no_text Scenario.keep_order real_arithmetic []
                  (System.init 0 Scenario.steady)) in
  0.5 * 60 = INR 30
  /\ (exists samples,
        Telemetry.getHistoricalData sim "thermal" 0.5 = Some samples
        /\ length samples = 30%nat)
  /\ Telemetry.getHistoricalData sim "toString" 0.5 = None.
Proof.
  cbv zeta.
  assert (H : 0.5 * 60 = INR 30)
    by (rewrite INR_IZR_INZ; change (Z.of_nat 30) with 30%Z; lra).
  split; [exact H |].
  pose proof (getHistoricalData_answers Scenario.no_text Scenario.keep_order real_arithmetic 0
                Scenario.steady [] "thermal" 0.5 30 H) as (Hpower & Hsame & _).
  pose proof (getHistoricalData_answers Scenario.no_text Scenario.keep_order real_arithmetic 0
                Scenario.steady [] "toString" 0.5 30 H) as (_ & _ & Hthrows & _).
  cbv zeta in Hpower, Hsame, Hthrows.
  split; [| apply Hthrows; reflexivity].
  rewrite Hsame by (try discriminate; reflexivity). rewrite Hpower.
  eexists. split; [reflexivity |].
  change (30 =? 0)%nat with false. cbv iota.
  assert (Hlen : length
            (Telemetry.h_power
               (Telemetry.dataHistory
                  (System.simulator
                     (System.run Scenario.no_text Scenario.keep_order real_arithmetic []
                        (System.init 0 Scenario.steady))))) = 60%nat).
  { pose proof (constructor_samples 0 Scenario.steady) as (_ & _ & _ & _ & Hstamps & _).
    cbv zeta in Hstamps. apply (f_equal (@length Z)) in Hstamps.
    rewrite !length_map in Hstamps.
    unfold System.run, System.init. cbn [fold_left].
    destruct (Telemetry.constructor 0 Scenario.steady) as [sim0 g0].
    cbn [fst] in Hstamps. cbn [System.simulator]. rewrite Hstamps. reflexivity. }
  rewrite length_drop, Hlen. reflexivity.
Defined.

(** X6: with draws of [Math.random()] in [0, 1), a power sample
    generated while the battery fault flag is set never has battery
    status normal, one generated while the solar fault flag is set never
    has solar status normal, and one generated in eclipse always has
    solar status critical, fault or not. *)
Theorem fault_never_normal (s : Telemetry.Simulator) (missionTime : R) (g : Rng)
  (Hdraws : unit_draws g) :
  let power := fst (Telemetry.generatePowerTelemetry s missionTime g) in
  (Telemetry.failing s "battery" = true ->
   Telemetry.Battery.status (Telemetry.Power.battery power) <> Telemetry.normal)
  /\ (Telemetry.failing s "solar" = true ->
      Telemetry.Solar.status (Telemetry.Power.solar power) <> Telemetry.normal)
  /\ (Telemetry.Power.eclipse power = true ->
      Telemetry.Solar.status (Telemetry.Power.solar power) = Telemetry.critical).
Proof.
  cbv zeta. rewrite generatePowerTelemetry_eclipse.
  unfold Telemetry.generatePowerTelemetry, orbit_eclipse, Telemetry.noise, random.
  cbn [draws pos].
  pose proof (SIN_bound (missionTime * 0.001)) as Hsin.
  pose proof (Hdraws (pos g)) as H0.
  pose proof (Hdraws (S (S (S (pos g))))) as H3.
  unfold Telemetry.subsystems.battery.voltage_base,
    Telemetry.subsystems.battery.voltage_range,
    Telemetry.subsystems.solar.power_base,
    Telemetry.subsystems.solar.power_efficiency in *.
  destruct (gtb _ 0.6 && ltb _ 0.9);
    destruct (Telemetry.failing s "battery"); destruct (Telemetry.failing s "solar");
    cbn [fst Telemetry.Power.battery Telemetry.Power.solar Telemetry.Battery.status
         Telemetry.Solar.status];
    (split; [| split]); intros Hflag; try discriminate Hflag.
  all: unfold Telemetry.getBatteryStatus, Telemetry.getSolarStatus,
         Telemetry.subsystems.solar.power_base, ltb, gtb.
  all: try (rewrite (bool_decide_eq_true_2 (_ * 0.85 < 22)) by nra;
            rewrite !orb_true_r;
            destruct (_ || _ || _); discriminate).
  all: try (rewrite (bool_decide_eq_true_2 (_ < 2400 * 0.3)) by nra; reflexivity).
  all: try (rewrite (bool_decide_eq_true_2 (_ < 2400 * 0.7)) by nra;
            destruct (_ || _); discriminate).
Qed.

Lemma steady_unit_draws : unit_draws Scenario.steady.
Proof. intros n. simpl. lra. Qed.

Lemma fault_never_normal_witness :
  let s := fst (Telemetry.simulateFailure Scenario.quiet_simulator "battery" 0) in
  unit_draws Scenario.steady
  /\ Telemetry.failing s "battery" = true
  /\ Telemetry.Battery.status
       (Telemetry.Power.battery
          (fst (Telemetry.generatePowerTelemetry s 400 Scenario.steady)))
     <> Telemetry.normal.
Proof.
  cbv zeta.
  assert (Hflag : Telemetry.failing
                    (fst (Telemetry.simulateFailure Scenario.quiet_simulator "battery" 0))
                    "battery" = true).
  { unfold Telemetry.failing, Telemetry.simulateFailure.
    cbn [fst Telemetry.simulatedFailures Telemetry.set_simulatedFailures].
    rewrite assign_plain by discriminate. rewrite lookup_insert_eq. reflexivity. }
  split; [exact steady_unit_draws |]. split; [exact Hflag |].
  exact (proj1 (fault_never_normal _ 400 Scenario.steady steady_unit_draws) Hflag).
Defined.

(** X7: with draws of [Math.random()] in [0, 1) and the battery fault
    flag not set, the battery status of a generated sample is decided by
    the decay of the capacity alone: normal up to a mission time of
    200000 seconds, warning from there up to 400000 seconds, critical
    afterwards. *)
Theorem healthy_battery_status (s : Telemetry.Simulator) (missionTime : R) (g : Rng)
  (Hdraws : unit_draws g) (Hhealthy : Telemetry.failing s "battery" = false) :
  let status :=
    Telemetry.Battery.status
      (Telemetry.Power.battery (fst (Telemetry.generatePowerTelemetry s missionTime g))) in
  (missionTime <= 200000 -> status = Telemetry.normal)
  /\ (200000 < missionTime <= 400000 -> status = Telemetry.warning)
  /\ (400000 < missionTime -> status = Telemetry.critical).
Proof.
  cbv zeta.
  unfold Telemetry.generatePowerTelemetry, Telemetry.noise, random.
  cbn [draws pos]. rewrite Hhealthy.
  pose proof (SIN_bound (missionTime * 0.001)) as Hsin1.
  pose proof (SIN_bound (missionTime * 0.0005)) as Hsin2.
  pose proof (Hdraws (pos g)) as H0.
  pose proof (Hdraws (S (S (pos g)))) as H2.
  unfold Telemetry.subsystems.battery.voltage_base,
    Telemetry.subsystems.battery.voltage_range,
    Telemetry.subsystems.battery.temperature_base,
    Telemetry.subsystems.battery.capacity_base,
    Telemetry.subsystems.battery.capacity_degradation in *.
  assert (Hstatus : forall v t c,
             v >= 22 -> t <= 35 ->
             (c >= 80 -> Telemetry.getBatteryStatus v t c = Telemetry.normal)
             /\ (60 <= c < 80 -> Telemetry.getBatteryStatus v t c = Telemetry.warning)
             /\ (c < 60 -> Telemetry.getBatteryStatus v t c = Telemetry.critical)).
  { intros v t c Hv Ht.
    unfold Telemetry.getBatteryStatus, ltb, gtb,
      Telemetry.subsystems.battery.temperature_threshold.
    repeat split; intros Hc; repeat case_bool_decide; simpl; try reflexivity; lra. }
  set (capacity := Rmax 50 (100 - missionTime * 0.0001)).
  assert (Hcap : (missionTime <= 200000 -> capacity >= 80)
                 /\ (200000 < missionTime <= 400000 -> 60 <= capacity < 80)
                 /\ (400000 < missionTime -> capacity < 60)).
  { unfold capacity, Rmax.
    destruct (Rle_dec 50 (100 - missionTime * 0.0001)); repeat split; intros; lra. }
  destruct (gtb _ 0.6 && ltb _ 0.9); destruct (Telemetry.failing s "solar");
    cbn [fst Telemetry.Power.battery Telemetry.Battery.status];
    match goal with
    | |- context [Telemetry.getBatteryStatus ?v ?t capacity] =>
        destruct (Hstatus v t capacity) as (Hn & Hw & Hc); [lra | lra |]
    end.
  all: split; [| split]; intros Ht;
    [apply Hn | apply Hw | apply Hc]; apply Hcap; exact Ht.
Qed.

Lemma healthy_battery_status_witness :
  unit_draws Scenario.steady
  /\ Telemetry.failing Scenario.quiet_simulator "battery" = false
  /\ Telemetry.Battery.status
       (Telemetry.Power.battery
          (fst (Telemetry.generatePowerTelemetry Scenario.quiet_simulator 400
                  Scenario.steady)))
     = Telemetry.normal.
Proof.
  assert (Hflag : Telemetry.failing Scenario.quiet_simulator "battery" = false).
  { unfold Telemetry.failing. simpl. rewrite lookup_insert_eq. reflexivity. }
  split; [exact steady_unit_draws |]. split; [exact Hflag |].
  apply (healthy_battery_status Scenario.quiet_simulator 400 Scenario.steady
           steady_unit_draws Hflag).
  lra.
Defined.

(** * Further properties of the statistical model *)



(** * Further properties of the alert lists *)

Section SweepPostcondition.

Import AnomalyDetector.

(** The store that the filter of [cleanupOldAnomalies] leaves. *)
Lemma cleanup_filter_store (now : Z) (refs : list nat) (st : list Anomaly)
  (r : nat) (a : Anomaly) :
  st !! r = Some a ->
  snd (cleanup_filter now refs st) !! r
  = Some (if swept now refs r a then acknowledge a now "auto-cleanup" else a).
Proof.
  revert st a. induction refs as [| r0 refs IH]; intros st a Ha; [exact Ha |].
  cbn [cleanup_filter]. unfold swept. cbn [existsb].
  destruct (st !! r0) as [a0 |] eqn:E0.
  - destruct (300000 <? now - timestamp a0)%Z eqn:Hstale.
    + destruct (Nat.eqb_spec r r0) as [-> | Hne].
      * assert (a0 = a) as -> by congruence. rewrite Hstale. cbn [orb andb].
        destruct (acknowledged a) eqn:Hack; cbn [negb].
        -- rewrite (IH st a Ha). unfold swept. rewrite Hack, andb_false_r.
           reflexivity.
        -- rewrite (IH (<[r0 := acknowledge a now "auto-cleanup"]> st)
                      (acknowledge a now "auto-cleanup")).
           ++ unfold swept. cbn [acknowledged acknowledge negb].
              rewrite andb_false_r. reflexivity.
           ++ apply list_lookup_insert_eq. apply lookup_lt_Some in Ha. exact Ha.
      * cbn [orb]. apply IH.
        destruct (negb (acknowledged a0)); [| exact Ha].
        rewrite list_lookup_insert_ne by auto. exact Ha.
    + destruct (cleanup_filter now refs st) as [kept st'] eqn:Hrec.
      cbn [snd]. change st' with (snd (kept, st')). rewrite <- Hrec.
      rewrite (IH st a Ha). unfold swept.
      destruct (Nat.eqb_spec r r0) as [-> | Hne]; [| reflexivity].
      assert (a0 = a) as -> by congruence. rewrite Hstale.
      rewrite !andb_false_r. reflexivity.
  - destruct (Nat.eqb_spec r r0) as [-> | Hne]; [congruence |].
    apply IH, Ha.
Qed.

(** A second run of the filter on what the first one kept keeps it
    all. *)
Lemma cleanup_filter_fresh (now : Z) (refs : list nat) (st : list Anomaly) :
  (forall r, In r refs -> fresh now st r = true) ->
  cleanup_filter now refs st = (refs, st).
Proof.
  induction refs as [| r refs IH]; intros Hfresh; [reflexivity |].
  cbn [cleanup_filter]. pose proof (Hfresh r (or_introl eq_refl)) as Hr.
  unfold fresh in Hr. destruct (st !! r) as [a |]; [| discriminate].
  apply negb_true_iff in Hr. rewrite Hr.
  rewrite IH by (intros r' Hin; apply Hfresh; right; exact Hin). reflexivity.
Qed.

Lemma existsb_eqb_In (r : nat) (refs : list nat) :
  existsb (Nat.eqb r) refs = true <-> In r refs.
Proof.
  rewrite existsb_exists. split.
  - intros (r' & Hin & Heq). apply Nat.eqb_eq in Heq. congruence.
  - intros Hin. exists r. split; [exact Hin | apply Nat.eqb_refl].
Qed.

(** The sweep keeps the invariant of the active array. *)
Lemma cleanupOldAnomalies_active (d : t) (now : Z) :
  active_ok d -> active_ok (cleanupOldAnomalies d now).
Proof.
  intros Hok r. unfold cleanupOldAnomalies.
  pose proof (cleanup_filter_spec now (anomalies d) (store d)) as [_ Hkept].
  pose proof (cleanup_filter_store now (anomalies d) (store d) r) as Hstore.
  destruct (cleanup_filter now (anomalies d) (store d)) as [kept st'].
  cbn [fst snd] in *. cbn [anomalies store set_alerts]. subst kept.
  intros Hin. apply filter_In in Hin. destruct Hin as [Hin Hfresh].
  destruct (Hok r Hin) as (a & Ha & Hack). exists a. split; [| exact Hack].
  rewrite (Hstore a Ha). unfold fresh in Hfresh. rewrite Ha in Hfresh.
  apply negb_true_iff in Hfresh. unfold swept. rewrite Hfresh, andb_false_r.
  reflexivity.
Qed.

End SweepPostcondition.

(** X9: what a sweep of [cleanupOldAnomalies] at clock reading [now]
    leaves.  The active array keeps, in their order, exactly the alerts
    detected at most five minutes before [now]; each dropped alert that
    was unacknowledged is marked, in the one object that the history
    shares, as acknowledged at [now] by auto-cleanup; no other object
    changes and the history array is the same; a second sweep at the same
    clock reading changes nothing. *)
Theorem cleanupOldAnomalies_sweep (d : AnomalyDetector.t) (now : Z) :
  let d' := AnomalyDetector.cleanupOldAnomalies d now in
  AnomalyDetector.anomalies d'
  = List.filter (fresh now (AnomalyDetector.store d)) (AnomalyDetector.anomalies d)
  /\ (forall a, In a (AnomalyDetector.objects (AnomalyDetector.store d')
                        (AnomalyDetector.anomalies d')) ->
                (now - AnomalyDetector.timestamp a <= 300000)%Z)
  /\ (forall r a,
        AnomalyDetector.store d !! r = Some a ->
        let dropped :=
          In r (AnomalyDetector.anomalies d)
          /\ (300000 < now - AnomalyDetector.timestamp a)%Z
          /\ AnomalyDetector.acknowledged a = false in
        (dropped ->
         AnomalyDetector.store d' !! r
         = Some {| AnomalyDetector.detection := AnomalyDetector.detection a;
                   AnomalyDetector.id := AnomalyDetector.id a;
                   AnomalyDetector.timestamp := AnomalyDetector.timestamp a;
                   AnomalyDetector.acknowledged := true;
                   AnomalyDetector.acknowledgedAt := Some now;
                   AnomalyDetector.acknowledgedBy := Some "auto-cleanup" |})
        /\ (~ dropped -> AnomalyDetector.store d' !! r = Some a))
  /\ length (AnomalyDetector.store d') = length (AnomalyDetector.store d)
  /\ AnomalyDetector.anomalyHistory d' = AnomalyDetector.anomalyHistory d
  /\ AnomalyDetector.cleanupOldAnomalies d' now = d'.
Proof.
  cbv zeta.
  pose proof (cleanup_filter_spec now (AnomalyDetector.anomalies d)
                (AnomalyDetector.store d)) as [Hsame Hkept].
  pose proof (cleanup_filter_store now (AnomalyDetector.anomalies d)
                (AnomalyDetector.store d)) as Hstore.
  assert (Hsweep : AnomalyDetector.cleanupOldAnomalies d now
                   = AnomalyDetector.set_alerts
                       (snd (AnomalyDetector.cleanup_filter now
                               (AnomalyDetector.anomalies d) (AnomalyDetector.store d)))
                       (fst (AnomalyDetector.cleanup_filter now
                               (AnomalyDetector.anomalies d) (AnomalyDetector.store d)))
                       (AnomalyDetector.anomalyHistory d) d).
  { unfold AnomalyDetector.cleanupOldAnomalies.
    destruct (AnomalyDetector.cleanup_filter _ _ _). reflexivity. }
  rewrite Hsweep. clear Hsweep.
  destruct (AnomalyDetector.cleanup_filter now (AnomalyDetector.anomalies d)
              (AnomalyDetector.store d)) as [kept st'].
  cbn [fst snd] in *.
  cbn [AnomalyDetector.anomalies AnomalyDetector.store
       AnomalyDetector.anomalyHistory AnomalyDetector.set_alerts].
  assert (Hfresh : forall r, In r kept -> fresh now st' r = true).
  { intros r Hin. rewrite (fresh_same_stamps now _ _ r Hsame).
    rewrite Hkept in Hin. apply filter_In in Hin. tauto. }
  split; [exact Hkept |]. split; [| split; [| split; [| split]]].
  - intros a Hin. apply In_objects in Hin. destruct Hin as (r & Hin & Ha).
    pose proof (Hfresh r Hin) as Hr. unfold fresh in Hr. rewrite Ha in Hr.
    apply negb_true_iff, Z.ltb_ge in Hr. exact Hr.
  - intros r a Ha. cbv zeta. rewrite (Hstore r a Ha). unfold swept. split.
    + intros (Hin & Hstale & Hack).
      rewrite (proj2 (existsb_eqb_In _ _) Hin), (proj2 (Z.ltb_lt _ _) Hstale), Hack.
      reflexivity.
    + intros Hnot.
      destruct (existsb (Nat.eqb r) (AnomalyDetector.anomalies d)) eqn:Hin;
        [| reflexivity].
      destruct (300000 <? now - AnomalyDetector.timestamp a)%Z eqn:Hstale;
        [| reflexivity].
      destruct (AnomalyDetector.acknowledged a) eqn:Hack; [reflexivity |].
      exfalso. apply Hnot.
      split; [apply existsb_eqb_In, Hin |].
      split; [apply Z.ltb_lt, Hstale | reflexivity].
  - exact (proj1 Hsame).
  - reflexivity.
  - unfold AnomalyDetector.cleanupOldAnomalies.
    cbn [AnomalyDetector.anomalies AnomalyDetector.store
         AnomalyDetector.anomalyHistory AnomalyDetector.set_alerts].
    rewrite (cleanup_filter_fresh now kept st' Hfresh). reflexivity.
Qed.

Section ActiveInvariant.

Import AnomalyDetector.

Variable toString36 : R -> string.
Variable sort_random : list (list R) -> Rng -> list (list R) * Rng.
Variable fl : Arithmetic.

Lemma process_loop_active (batch : list Detection) (timestamp now : Z) (d : t)
  (g : Rng) :
  active_ok d -> active_ok (fst (process_loop toString36 batch timestamp now d g)).
Proof.
  revert d g. induction batch as [| found batch IH]; intros d g Hok; [exact Hok |].
  cbn [process_loop].
  destruct (generateAnomalyId toString36 now g) as [id g1].
  apply IH. destruct (negb _); [| exact Hok].
  intros r Hin. cbn [anomalies store set_alerts] in *.
  apply in_app_or in Hin. destruct Hin as [Hin | [<- | []]].
  - destruct (Hok r Hin) as (a & Ha & Hack). exists a. split; [| exact Hack].
    rewrite lookup_app_l by (apply lookup_lt_Some in Ha; exact Ha). exact Ha.
  - eexists. split; [apply list_lookup_middle; reflexivity | reflexivity].
Qed.

Lemma processTelemetry_active (d : t) (sim : Telemetry.Simulator)
  (data : Telemetry.Point.t) (now : Z) (g : Rng) :
  active_ok d ->
  active_ok (fst (processTelemetry toString36 sort_random fl d sim data now g)).
Proof.
  intros Hok. unfold processTelemetry.
  set (found := _ ++ _).
  assert (Hmid : active_ok
                   (fst (if (0 <? length found)%nat
                         then processDetectedAnomalies toString36 d found
                                (Telemetry.Point.timestamp data) now g
                         else (d, g)))).
  { destruct (0 <? length found)%nat; [| exact Hok].
    unfold processDetectedAnomalies.
    pose proof (process_loop_active found (Telemetry.Point.timestamp data) now d g
                  Hok) as H1.
    destruct (process_loop toString36 found _ now d g) as [d1 g1].
    cbn [fst] in *. apply (cleanupOldAnomalies_active d1 now) in H1.
    destruct (_ <? _)%nat; exact H1. }
  destruct (if (0 <? length found)%nat then _ else _) as [d1 g1].
  cbn [fst] in Hmid.
  destruct (updateModels_bound sort_random fl d1 data g1) as (_ & Ha & Hs & _).
  unfold active_ok. rewrite Ha, Hs. exact Hmid.
Qed.

(** The filter of [acknowledgeAnomaly] drops every reference to the
    object that it has marked. *)
Lemma acknowledgeAnomaly_active (d : t) (anomalyId by_ : string) (now : Z) :
  active_ok d -> active_ok (snd (acknowledgeAnomaly d anomalyId by_ now)).
Proof.
  intros Hok. unfold acknowledgeAnomaly.
  destruct (find_by_id _ _ _) as [r0 |] eqn:Hfind; [| exact Hok].
  destruct (find_by_id_Some _ _ _ _ Hfind) as (_ & a0 & Ha0 & Hid0).
  intros r Hin. cbn [snd anomalies store set_alerts] in *.
  unfold other_ids in Hin. apply filter_In in Hin. destruct Hin as [Hin Hother].
  destruct (Nat.eq_dec r r0) as [-> | Hne].
  - rewrite list_lookup_alter_eq, Ha0 in Hother. cbn in Hother.
    rewrite (proj2 (String.eqb_eq _ _) Hid0) in Hother. discriminate.
  - rewrite list_lookup_alter_ne by auto. apply Hok, Hin.
Qed.

Lemma trainingCallback_active (d : t) (g : Rng) :
  active_ok d -> active_ok (fst (trainingCallback sort_random d g)).
Proof.
  intros Hok. unfold trainingCallback.
  destruct (IsolationForest.train sort_random _ g) as [forest g1]. exact Hok.
Qed.

Lemma fold_trainingCallback_active (fired : list Z) (d : t) (g : Rng) :
  active_ok d ->
  active_ok
    (fst (fold_left (fun '(d, g) (_ : Z) => trainingCallback sort_random d g)
            fired (d, g))).
Proof.
  revert d g. induction fired as [| at_ fired IH]; intros d g Hok; [exact Hok |].
  simpl. pose proof (trainingCallback_active d g Hok) as H.
  destruct (trainingCallback sort_random d g) as [d1 g1]. apply IH. exact H.
Qed.

Lemma step_active (s : System.t) (e : System.Event) :
  active_ok (System.detector s) ->
  active_ok (System.detector (System.step toString36 sort_random fl s e)).
Proof.
  intros Hok. destruct e; cbn [System.step]; try exact Hok.
  - unfold System.tick. destruct (negb _); [exact Hok |].
    destruct (Telemetry.generateTelemetryPoint (System.simulator s) now
                (System.rng s)) as [[p sim] g1].
    destruct (Telemetry.getLatestTelemetry sim) as [latest |]; [| exact Hok].
    destruct (detectionEnabled _); [| exact Hok].
    pose proof (processTelemetry_active (System.detector s) sim latest now g1 Hok)
      as Hok'.
    destruct (processTelemetry _ _ _ _ _ _ _) as [d g2]. exact Hok'.
  - unfold System.fire_trainingTimers, System.fire_failureTimers.
    cbn [System.detector System.rng System.trainingTimers System.simulator
         System.failureTimers].
    match goal with
    | |- context [fold_left ?f ?fired (System.detector s, System.rng s)] =>
        pose proof (fold_trainingCallback_active fired (System.detector s)
                      (System.rng s) Hok) as Hok';
        destruct (fold_left f fired (System.detector s, System.rng s)) as [d g]
    end.
    exact Hok'.
  - apply acknowledgeAnomaly_active, Hok.
  - unfold trainMLModels. destruct (isTraining _); exact Hok.
Qed.

Lemma run_active (events : list System.Event) (s : System.t) :
  active_ok (System.detector s) ->
  active_ok (System.detector (System.run toString36 sort_random fl events s)).
Proof.
  revert s. induction events as [| e events IH]; intros s Hok; [exact Hok |].
  simpl. apply IH, step_active, Hok.
Qed.

(** On an array of allocated references to unacknowledged objects the
    filter of [getActiveAnomalies] keeps every entry. *)
Lemma getActiveAnomalies_all (d : t) :
  active_ok d ->
  getActiveAnomalies d = objects (store d) (anomalies d)
  /\ length (objects (store d) (anomalies d)) = length (anomalies d).
Proof.
  unfold active_ok, getActiveAnomalies. generalize (anomalies d) as refs.
  induction refs as [| r refs IH]; intros Hok; [split; reflexivity |].
  destruct (Hok r (or_introl eq_refl)) as (a & Ha & Hack).
  destruct IH as [IH1 IH2]; [intros r' Hin; apply Hok; right; exact Hin |].
  rewrite objects_cons, Ha. cbn [List.filter length]. rewrite Hack. cbn [negb].
  rewrite IH1, IH2. split; reflexivity.
Qed.

End ActiveInvariant.

(** X10: in every state of the page the active array holds only
    unacknowledged alerts: every alert that is acknowledged, by the
    operator or by the sweep, has left the array in the same call.  So
    [getActiveAnomalies] answers the whole array, one alert for each of
    its entries. *)
Theorem active_alerts_unacknowledged (toString36 : R -> string)
  (sort_random : list (list R) -> Rng -> list (list R) * Rng) (fl : Arithmetic)
  (now : Z) (g : Rng) (events : list System.Event) :
  let d :=
    System.detector (System.run toString36 sort_random fl events (System.init now g)) in
  let active := AnomalyDetector.objects (AnomalyDetector.store d)
                  (AnomalyDetector.anomalies d) in
  AnomalyDetector.getActiveAnomalies d = active
  /\ length active = length (AnomalyDetector.anomalies d)
  /\ Forall (fun a => AnomalyDetector.acknowledged a = false) active.
Proof.
  intros d active.
  assert (Hok : active_ok d).
  { apply run_active. unfold System.init.
    destruct (Telemetry.constructor now g) as [sim g1]. intros r []. }
  destruct (getActiveAnomalies_all d Hok) as [Hall Hlen].
  split; [exact Hall |]. split; [exact Hlen |].
  apply List.Forall_forall. intros a Hin. apply In_objects in Hin.
  destruct Hin as (r & Hin & Ha). destruct (Hok r Hin) as (a' & Ha' & Hack).
  congruence.
Qed.

(** X11: an acknowledgement is not repeated.  Whatever the first call
    of [acknowledgeAnomaly] with an id answers, a second call with that
    id answers false and changes nothing, so that the time and the
    author recorded by the first call stay. *)
Theorem acknowledgeAnomaly_twice (d : AnomalyDetector.t) (anomalyId : string)
  (by1 by2 : string) (now1 now2 : Z) :
  let d1 := snd (AnomalyDetector.acknowledgeAnomaly d anomalyId by1 now1) in
  AnomalyDetector.acknowledgeAnomaly d1 anomalyId by2 now2 = (false, d1)
  /\ AnomalyDetector.getActiveAnomalies
       (snd (AnomalyDetector.acknowledgeAnomaly d1 anomalyId by2 now2))
     = AnomalyDetector.getActiveAnomalies d1
  /\ Forall (fun a => AnomalyDetector.id a <> anomalyId)
       (AnomalyDetector.objects (AnomalyDetector.store d1)
          (AnomalyDetector.anomalies d1)).
Proof.
  cbv zeta.
  assert (Hgone : forall r a,
            In r (AnomalyDetector.anomalies
                    (snd (AnomalyDetector.acknowledgeAnomaly d anomalyId by1 now1))) ->
            AnomalyDetector.store
              (snd (AnomalyDetector.acknowledgeAnomaly d anomalyId by1 now1)) !! r
            = Some a ->
            AnomalyDetector.id a <> anomalyId).
  { unfold AnomalyDetector.acknowledgeAnomaly.
    destruct (AnomalyDetector.find_by_id _ _ _) as [r0 |] eqn:Hfind.
    - cbn [snd AnomalyDetector.anomalies AnomalyDetector.store
           AnomalyDetector.set_alerts].
      intros r a Hin Ha. unfold AnomalyDetector.other_ids in Hin.
      apply filter_In in Hin. destruct Hin as [_ Hother].
      rewrite Ha in Hother. apply negb_true_iff in Hother.
      apply String.eqb_neq. exact Hother.
    - apply find_by_id_None. exact Hfind. }
  assert (Hsecond :
            AnomalyDetector.acknowledgeAnomaly
              (snd (AnomalyDetector.acknowledgeAnomaly d anomalyId by1 now1))
              anomalyId by2 now2
            = (false, snd (AnomalyDetector.acknowledgeAnomaly d anomalyId by1 now1))).
  { unfold AnomalyDetector.acknowledgeAnomaly at 1.
    rewrite (proj2 (find_by_id_None _ _ _) Hgone). reflexivity. }
  split; [exact Hsecond |]. split; [rewrite Hsecond; reflexivity |].
  apply List.Forall_forall. intros a Hin. apply In_objects in Hin.
  destruct Hin as (r & Hin & Ha). exact (Hgone r a Hin Ha).
Qed.

(** * The simulator and the limits of the detector *)

Section ReadingProperties.

Import Telemetry.

(** A rounded reading is within half a unit of the last place. *)
Lemma toFixed_near (x : R) (d : nat) :
  x - / 2 / 10 ^ d <= toFixed x d <= x + / 2 / 10 ^ d.
Proof.
  unfold toFixed, ltb.
  assert (Hp : 0 < 10 ^ d) by (apply pow_lt; lra).
  assert (Hinv : 0 < / 10 ^ d) by (apply Rinv_0_lt_compat; exact Hp).
  assert (Hx : x = x * 10 ^ d * / 10 ^ d) by (field; lra).
  assert (Hhalf : / 2 / 10 ^ d = / 2 * / 10 ^ d) by reflexivity.
  case_bool_decide.
  - pose proof (Zfloor_bound (- x * 10 ^ d + / 2)) as [Hlo Hhi].
    set (k := IZR (Zfloor (- x * 10 ^ d + / 2))) in *.
    assert (Hk : - (x * 10 ^ d) - / 2 <= k <= - (x * 10 ^ d) + / 2) by lra.
    rewrite Hhalf. unfold Rdiv. split.
    + apply Rmult_le_reg_r with (10 ^ d); [exact Hp |].
      replace ((x - / 2 * / 10 ^ d) * 10 ^ d) with (x * 10 ^ d - / 2) by (field; lra).
      replace (- (k * / 10 ^ d) * 10 ^ d) with (- k) by (field; lra). lra.
    + apply Rmult_le_reg_r with (10 ^ d); [exact Hp |].
      replace ((x + / 2 * / 10 ^ d) * 10 ^ d) with (x * 10 ^ d + / 2) by (field; lra).
      replace (- (k * / 10 ^ d) * 10 ^ d) with (- k) by (field; lra). lra.
  - pose proof (Zfloor_bound (x * 10 ^ d + / 2)) as [Hlo Hhi].
    set (k := IZR (Zfloor (x * 10 ^ d + / 2))) in *.
    rewrite Hhalf. unfold Rdiv. split.
    + apply Rmult_le_reg_r with (10 ^ d); [exact Hp |].
      replace ((x - / 2 * / 10 ^ d) * 10 ^ d) with (x * 10 ^ d - / 2) by (field; lra).
      replace (k * / 10 ^ d * 10 ^ d) with k by (field; lra). lra.
    + apply Rmult_le_reg_r with (10 ^ d); [exact Hp |].
      replace ((x + / 2 * / 10 ^ d) * 10 ^ d) with (x * 10 ^ d + / 2) by (field; lra).
      replace (k * / 10 ^ d * 10 ^ d) with k by (field; lra). lra.
Qed.

Lemma toFixed_1 (x : R) : x - 0.05 <= toFixed x 1 <= x + 0.05.
Proof. pose proof (toFixed_near x 1) as H. simpl in H. lra. Qed.

Lemma toFixed_2 (x : R) : x - 0.005 <= toFixed x 2 <= x + 0.005.
Proof. pose proof (toFixed_near x 2) as H. simpl in H. lra. Qed.

(** The ranges of the power readings that the limits of the detector
    test. *)
Lemma generatePowerTelemetry_readings (s : Simulator) (missionTime : R) (g : Rng) :
  unit_draws g ->
  let power := fst (generatePowerTelemetry s missionTime g) in
  let voltage := Battery.voltage (Power.battery power) in
  let temperature := Battery.temperature (Power.battery power) in
  draws (snd (generatePowerTelemetry s missionTime g)) = draws g
  /\ (if failing s "battery"
      then 19.8 <= voltage <= 21 /\ 38.9 <= temperature <= 51.1
      else 23.3 <= voltage <= 24.7 /\ 13.9 <= temperature <= 26.1)
  /\ (Power.eclipse power = false ->
      if failing s "solar"
      then 564.4 <= Solar.power (Power.solar power) <= 846.8
      else 1881.5 <= Solar.power (Power.solar power) <= 2822.5).
Proof.
  intros Hdraws. cbv zeta.
  unfold generatePowerTelemetry, noise, random. cbn [draws pos].
  pose proof (SIN_bound (missionTime * 0.001)) as Hsin1.
  pose proof (SIN_bound (missionTime * 0.0005)) as Hsin2.
  pose proof (Hdraws (pos g)) as H0.
  pose proof (Hdraws (S (S (pos g)))) as H2.
  pose proof (Hdraws (S (S (S (pos g))))) as H3.
  unfold subsystems.battery.voltage_base, subsystems.battery.voltage_range,
    subsystems.battery.temperature_base, subsystems.solar.power_base,
    subsystems.solar.power_efficiency in *.
  destruct (gtb _ 0.6 && ltb _ 0.9);
    destruct (failing s "battery"); destruct (failing s "solar");
    cbn [fst snd draws Power.battery Power.solar Power.eclipse Battery.voltage
         Battery.temperature Solar.power];
    (split; [reflexivity |]); (split; [| intros Hsun; try discriminate Hsun]).
  all: repeat match goal with
         | |- context [toFixed ?x 1] =>
             let H := fresh "Hround" in
             pose proof (toFixed_1 x) as H; set (toFixed x 1) in *
         | |- context [toFixed ?x 2] =>
             let H := fresh "Hround" in
             pose proof (toFixed_2 x) as H; set (toFixed x 2) in *
         end.
  all: repeat split; nra.
Qed.

Lemma generateThermalTelemetry_readings (s : Simulator) (missionTime : R) (g : Rng) :
  unit_draws g ->
  let thermal := fst (generateThermalTelemetry s missionTime g) in
  draws (snd (generateThermalTelemetry s missionTime g)) = draws g
  /\ (if failing s "thermal"
      then 49.4 <= Thermal.processor thermal <= 60.6
      else 29.4 <= Thermal.processor thermal <= 40.6)
  /\ Thermal.status thermal <> critical
  /\ (failing s "thermal" = false -> Thermal.status thermal = normal).
Proof.
  intros Hdraws. cbv zeta.
  unfold generateThermalTelemetry, noise, random. cbn [draws pos].
  pose proof (SIN_bound (missionTime * 0.001)) as Hsin1.
  pose proof (SIN_bound (missionTime * 0.0008)) as Hsin2.
  pose proof (SIN_bound (missionTime * 0.0005)) as Hsin3.
  pose proof (Hdraws (pos g)) as H0.
  pose proof (Hdraws (S (pos g))) as H1.
  pose proof (Hdraws (S (S (pos g)))) as H2.
  unfold subsystems.thermal.processor_base, subsystems.thermal.processor_range,
    subsystems.thermal.battery_base, subsystems.thermal.solar_base,
    subsystems.thermal.solar_range in *.
  unfold getThermalStatus, gtb, subsystems.thermal.processor_threshold,
    subsystems.thermal.battery_threshold, subsystems.thermal.solar_threshold.
  destruct (failing s "thermal");
    cbn [fst snd draws Thermal.processor Thermal.status];
    (split; [reflexivity |]); (split; [| split]).
  all: try match goal with
         | |- context [toFixed ?x 1] =>
             pose proof (toFixed_1 x); set (toFixed x 1) in *; lra
         end.
  all: try (intros Hflag; discriminate Hflag).
  all: repeat (rewrite bool_decide_eq_false_2 by lra); cbn [orb];
    try reflexivity; try discriminate.
  destruct (_ || _ || _); discriminate.
Qed.

Lemma generateCommunicationTelemetry_readings (s : Simulator) (missionTime : R)
  (g : Rng) :
  unit_draws g ->
  let comm := fst (generateCommunicationTelemetry s missionTime g) in
  draws (snd (generateCommunicationTelemetry s missionTime g)) = draws g
  /\ (if failing s "communication"
      then -114.1 <= Communication.signalStrength comm <= -95.9
      else -94.1 <= Communication.signalStrength comm <= -75.9)
  /\ (failing s "communication" = false -> Communication.status comm = normal).
Proof.
  intros Hdraws. cbv zeta.
  unfold generateCommunicationTelemetry, noise, random. cbn [draws pos].
  pose proof (SIN_bound (missionTime * 0.0012)) as Hsin1.
  pose proof (SIN_bound (missionTime * 0.002)) as Hsin3.
  pose proof (Hdraws (pos g)) as H0.
  pose proof (Hdraws (S (S (pos g)))) as H2.
  unfold subsystems.communication.signalStrength_base,
    subsystems.communication.signalStrength_range,
    subsystems.communication.errorRate_base,
    subsystems.communication.errorRate_range in *.
  unfold getCommunicationStatus, gtb, ltb,
    subsystems.communication.signalStrength_threshold,
    subsystems.communication.errorRate_threshold.
  destruct (failing s "communication");
    cbn [fst snd draws Communication.signalStrength Communication.status];
    (split; [reflexivity |]); split.
  all: try match goal with
         | |- context [toFixed ?x 1] =>
             pose proof (toFixed_1 x); set (toFixed x 1) in *; lra
         end.
  all: intros Hflag; try discriminate Hflag.
  set (rate := Rmax 0 _).
  assert (Hrate : 0 <= rate <= 0.003).
  { unfold rate, Rmax. destruct (Rle_dec _ _); lra. }
  repeat (rewrite bool_decide_eq_false_2 by lra). reflexivity.
Qed.

Lemma generateAttitudeTelemetry_draws (missionTime : R) (g : Rng) :
  draws (snd (generateAttitudeTelemetry missionTime g)) = draws g.
Proof. reflexivity. Qed.

(** The readings of a generated sample that the limits of the detector
    test, and the two statuses that do not depend on the mission time. *)
Lemma generateTelemetryPoint_readings (s : Simulator) (timestamp : Z) (g : Rng) :
  unit_draws g ->
  let p := fst (fst (generateTelemetryPoint s timestamp g)) in
  let battery := Power.battery (Point.power p) in
  (if failing s "battery"
   then 19.8 <= Battery.voltage battery <= 21
        /\ 38.9 <= Battery.temperature battery <= 51.1
   else 23.3 <= Battery.voltage battery <= 24.7
        /\ 13.9 <= Battery.temperature battery <= 26.1)
  /\ (Power.eclipse (Point.power p) = false ->
      if failing s "solar"
      then 564.4 <= Solar.power (Power.solar (Point.power p)) <= 846.8
      else 1881.5 <= Solar.power (Power.solar (Point.power p)) <= 2822.5)
  /\ (if failing s "thermal"
      then 49.4 <= Thermal.processor (Point.thermal p) <= 60.6
      else 29.4 <= Thermal.processor (Point.thermal p) <= 40.6)
  /\ (if failing s "communication"
      then -114.1 <= Communication.signalStrength (Point.communication p) <= -95.9
      else -94.1 <= Communication.signalStrength (Point.communication p) <= -75.9)
  /\ Thermal.status (Point.thermal p) <> critical
  /\ (failing s "thermal" = false -> Thermal.status (Point.thermal p) = normal)
  /\ (failing s "communication" = false ->
      Communication.status (Point.communication p) = normal).
Proof.
  intros Hdraws. cbv zeta. unfold generateTelemetryPoint.
  set (missionTime := IZR (timestamp - startTime s) / 1000).
  pose proof (generatePowerTelemetry_readings s missionTime g Hdraws)
    as (Hg1 & Hbattery & Hsolar).
  destruct (generatePowerTelemetry s missionTime g) as [power g1].
  cbn [fst snd] in Hg1, Hbattery, Hsolar.
  assert (Hdraws1 : unit_draws g1) by (intros n; rewrite Hg1; apply Hdraws).
  pose proof (generateThermalTelemetry_readings s missionTime g1 Hdraws1)
    as (Hg2 & Hprocessor & Hnever & Hthermal).
  destruct (generateThermalTelemetry s missionTime g1) as [thermal g2].
  cbn [fst snd] in Hg2, Hprocessor, Hnever, Hthermal.
  assert (Hdraws2 : unit_draws g2) by (intros n; rewrite Hg2; apply Hdraws1).
  pose proof (generateCommunicationTelemetry_readings s missionTime g2 Hdraws2)
    as (_ & Hsignal & Hcomm).
  destruct (generateCommunicationTelemetry s missionTime g2) as [comm g3].
  destruct (generateAttitudeTelemetry missionTime g3) as [attitude g4].
  cbn [fst snd Point.power Point.thermal Point.communication] in *.
  repeat split; assumption.
Qed.

End ReadingProperties.

(** Checks each entry of a list of detections against a disjunction of
    descriptions. *)
Ltac each_detection :=
  repeat first
    [ apply List.Forall_nil
    | apply List.Forall_cons;
      [ first [ left; repeat split; reflexivity
              | right; repeat split; reflexivity ] | ] ].

(** X12: the threshold check on the samples of the simulator, with draws
    of [Math.random()] in [0, 1).  Whatever the mission time and the
    fault flags, a generated sample never crosses a limit on the
    processor temperature or the signal strength, nor a critical limit on
    the battery: every threshold detection is a battery warning under a
    battery fault, or a solar power detection under a solar fault
    outside eclipse.  So a sample generated without battery and solar
    fault raises no threshold detection, and one generated under a solar
    fault outside eclipse always raises one on the solar power. *)
Theorem threshold_alerts_follow_faults (s : Telemetry.Simulator) (timestamp : Z)
  (g : Rng) (Hdraws : unit_draws g) :
  let p := fst (fst (Telemetry.generateTelemetryPoint s timestamp g)) in
  let found := AnomalyDetector.detectThresholdAnomalies p in
  Forall
    (fun a =>
       AnomalyDetector.subsystem a = "battery"
       /\ AnomalyDetector.severity a = AnomalyDetector.sev_warning
       /\ Telemetry.failing s "battery" = true
       \/ AnomalyDetector.subsystem a = "solar"
          /\ AnomalyDetector.parameter a = "power"
          /\ Telemetry.failing s "solar" = true
          /\ Telemetry.Power.eclipse (Telemetry.Point.power p) = false)
    found
  /\ (Telemetry.failing s "battery" = false ->
      Telemetry.failing s "solar" = false -> found = [])
  /\ (Telemetry.failing s "solar" = true ->
      Telemetry.Power.eclipse (Telemetry.Point.power p) = false ->
      exists a, In a found
                /\ AnomalyDetector.subsystem a = "solar"
                /\ AnomalyDetector.parameter a = "power").
Proof.
  intros p found.
  pose proof (generateTelemetryPoint_readings s timestamp g Hdraws)
    as (Hbattery & Hsolar & Hprocessor & Hsignal & _).
  fold p in Hbattery, Hsolar, Hprocessor, Hsignal.
  assert (Hp : Telemetry.Thermal.processor (Telemetry.Point.thermal p) <= 60.6)
    by (destruct (Telemetry.failing s "thermal"); lra).
  assert (Hs : -114.1
               <= Telemetry.Communication.signalStrength
                    (Telemetry.Point.communication p))
    by (destruct (Telemetry.failing s "communication"); lra).
  clear Hprocessor Hsignal.
  unfold found, AnomalyDetector.detectThresholdAnomalies, ltb, gtb.
  unfold AnomalyDetector.thresholds.battery.voltage_critical_min,
    AnomalyDetector.thresholds.battery.voltage_critical_max,
    AnomalyDetector.thresholds.battery.voltage_min,
    AnomalyDetector.thresholds.battery.voltage_max,
    AnomalyDetector.thresholds.battery.temperature_critical_max,
    AnomalyDetector.thresholds.battery.temperature_max,
    AnomalyDetector.thresholds.solar.power_critical_min,
    AnomalyDetector.thresholds.solar.power_min,
    AnomalyDetector.thresholds.thermal.processor_critical_max,
    AnomalyDetector.thresholds.communication.signalStrength_critical_min.
  set (voltage := Telemetry.Battery.voltage _) in *.
  set (temperature := Telemetry.Battery.temperature _) in *.
  set (power := Telemetry.Solar.power _) in *.
  set (eclipse := Telemetry.Power.eclipse _) in *.
  rewrite (bool_decide_eq_false_2 (_ > 85)) by lra.
  rewrite (bool_decide_eq_false_2 (_ < -120)) by lra.
  rewrite (bool_decide_eq_false_2 (voltage < 18))
    by (destruct (Telemetry.failing s "battery"); lra).
  rewrite (bool_decide_eq_false_2 (voltage > 30))
    by (destruct (Telemetry.failing s "battery"); lra).
  rewrite (bool_decide_eq_false_2 (voltage > 28))
    by (destruct (Telemetry.failing s "battery"); lra).
  rewrite (bool_decide_eq_false_2 (temperature > 55))
    by (destruct (Telemetry.failing s "battery"); lra).
  cbn [orb]. rewrite !orb_false_r, !app_nil_r.
  destruct (Telemetry.failing s "battery") eqn:Hfb.
  - destruct eclipse eqn:Hecl; cbn [negb andb].
    + split; [| split].
      * repeat case_bool_decide; cbn [app]; each_detection.
      * intros Hflag; discriminate Hflag.
      * intros _ Hsun; discriminate Hsun.
    + specialize (Hsolar eq_refl).
      destruct (Telemetry.failing s "solar") eqn:Hfs.
      * split; [| split].
        -- repeat case_bool_decide; cbn [app]; each_detection.
        -- intros Hflag; discriminate Hflag.
        -- intros _ _. rewrite (bool_decide_eq_true_2 (power < 1200)) by lra.
           destruct (bool_decide (power < 800));
             eexists;
             (split; [apply in_or_app; right; apply in_or_app; right; left;
                      reflexivity |]);
             split; reflexivity.
      * rewrite (bool_decide_eq_false_2 (power < 800)) by lra.
        rewrite (bool_decide_eq_false_2 (power < 1200)) by lra.
        split; [| split].
        -- repeat case_bool_decide; cbn [app]; each_detection.
        -- intros Hflag; discriminate Hflag.
        -- intros Hflag; discriminate Hflag.
  - rewrite (bool_decide_eq_false_2 (voltage < 20)) by lra.
    rewrite (bool_decide_eq_false_2 (temperature > 45)) by lra.
    cbn [app].
    destruct eclipse eqn:Hecl; cbn [negb andb].
    + split; [constructor |]. split; [reflexivity |].
      intros _ Hsun; discriminate Hsun.
    + specialize (Hsolar eq_refl).
      destruct (Telemetry.failing s "solar") eqn:Hfs.
      * rewrite (bool_decide_eq_true_2 (power < 1200)) by lra.
        split; [| split].
        -- destruct (bool_decide (power < 800)); each_detection.
        -- intros _ Hflag; discriminate Hflag.
        -- intros _ _.
           destruct (bool_decide (power < 800));
             eexists; (split; [left; reflexivity |]); split; reflexivity.
      * rewrite (bool_decide_eq_false_2 (power < 800)) by lra.
        rewrite (bool_decide_eq_false_2 (power < 1200)) by lra.
        split; [constructor |]. split; [reflexivity |].
        intros Hflag; discriminate Hflag.
Qed.

Section HealthReadings.

Import Telemetry.

(** The power readings that the health score reads, and the solar
    status in sunlight. *)
Lemma generatePowerTelemetry_health (s : Simulator) (missionTime : R) (g : Rng) :
  unit_draws g ->
  let power := fst (generatePowerTelemetry s missionTime g) in
  49.9 <= Battery.capacity (Power.battery power)
  /\ (missionTime <= 200000 -> 79.9 <= Battery.capacity (Power.battery power))
  /\ 2.8 <= Solar.efficiency (Power.solar power)
  /\ (Power.eclipse power = false -> failing s "solar" = false ->
      78.3 <= Solar.efficiency (Power.solar power)
      /\ Solar.status (Power.solar power) = normal)
  /\ (Power.eclipse power = true -> Solar.status (Power.solar power) = critical).
Proof.
  intros Hdraws. cbv zeta.
  unfold generatePowerTelemetry, noise, random. cbn [draws pos].
  pose proof (SIN_bound (missionTime * 0.0008)) as Hsin.
  pose proof (Hdraws (S (S (S (pos g))))) as H3.
  pose proof (Hdraws (S (S (S (S (pos g)))))) as H4.
  unfold subsystems.battery.capacity_base, subsystems.battery.capacity_degradation,
    subsystems.solar.power_base, subsystems.solar.power_efficiency,
    subsystems.solar.temperature_base in *.
  set (capacity := Rmax 50 (100 - missionTime * 0.0001)).
  assert (Hcap : 50 <= capacity /\ (missionTime <= 200000 -> 80 <= capacity)).
  { unfold capacity, Rmax. destruct (Rle_dec _ _); split; intros; lra. }
  pose proof (toFixed_1 capacity) as Hround.
  destruct (gtb _ 0.6 && ltb _ 0.9);
    destruct (failing s "battery"); destruct (failing s "solar");
    cbn [fst Power.battery Power.solar Power.eclipse Battery.capacity
         Solar.efficiency Solar.status];
    (split; [lra |]); (split; [intros Ht; apply Hcap in Ht; lra |]).
  all: match goal with
       | |- context [toFixed ?x 1] =>
           let H := fresh "Hround" in
           pose proof (toFixed_1 x) as H; set (toFixed x 1) in *
       end.
  all: unfold getSolarStatus, ltb, gtb, subsystems.solar.power_base,
         subsystems.solar.temperature_threshold; cbn [draws pos].
  all: split; [lra |]; split;
    [ intros Hsun Hflag; try discriminate Hsun; try discriminate Hflag
    | intros Hdark; try discriminate Hdark ].
  all: try (split; [lra |];
            repeat (rewrite bool_decide_eq_false_2 by nra); reflexivity).
  all: rewrite (bool_decide_eq_true_2 (_ < 2400 * 0.3)) by nra; reflexivity.
Qed.

Lemma generateTelemetryPoint_health (s : Simulator) (timestamp : Z) (g : Rng) :
  unit_draws g ->
  let p := fst (fst (generateTelemetryPoint s timestamp g)) in
  49.9 <= Battery.capacity (Power.battery (Point.power p))
  /\ (Point.missionTime p <= 200000 ->
      79.9 <= Battery.capacity (Power.battery (Point.power p)))
  /\ 2.8 <= Solar.efficiency (Power.solar (Point.power p))
  /\ (Power.eclipse (Point.power p) = false -> failing s "solar" = false ->
      78.3 <= Solar.efficiency (Power.solar (Point.power p))
      /\ Solar.status (Power.solar (Point.power p)) = normal)
  /\ (Power.eclipse (Point.power p) = true ->
      Solar.status (Power.solar (Point.power p)) = critical).
Proof.
  intros Hdraws. cbv zeta. unfold generateTelemetryPoint.
  set (missionTime := IZR (timestamp - startTime s) / 1000).
  pose proof (generatePowerTelemetry_health s missionTime g Hdraws) as H.
  destruct (generatePowerTelemetry s missionTime g) as [power g1].
  destruct (generateThermalTelemetry s missionTime g1) as [thermal g2].
  destruct (generateCommunicationTelemetry s missionTime g2) as [comm g3].
  destruct (generateAttitudeTelemetry missionTime g3) as [attitude g4].
  exact H.
Qed.

(** The sample that [generateTelemetryPoint] returns is the latest one
    of the simulator that it leaves. *)
Lemma generateTelemetryPoint_latest (s : Simulator) (timestamp : Z) (g : Rng) :
  getLatestTelemetry (snd (fst (generateTelemetryPoint s timestamp g)))
  = Some (fst (fst (generateTelemetryPoint s timestamp g))).
Proof.
  unfold generateTelemetryPoint, getLatestTelemetry.
  destruct (generatePowerTelemetry s _ g) as [power g1].
  destruct (generateThermalTelemetry s _ g1) as [thermal g2].
  destruct (generateCommunicationTelemetry s _ g2) as [comm g3].
  destruct (generateAttitudeTelemetry _ g3) as [attitude g4].
  cbn [fst snd dataHistory].
  destruct (h_power (dataHistory s)) as [| p0 l]; [reflexivity |].
  destruct (300 <? _)%nat; cbn [h_power]; [| apply last_snoc].
  cbn [app shift tail]. apply last_snoc.
Qed.

End HealthReadings.

(** X13: the status badges of the samples of the simulator, with draws
    of [Math.random()] in [0, 1).  The thermal status of a generated
    sample is never critical, whatever the mission time and the fault
    flags, and it is normal when the thermal fault flag is not set; the
    communication status is normal when the communication fault flag is
    not set; the solar status is normal outside eclipse when the solar
    fault flag is not set. *)
Theorem healthy_statuses (s : Telemetry.Simulator) (timestamp : Z) (g : Rng)
  (Hdraws : unit_draws g) :
  let p := fst (fst (Telemetry.generateTelemetryPoint s timestamp g)) in
  Telemetry.Thermal.status (Telemetry.Point.thermal p) <> Telemetry.critical
  /\ (Telemetry.failing s "thermal" = false ->
      Telemetry.Thermal.status (Telemetry.Point.thermal p) = Telemetry.normal)
  /\ (Telemetry.failing s "communication" = false ->
      Telemetry.Communication.status (Telemetry.Point.communication p)
      = Telemetry.normal)
  /\ (Telemetry.failing s "solar" = false ->
      Telemetry.Solar.status (Telemetry.Power.solar (Telemetry.Point.power p))
      = Telemetry.normal
      <-> Telemetry.Power.eclipse (Telemetry.Point.power p) = false).
Proof.
  intros p.
  pose proof (generateTelemetryPoint_readings s timestamp g Hdraws)
    as (_ & _ & _ & _ & Hnever & Hthermal & Hcomm).
  pose proof (generateTelemetryPoint_health s timestamp g Hdraws)
    as (_ & _ & _ & Hsolar & Hdark).
  fold p in Hnever, Hthermal, Hcomm, Hsolar, Hdark.
  split; [exact Hnever |]. split; [exact Hthermal |]. split; [exact Hcomm |].
  intros Hflag. split.
  - intros Hnormal.
    destruct (Telemetry.Power.eclipse (Telemetry.Point.power p)) eqn:Hecl;
      [| reflexivity].
    rewrite (Hdark eq_refl) in Hnormal. discriminate Hnormal.
  - intros Hsun. exact (proj2 (Hsolar Hsun Hflag)).
Qed.

Lemma threshold_alerts_follow_faults_witness :
  unit_draws Scenario.steady
  /\ AnomalyDetector.detectThresholdAnomalies
       (fst (fst (Telemetry.generateTelemetryPoint Scenario.quiet_simulator 401000
                    Scenario.steady)))
     = [].
Proof.
  split; [exact steady_unit_draws |].
  apply (threshold_alerts_follow_faults Scenario.quiet_simulator 401000
           Scenario.steady steady_unit_draws); reflexivity.
Defined.

Lemma healthy_statuses_witness :
  unit_draws Scenario.steady
  /\ Telemetry.Communication.status
       (Telemetry.Point.communication
          (fst (fst (Telemetry.generateTelemetryPoint Scenario.quiet_simulator 401000
                       Scenario.steady))))
     = Telemetry.normal.
Proof.
  split; [exact steady_unit_draws |].
  apply (healthy_statuses Scenario.quiet_simulator 401000 Scenario.steady
           steady_unit_draws).
  reflexivity.
Defined.

(** * The health of the system *)

Section HealthScore.

Import Telemetry.

(** The battery fault flag moves no reading of the health score. *)
Lemma generateTelemetryPoint_battery_flag (s1 s2 : Simulator) (timestamp : Z)
  (g : Rng) :
  startTime s1 = startTime s2 ->
  failing s1 "solar" = failing s2 "solar" ->
  failing s1 "thermal" = failing s2 "thermal" ->
  failing s1 "communication" = failing s2 "communication" ->
  let p1 := fst (fst (generateTelemetryPoint s1 timestamp g)) in
  let p2 := fst (fst (generateTelemetryPoint s2 timestamp g)) in
  Battery.capacity (Power.battery (Point.power p1))
  = Battery.capacity (Power.battery (Point.power p2))
  /\ Power.solar (Point.power p1) = Power.solar (Point.power p2)
  /\ Point.thermal p1 = Point.thermal p2
  /\ Point.communication p1 = Point.communication p2.
Proof.
  intros Hstart Hs Ht Hc. cbv zeta. unfold generateTelemetryPoint. rewrite Hstart.
  set (m := IZR (timestamp - startTime s2) / 1000).
  assert (Hpow : Battery.capacity (Power.battery (fst (generatePowerTelemetry s1 m g)))
                 = Battery.capacity (Power.battery (fst (generatePowerTelemetry s2 m g)))
                 /\ Power.solar (fst (generatePowerTelemetry s1 m g))
                    = Power.solar (fst (generatePowerTelemetry s2 m g))
                 /\ snd (generatePowerTelemetry s1 m g)
                    = snd (generatePowerTelemetry s2 m g)).
  { unfold generatePowerTelemetry, noise, random. rewrite Hs.
    destruct (gtb _ 0.6 && ltb _ 0.9); destruct (failing s1 "battery");
      destruct (failing s2 "battery"); destruct (failing s2 "solar");
      repeat split; reflexivity. }
  assert (Hthe : forall g0, generateThermalTelemetry s1 m g0
                            = generateThermalTelemetry s2 m g0).
  { intros g0. unfold generateThermalTelemetry. rewrite Ht. reflexivity. }
  assert (Hcom : forall g0, generateCommunicationTelemetry s1 m g0
                            = generateCommunicationTelemetry s2 m g0).
  { intros g0. unfold generateCommunicationTelemetry. rewrite Hc. reflexivity. }
  destruct Hpow as (Hcap & Hsol & Hg).
  destruct (generatePowerTelemetry s1 m g) as [power1 g1].
  destruct (generatePowerTelemetry s2 m g) as [power2 g1'].
  cbn [fst snd] in Hcap, Hsol, Hg. subst g1'. rewrite Hthe.
  destruct (generateThermalTelemetry s2 m g1) as [thermal g2]. rewrite Hcom.
  destruct (generateCommunicationTelemetry s2 m g2) as [comm g3].
  destruct (generateAttitudeTelemetry m g3) as [attitude g4].
  cbn [fst Point.power Point.thermal Point.communication].
  repeat split; assumption.
Qed.

(** The health score is at most 1, and at least the sum of what the
    four readings give. *)
Lemma calculateHealthScore_bounds (p : Point.t) (b e : R) :
  0 <= b <= 1 -> 0 <= e <= 1 ->
  b * 100 <= Battery.capacity (Power.battery (Point.power p)) ->
  e * 100 <= Solar.efficiency (Power.solar (Point.power p)) ->
  Thermal.processor (Point.thermal p) <= 60.6 ->
  0.3 * b + 0.25 * e + 0.2425
  + 0.2 * Rmin 1 (Rmax 0 ((Communication.signalStrength (Point.communication p) + 120)
                          / 40))
  <= Main.calculateHealthScore p <= 1.
Proof.
  intros Hb He Hcap Heff Hproc. unfold Main.calculateHealthScore, sum.
  cbn [fold_left].
  set (comm := Rmin 1 (Rmax 0 _)).
  assert (Hcomm : comm <= 1) by apply Rmin_l.
  set (battery := Rmin 1 _).
  assert (Hbattery : b <= battery <= 1).
  { unfold battery, Rmin. destruct (Rle_dec _ _); lra. }
  set (solar := Rmin 1 _).
  assert (Hsolar : e <= solar <= 1).
  { unfold solar, Rmin. destruct (Rle_dec _ _); lra. }
  set (thermal := if ltb _ 60 then 1 else _).
  assert (Hthermal : 0.97 <= thermal <= 1).
  { unfold thermal, ltb, Rmax. case_bool_decide; [lra |].
    destruct (Rle_dec _ _); lra. }
  lra.
Qed.

End HealthScore.

(** X14: the health score of [calculateHealthScore] on the samples of
    the simulator, with draws of [Math.random()] in [0, 1).  Whatever the
    mission time and the fault flags, the score of a generated sample
    lies between 0.42 and 1, so that [updateSystemHealth] never sets the
    health to critical; the battery fault flag does not move the score at
    all; and for a sample generated outside eclipse in the first 200000
    seconds of the mission, with no solar, thermal or communication
    fault, [updateSystemHealth] sets the health to nominal. *)
Theorem health_score_of_samples (s : Telemetry.Simulator) (timestamp : Z) (g : Rng)
  (Hdraws : unit_draws g) :
  let p := fst (fst (Telemetry.generateTelemetryPoint s timestamp g)) in
  let s' := snd (fst (Telemetry.generateTelemetryPoint s timestamp g)) in
  0.42 <= Main.calculateHealthScore p <= 1
  /\ (forall health, Main.updateSystemHealth s' health <> Main.health_critical)
  /\ (forall flag,
        Main.calculateHealthScore
          (fst (fst (Telemetry.generateTelemetryPoint
                       (Telemetry.set_simulatedFailures
                          (<["battery" := flag]> (Telemetry.simulatedFailures s)) s)
                       timestamp g)))
        = Main.calculateHealthScore p)
  /\ (Telemetry.failing s "solar" = false ->
      Telemetry.failing s "thermal" = false ->
      Telemetry.failing s "communication" = false ->
      Telemetry.Power.eclipse (Telemetry.Point.power p) = false ->
      Telemetry.Point.missionTime p <= 200000 ->
      forall health, Main.updateSystemHealth s' health = Main.health_nominal).
Proof.
  intros p s'.
  pose proof (generateTelemetryPoint_readings s timestamp g Hdraws)
    as (_ & _ & Hprocessor & Hsignal & _).
  pose proof (generateTelemetryPoint_health s timestamp g Hdraws)
    as (Hcap & Hcap' & Heff & Hsun & _).
  fold p in Hprocessor, Hsignal, Hcap, Hcap', Heff, Hsun.
  assert (Hlatest : Telemetry.getLatestTelemetry s' = Some p)
    by apply generateTelemetryPoint_latest.
  assert (Hp : Telemetry.Thermal.processor (Telemetry.Point.thermal p) <= 60.6)
    by (destruct (Telemetry.failing s "thermal"); lra).
  assert (Hs : -114.1
               <= Telemetry.Communication.signalStrength
                    (Telemetry.Point.communication p))
    by (destruct (Telemetry.failing s "communication"); lra).
  assert (Hscore : 0.42 <= Main.calculateHealthScore p <= 1).
  { pose proof (calculateHealthScore_bounds p 0.499 0.028) as Hb.
    destruct Hb as [Hlow Hhigh]; try lra.
    split; [| exact Hhigh].
    revert Hlow. set (comm := Rmin 1 (Rmax 0 _)).
    assert (Hcomm : 0.14 <= comm).
    { unfold comm, Rmin, Rmax. repeat destruct (Rle_dec _ _); lra. }
    lra. }
  split; [exact Hscore |]. split; [| split].
  - intros health. unfold Main.updateSystemHealth. rewrite Hlatest. cbv zeta.
    unfold ltb. rewrite (bool_decide_eq_false_2 (_ < 0.3)) by lra.
    case_bool_decide; discriminate.
  - intros flag. unfold Main.calculateHealthScore.
    destruct (generateTelemetryPoint_battery_flag
                (Telemetry.set_simulatedFailures
                   (<["battery" := flag]> (Telemetry.simulatedFailures s)) s)
                s timestamp g) as (Hc1 & Hc2 & Hc3 & Hc4);
      try reflexivity;
      try (unfold Telemetry.failing; cbn [Telemetry.simulatedFailures
                                          Telemetry.set_simulatedFailures];
           rewrite lookup_insert_ne by discriminate; reflexivity).
    cbv zeta in Hc1, Hc2, Hc3, Hc4. fold p in Hc1, Hc2, Hc3, Hc4.
    rewrite Hc1, Hc2, Hc3, Hc4. reflexivity.
  - intros Hfs Hft Hfc Hecl Htime health.
    rewrite Hft in Hprocessor. rewrite Hfc in Hsignal.
    destruct (Hsun Hecl Hfs) as [Heff' _]. specialize (Hcap' Htime).
    unfold Main.updateSystemHealth. rewrite Hlatest. cbv zeta.
    pose proof (calculateHealthScore_bounds p 0.799 0.783) as Hb.
    destruct Hb as [Hlow _]; try lra.
    revert Hlow. set (comm := Rmin 1 (Rmax 0 _)).
    assert (Hcomm : 0.64 <= comm).
    { unfold comm, Rmin, Rmax. repeat destruct (Rle_dec _ _); lra. }
    intros Hlow. unfold ltb.
    rewrite (bool_decide_eq_false_2 (_ < 0.3)) by lra.
    rewrite (bool_decide_eq_false_2 (_ < 0.7)) by lra. reflexivity.
Qed.

Lemma health_score_of_samples_witness :
  unit_draws Scenario.steady
  /\ 0.42
     <= Main.calculateHealthScore
          (fst (fst (Telemetry.generateTelemetryPoint Scenario.quiet_simulator 401000
                       Scenario.steady)))
     <= 1.
Proof.
  split; [exact steady_unit_draws |].
  exact (proj1 (health_score_of_samples Scenario.quiet_simulator 401000
                  Scenario.steady steady_unit_draws)).
Defined.

(** * The reset of the faults *)

Section ClearAll.

Import Telemetry.

(** [clearFailure] over a list of names that the flags object has
    as properties of its own. *)
Lemma fold_clearFailure_flags (names : list string) (sim : Simulator) (k : string) :
  (forall name, name ∈ names -> is_Some (simulatedFailures sim !! name)) ->
  simulatedFailures (fold_left clearFailure names sim) !! k
  = if bool_decide (k ∈ names) then Some false else simulatedFailures sim !! k.
Proof.
  revert sim. induction names as [| name names IH]; intros sim Hown.
  - rewrite bool_decide_eq_false_2 by apply not_elem_of_nil. reflexivity.
  - cbn [fold_left].
    assert (Hname : is_Some (simulatedFailures sim !! name))
      by (apply Hown, elem_of_cons; left; reflexivity).
    assert (Hcleared : simulatedFailures (clearFailure sim name)
                       = <[name := false]> (simulatedFailures sim)).
    { unfold clearFailure. cbn [simulatedFailures set_simulatedFailures].
      apply assign_own, Hname. }
    rewrite IH.
    + rewrite Hcleared.
      destruct (decide (k ∈ names)) as [Hin | Hout].
      * rewrite !bool_decide_eq_true_2; [reflexivity | | exact Hin].
        apply elem_of_cons. right. exact Hin.
      * rewrite (bool_decide_eq_false_2 _ Hout).
        destruct (decide (k = name)) as [-> | Hne].
        -- rewrite lookup_insert_eq, bool_decide_eq_true_2; [reflexivity |].
           apply elem_of_cons. left. reflexivity.
        -- rewrite lookup_insert_ne by auto.
           rewrite bool_decide_eq_false_2; [reflexivity |].
           intros Hin. apply elem_of_cons in Hin. tauto.
    + intros name' Hin. rewrite Hcleared.
      destruct (decide (name' = name)) as [-> | Hne].
      * rewrite lookup_insert_eq. eauto.
      * rewrite lookup_insert_ne by auto.
        apply Hown, elem_of_cons. right. exact Hin.
Qed.

Lemma fold_clearFailure_rest (names : list string) (sim : Simulator) :
  startTime (fold_left clearFailure names sim) = startTime sim
  /\ isRunning (fold_left clearFailure names sim) = isRunning sim
  /\ dataHistory (fold_left clearFailure names sim) = dataHistory sim.
Proof.
  revert sim. induction names as [| name names IH]; intros sim; [auto |].
  cbn [fold_left]. destruct (IH (clearFailure sim name)) as (-> & -> & ->). auto.
Qed.

End ClearAll.

(** X15: [clearAllFailures] clears every fault flag that the simulator
    holds, also the flag of a name that [simulateFailure] has added,
    removes and adds no flag, and leaves the clock, the running state
    and the histories of the simulator as they are; no flag of the
    simulator that it leaves reads as set. *)
Theorem clearAllFailures_clears (sim : Telemetry.Simulator) :
  let sim' := Main.clearAllFailures sim in
  Telemetry.simulatedFailures sim'
  = (fun _ => false) <$> Telemetry.simulatedFailures sim
  /\ (forall k, Telemetry.failing sim' k = false)
  /\ (forall k, is_Some (Telemetry.simulatedFailures sim' !! k)
                <-> is_Some (Telemetry.simulatedFailures sim !! k))
  /\ Telemetry.startTime sim' = Telemetry.startTime sim
  /\ Telemetry.isRunning sim' = Telemetry.isRunning sim
  /\ Telemetry.dataHistory sim' = Telemetry.dataHistory sim.
Proof.
  cbv zeta. unfold Main.clearAllFailures.
  set (names := map fst (map_to_list (Telemetry.simulatedFailures sim))).
  assert (Hnames : forall k, k ∈ names
                             <-> is_Some (Telemetry.simulatedFailures sim !! k)).
  { intros k. unfold names. rewrite list_elem_of_In, in_map_iff. split.
    - intros ([k' v] & <- & Hin). apply list_elem_of_In, elem_of_map_to_list in Hin.
      cbn [fst]. rewrite Hin. eauto.
    - intros [v Hv]. exists (k, v). split; [reflexivity |].
      apply list_elem_of_In, elem_of_map_to_list. exact Hv. }
  assert (Hlookup : forall k,
            Telemetry.simulatedFailures (fold_left Telemetry.clearFailure names sim) !! k
            = (fun _ => false) <$> (Telemetry.simulatedFailures sim !! k)).
  { intros k. rewrite fold_clearFailure_flags by (intros name; apply Hnames).
    destruct (decide (k ∈ names)) as [Hin | Hout].
    - rewrite (bool_decide_eq_true_2 _ Hin). apply Hnames in Hin.
      destruct Hin as [v ->]. reflexivity.
    - rewrite (bool_decide_eq_false_2 _ Hout).
      destruct (Telemetry.simulatedFailures sim !! k) as [v |] eqn:Hv;
        [| reflexivity].
      exfalso. apply Hout, Hnames. rewrite Hv. eauto. }
  split; [| split; [| split]].
  - apply map_eq. intros k. rewrite lookup_fmap. apply Hlookup.
  - intros k. unfold Telemetry.failing. rewrite Hlookup.
    destruct (Telemetry.simulatedFailures sim !! k); reflexivity.
  - intros k. rewrite Hlookup. rewrite fmap_is_Some. reflexivity.
  - apply fold_clearFailure_rest.
Qed.

(** * Further properties of the isolation forest *)

Section TreeProperties.

Import IsolationForest.

Lemma filter_split_length {A} (f h : A -> bool) (l : list A) :
  (forall x, h x = negb (f x)) ->
  (length (List.filter f l) + length (List.filter h l) = length l)%nat.
Proof.
  intros Hneg. induction l as [| x l IH]; [reflexivity |].
  cbn [List.filter]. rewrite Hneg. destruct (f x); cbn [negb length]; lia.
Qed.

Lemma geb_negb_ltb (a b : R) : geb a b = negb (ltb a b).
Proof. unfold geb, ltb. repeat case_bool_decide; simpl; try reflexivity; lra. Qed.

Lemma filter_width (width : nat) (f : list R -> bool) (data : list (list R)) :
  Forall (fun point => length point = width) data ->
  Forall (fun point => length point = width) (List.filter f data).
Proof.
  intros Hall. apply List.Forall_forall. intros point Hin.
  apply filter_In in Hin. destruct Hin as [Hin _].
  exact (proj1 (List.Forall_forall _ _) Hall point Hin).
Qed.

(** The feature that [buildTree] draws is one of the columns. *)
Lemma featureIndex_below (r : R) (width : nat) :
  0 <= r < 1 -> (0 < width)%nat ->
  (Z.to_nat (Math_floor (r * INR width)) < width)%nat.
Proof.
  intros Hr Hw. unfold Math_floor.
  assert (Hpos : 0 < INR width) by (apply lt_0_INR; exact Hw).
  pose proof (Zfloor_bound (r * INR width)) as [Hlo _].
  assert (Hlt : (Zfloor (r * INR width) < Z.of_nat width)%Z).
  { apply lt_IZR. rewrite <- INR_IZR_INZ. nra. }
  assert (Hge : (0 <= Zfloor (r * INR width))%Z).
  { apply Zfloor_lub. simpl. nra. }
  lia.
Qed.

Lemma buildTree_levels_shape (levels : nat) (data : list (list R)) (g : Rng)
  (width : nat) :
  unit_draws g -> (0 < width)%nat ->
  Forall (fun point => length point = width) data ->
  let tree := fst (buildTree_levels levels data g) in
  leaf_sizes tree = length data
  /\ (height tree <= levels)%nat
  /\ splits_below width tree
  /\ draws (snd (buildTree_levels levels data g)) = draws g.
Proof.
  revert data g. induction levels as [| levels IH]; intros data g Hdraws Hw Hall;
    cbv zeta; cbn [buildTree_levels].
  - cbn. repeat split; lia.
  - destruct (length data <=? 1)%nat eqn:Hlen; [cbn; repeat split; lia |].
    unfold random. cbn [draws pos].
    set (featureIndex := Z.to_nat (Math_floor (draws g (pos g) * INR (length (hd [] data))))).
    destruct (eqb _ _); [cbn; repeat split; lia |].
    set (splitValue := _ + _ * _).
    set (leftData := List.filter _ data).
    set (rightData := List.filter _ data).
    set (g1 := {| draws := draws g; pos := S (S (pos g)) |}).
    assert (Hdraws1 : unit_draws g1) by exact Hdraws.
    destruct (IH leftData g1 Hdraws1 Hw (filter_width width _ data Hall))
      as (Hl1 & Hl2 & Hl3 & Hl4).
    destruct (buildTree_levels levels leftData g1) as [l g2].
    cbn [fst snd] in Hl1, Hl2, Hl3, Hl4.
    assert (Hdraws2 : unit_draws g2) by (intros n; rewrite Hl4; apply Hdraws).
    destruct (IH rightData g2 Hdraws2 Hw (filter_width width _ data Hall))
      as (Hr1 & Hr2 & Hr3 & Hr4).
    destruct (buildTree_levels levels rightData g2) as [r g3].
    cbn [fst snd leaf_sizes height splits_below] in *.
    split; [| split; [lia | split]].
    + rewrite Hl1, Hr1. unfold leftData, rightData.
      apply filter_split_length. intros point. apply geb_negb_ltb.
    + split; [| split; assumption].
      unfold featureIndex. destruct data as [| point data']; [discriminate Hlen |].
      cbn [hd]. rewrite (Forall_inv Hall).
      apply featureIndex_below; [apply Hdraws | exact Hw].
    + rewrite Hr4, Hl4. reflexivity.
Qed.

End TreeProperties.

(** X16: the tree that [buildTree] returns for vectors of one and the
    same positive width, with draws of [Math.random()] in [0, 1).  Every
    vector is counted in exactly one leaf, so the [size] properties of
    the leaves add up to the number of vectors; no leaf lies deeper than
    [maxDepth - currentDepth]; and every inner node splits on a feature
    that the vectors have. *)
Theorem buildTree_partitions (data : list (list R)) (currentDepth maxDepth : nat)
  (g : Rng) (width : nat) (Hdraws : unit_draws g) (Hwidth : (0 < width)%nat)
  (Hdata : Forall (fun point => length point = width) data) :
  let tree := fst (IsolationForest.buildTree data currentDepth maxDepth g) in
  leaf_sizes tree = length data
  /\ (height tree <= maxDepth - currentDepth)%nat
  /\ splits_below width tree
  /\ (maxDepth <= currentDepth \/ length data <= 1 ->
      tree = IsolationForest.Leaf (length data))%nat.
Proof.
  cbv zeta. unfold IsolationForest.buildTree.
  destruct (buildTree_levels_shape (maxDepth - currentDepth) data g width
              Hdraws Hwidth Hdata) as (Hsizes & Hheight & Hsplits & _).
  split; [exact Hsizes |]. split; [exact Hheight |]. split; [exact Hsplits |].
  intros [Hdeep | Hsmall].
  - replace (maxDepth - currentDepth)%nat with 0%nat by lia. reflexivity.
  - destruct (maxDepth - currentDepth)%nat; [reflexivity |].
    cbn [IsolationForest.buildTree_levels].
    rewrite (proj2 (Nat.leb_le _ _) Hsmall). reflexivity.
Qed.

Lemma buildTree_partitions_witness :
  let data := [[1; 5]; [2; 5]; [3; 5]] in
  unit_draws Scenario.steady
  /\ (0 < 2)%nat
  /\ Forall (fun point => length point = 2%nat) data
  /\ leaf_sizes (fst (IsolationForest.buildTree data 0 6 Scenario.steady)) = 3%nat.
Proof.
  cbv zeta.
  assert (Hdata : Forall (fun point : list R => length point = 2%nat)
                    [[1; 5]; [2; 5]; [3; 5]])
    by (repeat constructor).
  split; [exact steady_unit_draws |]. split; [lia |]. split; [exact Hdata |].
  exact (proj1 (buildTree_partitions [[1; 5]; [2; 5]; [3; 5]] 0 6 Scenario.steady 2
                  steady_unit_draws ltac:(lia) Hdata)).
Defined.

(** A push followed by the eviction of the oldest entry of an array
    that has grown beyond [cap] keeps the last [cap] entries. *)
Lemma push_window {A} (cap : nat) (xs : list A) (x : A) :
  (0 < cap)%nat ->
  (if (cap <? length (drop (length xs - cap) xs ++ [x]))%nat
   then shift (drop (length xs - cap) xs ++ [x])
   else drop (length xs - cap) xs ++ [x])
  = drop (length (xs ++ [x]) - cap) (xs ++ [x]).
Proof.
  intros Hcap. rewrite !length_app, length_drop. cbn [length].
  destruct (Nat.ltb_spec cap (length xs - (length xs - cap) + 1)) as [Hfull | Hroom].
  - replace (length xs + 1 - cap)%nat with (S (length xs - cap)) by lia.
    rewrite drop_app_le by lia.
    destruct (lookup_lt_is_Some_2 xs (length xs - cap)) as [y Hy]; [lia |].
    rewrite (drop_S _ _ _ Hy). reflexivity.
  - replace (length xs - cap)%nat with 0%nat by lia.
    replace (length xs + 1 - cap)%nat with 0%nat by lia.
    rewrite !drop_0. reflexivity.
Qed.

Section ForestTraining.

Import IsolationForest.

Variable sort_random : list (list R) -> Rng -> list (list R) * Rng.

Lemma train_loop_length (n : nat) (f : t) (built : list Tree) (g : Rng) :
  length (fst (train_loop sort_random n f built g)) = (length built + n)%nat.
Proof.
  revert built g. induction n as [| n IH]; intros built g; cbn [train_loop].
  - cbn. lia.
  - destruct (createSubsample sort_random f g) as [subsample g1].
    destruct (buildTree subsample 0 _ g1) as [tree g2].
    rewrite IH, length_app. cbn. lia.
Qed.

(** [train] on a pool of at least twenty vectors. *)
Lemma train_trains (f : t) (g : Rng) :
  (20 <= length (trainingData f))%nat ->
  let f' := fst (train sort_random f g) in
  trained f' = true
  /\ length (trees f') = numTrees f
  /\ trainingData f' = trainingData f
  /\ numTrees f' = numTrees f
  /\ subsampleSize f' = subsampleSize f.
Proof.
  intros Hlen. cbv zeta. unfold train.
  rewrite (proj2 (Nat.ltb_ge _ _) Hlen).
  pose proof (train_loop_length (numTrees f) f [] g) as Hloop.
  destruct (train_loop sort_random (numTrees f) f [] g) as [built g1].
  cbn in *. auto.
Qed.

Lemma fed_snoc (vectors : list (list R)) (features : list R) (f : t) (g : Rng) :
  fed sort_random (vectors ++ [features]) f g
  = addTrainingData sort_random (fst (fed sort_random vectors f g)) features
      (snd (fed sort_random vectors f g)).
Proof.
  unfold fed. rewrite fold_left_app. cbn [fold_left].
  destruct (fold_left _ vectors (f, g)). reflexivity.
Qed.

End ForestTraining.

(** X17: the forest trains itself.  After [addTrainingData] on each of
    a sequence of vectors, a new forest holds the last 500 of them; it is
    untrained and without trees as long as fewer than 100 vectors were
    added, and trained with exactly [numTrees] trees from the 100th
    vector on.  On a full pool of 500 vectors every further vector makes
    [train] rebuild all trees. *)
Theorem forest_trains_itself
  (sort_random : list (list R) -> Rng -> list (list R) * Rng)
  (numTrees subsampleSize : nat) (vectors : list (list R)) (g : Rng) :
  let f :=
    fst (fed sort_random vectors
           (IsolationForest.constructor numTrees subsampleSize) g) in
  IsolationForest.trainingData f = js_slice_from (-500) vectors
  /\ IsolationForest.trained f = (100 <=? length vectors)%nat
  /\ length (IsolationForest.trees f)
     = (if (100 <=? length vectors)%nat then numTrees else 0%nat)
  /\ IsolationForest.numTrees f = numTrees
  /\ IsolationForest.subsampleSize f = subsampleSize
  /\ ((500 <= length vectors)%nat ->
      forall features g',
        IsolationForest.addTrainingData sort_random f features g'
        = IsolationForest.train sort_random
            {| IsolationForest.numTrees := numTrees;
               IsolationForest.subsampleSize := subsampleSize;
               IsolationForest.trees := IsolationForest.trees f;
               IsolationForest.trainingData :=
                 js_slice_from (-500) (vectors ++ [features]);
               IsolationForest.trained := true |} g').
Proof.
  cbv zeta.
  assert (Hslice : forall l : list (list R),
            js_slice_from (-500) l = drop (length l - 500) l) by reflexivity.
  assert (Hinv : IsolationForest.trainingData
                   (fst (fed sort_random vectors
                           (IsolationForest.constructor numTrees subsampleSize) g))
                 = drop (length vectors - 500) vectors
                 /\ IsolationForest.trained
                      (fst (fed sort_random vectors
                              (IsolationForest.constructor numTrees subsampleSize) g))
                    = (100 <=? length vectors)%nat
                 /\ length (IsolationForest.trees
                              (fst (fed sort_random vectors
                                      (IsolationForest.constructor numTrees
                                         subsampleSize) g)))
                    = (if (100 <=? length vectors)%nat then numTrees else 0%nat)
                 /\ IsolationForest.numTrees
                      (fst (fed sort_random vectors
                              (IsolationForest.constructor numTrees subsampleSize) g))
                    = numTrees
                 /\ IsolationForest.subsampleSize
                      (fst (fed sort_random vectors
                              (IsolationForest.constructor numTrees subsampleSize) g))
                    = subsampleSize).
  { induction vectors as [| features vectors IH] using rev_ind.
    - cbn. auto.
    - rewrite fed_snoc.
      destruct (fed sort_random vectors _ g) as [f g1]. cbn [fst snd] in *.
      destruct IH as (Hdata & Htrained & Htrees & Hn & Hs).
      unfold IsolationForest.addTrainingData. rewrite Hdata.
      rewrite (push_window 500 vectors features) by lia.
      set (pool := drop _ (vectors ++ [features])).
      assert (Hpool : length pool = Nat.min (length vectors + 1) 500).
      { unfold pool. rewrite length_drop, length_app. cbn [length]. lia. }
      rewrite length_app. cbn [length].
      destruct ((length pool mod 50 =? 0)%nat && (100 <=? length pool)%nat) eqn:Hretrain.
      + apply andb_true_iff in Hretrain. destruct Hretrain as [_ Hbig].
        apply Nat.leb_le in Hbig.
        match goal with
        | |- context [IsolationForest.train sort_random ?f0 g1] =>
            destruct (train_trains sort_random f0 g1) as (H1 & H2 & H3 & H4 & H5);
              [cbn; lia |]
        end.
        cbv zeta in *. cbn [IsolationForest.trainingData IsolationForest.numTrees
                            IsolationForest.subsampleSize] in *.
        rewrite H1, H2, H3, H4, H5.
        rewrite (proj2 (Nat.leb_le 100 (length vectors + 1))) by lia.
        auto.
      + cbn [fst IsolationForest.trainingData IsolationForest.trained
             IsolationForest.trees IsolationForest.numTrees
             IsolationForest.subsampleSize].
        rewrite Htrained, Htrees.
        assert (Hsame : (100 <=? length vectors + 1)%nat = (100 <=? length vectors)%nat).
        { apply andb_false_iff in Hretrain.
          destruct (Nat.leb_spec 100 (length vectors)) as [Hge | Hlt].
          - apply Nat.leb_le. lia.
          - apply Nat.leb_gt.
            destruct (decide (length vectors = 99%nat)) as [H99 | Hne]; [| lia].
            exfalso. rewrite Hpool, H99 in Hretrain. cbn in Hretrain.
            destruct Hretrain; discriminate. }
        rewrite Hsame. auto. }
  destruct Hinv as (Hdata & Htrained & Htrees & Hn & Hs).
  rewrite Hslice.
  split; [exact Hdata |]. split; [exact Htrained |]. split; [exact Htrees |].
  split; [exact Hn |]. split; [exact Hs |].
  intros Hfull features g'. unfold IsolationForest.addTrainingData.
  rewrite Hdata, (push_window 500 vectors features) by lia.
  rewrite Hslice, Hn, Hs, Htrained.
  rewrite (proj2 (Nat.leb_le 100 (length vectors))) by lia.
  assert (Hpool : length (drop (length (vectors ++ [features]) - 500)
                            (vectors ++ [features])) = 500%nat).
  { rewrite length_drop, length_app. cbn [length]. lia. }
  rewrite Hpool. reflexivity.
Qed.

Section PredictProperties.

Import IsolationForest.

(** The path length is a number unless the descent ends at an inner
    node that splits on feature 0. *)
Lemma getPathLength_NaN (features : list R) (tree : Tree) (currentDepth : nat) :
  if ends_at_feature0 features tree
  then getPathLength features tree currentDepth = NaN
  else exists y, getPathLength features tree currentDepth = Fin y.
Proof.
  revert currentDepth.
  induction tree as [size | featureIndex splitValue l IHl r IHr]; intros currentDepth.
  - cbn [ends_at_feature0 getPathLength c]. destruct (size <=? 1)%nat; cbn; eauto.
  - destruct featureIndex as [| i]; [reflexivity |].
    cbn [ends_at_feature0 getPathLength].
    destruct (feature_below features (S i) splitValue); [apply IHl | apply IHr].
Qed.

Lemma fold_num_add_Fin (l : list num) (a : R) :
  Forall (fun x => exists y, x = Fin y) l ->
  exists y, fold_left num_add l (Fin a) = Fin y.
Proof.
  intros Hall. revert a. induction Hall as [| x l [y ->] _ IH]; intros a.
  - exists a. reflexivity.
  - cbn [fold_left num_add]. apply IH.
Qed.

Lemma Math_log2_pos (n : nat) : (2 <= n)%nat -> 0 < Math_log2 (INR n).
Proof.
  intros Hn. unfold Math_log2.
  assert (H2 : 0 < ln 2) by (rewrite <- ln_1; apply ln_increasing; lra).
  assert (Hx : 0 < ln (INR n)).
  { rewrite <- ln_1. apply ln_increasing; [lra |].
    apply lt_1_INR. lia. }
  apply Rdiv_lt_0_compat; assumption.
Qed.

End PredictProperties.

(** X18: when [predict] answers a number and when it answers [NaN],
    for a forest with a subsample size of at least 2, where the expected
    path length that the score is divided by is positive.  The answer is
    [NaN] exactly when the forest is trained and, in one of its trees,
    the descent for the given features ends at an inner node that splits
    on feature 0; in every other case it is a number between 0 and 1. *)
Theorem predict_number_or_NaN (f : IsolationForest.t) (features : list R)
  (Hsize : (2 <= IsolationForest.subsampleSize f)%nat) :
  0 < Math_log2 (INR (IsolationForest.subsampleSize f))
  /\ (IsolationForest.predict f features = NaN
      <-> IsolationForest.trained f = true
          /\ Exists (fun tree => ends_at_feature0 features tree = true)
               (IsolationForest.trees f))
  /\ (IsolationForest.predict f features <> NaN ->
      exists y, IsolationForest.predict f features = Fin y /\ 0 <= y <= 1).
Proof.
  split; [apply Math_log2_pos, Hsize |]. split.
  - unfold IsolationForest.predict.
    destruct (IsolationForest.trained f) eqn:Htrained; cbn [negb orb].
    + destruct (IsolationForest.trees f) as [| tree0 trees'] eqn:Htrees.
      * cbn. split; [discriminate |]. intros [_ Hex]. inversion Hex.
      * rewrite <- Htrees. clear Htrees tree0 trees'.
        destruct (length (IsolationForest.trees f) =? 0)%nat eqn:Hlen.
        { apply Nat.eqb_eq in Hlen. destruct (IsolationForest.trees f); [| discriminate].
          split; [discriminate |]. intros [_ Hex]. inversion Hex. }
        set (pathLengths := map _ (IsolationForest.trees f)).
        destruct (decide (Exists (fun tree => ends_at_feature0 features tree = true)
                            (IsolationForest.trees f))) as [Hex | Hnone].
        -- split; [intros _; split; [reflexivity | exact Hex] |]. intros _.
           rewrite fold_num_add_NaN; [reflexivity |].
           apply List.Exists_exists in Hex. destruct Hex as (tree & Hin & Hends).
           apply in_map_iff. exists tree. split; [| exact Hin].
           pose proof (getPathLength_NaN features tree 0) as Hpath.
           rewrite Hends in Hpath. exact Hpath.
        -- split; [| intros [_ Hex]; contradiction].
           destruct (fold_num_add_Fin pathLengths 0) as [total ->].
           ++ apply List.Forall_forall. intros x Hin. apply in_map_iff in Hin.
              destruct Hin as (tree & <- & Hin).
              pose proof (getPathLength_NaN features tree 0) as Hpath.
              destruct (ends_at_feature0 features tree) eqn:Hends; [| exact Hpath].
              exfalso. apply Hnone. apply List.Exists_exists. eauto.
           ++ discriminate.
    + split; [discriminate | intros [Hfalse _]; discriminate Hfalse].
  - intros Hnumber.
    destruct (IsolationForest.predict f features) as [| y] eqn:Hpredict;
      [contradiction |].
    exists y. split; [reflexivity |]. eapply predict_clamped. exact Hpredict.
Qed.

Lemma predict_number_or_NaN_witness :
  (2 <= IsolationForest.subsampleSize (IsolationForest.constructor 10 50))%nat
  /\ 0 < Math_log2 (INR (IsolationForest.subsampleSize
                           (IsolationForest.constructor 10 50))).
Proof.
  assert (Hsize : (2 <= IsolationForest.subsampleSize
                          (IsolationForest.constructor 10 50))%nat)
    by (cbn; lia).
  split; [exact Hsize |].
  exact (proj1 (predict_number_or_NaN (IsolationForest.constructor 10 50) [] Hsize)).
Defined.

(** * The time-series detector *)

Section SequenceProperties.

Import LSTMTimeSeriesDetector.

Lemma fold_deviation_zero (deviation : nat -> R) (l : list nat) :
  (forall i, In i l -> deviation i = 0) ->
  fold_left (fun total i => total + deviation i) l 0 = 0.
Proof.
  induction l as [| i l IH]; intros Hzero; [reflexivity |].
  cbn [fold_left]. rewrite (Hzero i (or_introl eq_refl)), Rplus_0_r.
  apply IH. intros j Hin. apply Hzero. right. exact Hin.
Qed.

Lemma detectAnomaly_range (d : t) (telemetryData : Telemetry.Point.t) :
  0 <= detectAnomaly d telemetryData <= 1.
Proof.
  unfold detectAnomaly. destruct (_ || _); [lra |].
  cbv zeta. unfold Rmin, Rmax. repeat destruct (Rle_dec _ _); lra.
Qed.

(** The window that the baseline was fitted on deviates from it by
    nothing. *)
Lemma detectAnomaly_after_fit (sequenceLength : nat) (vectors : list (list R))
  (telemetryData : Telemetry.Point.t) :
  (1 <= sequenceLength)%nat -> length vectors = sequenceLength ->
  trained (train (unfitted sequenceLength vectors)) = true
  /\ detectAnomaly (train (unfitted sequenceLength vectors)) telemetryData = 0.
Proof.
  intros Hpos Hlen. unfold train, unfitted.
  cbn [sequences LSTMTimeSeriesDetector.sequenceLength].
  rewrite (proj2 (Nat.ltb_ge _ _)) by lia.
  split; [reflexivity |].
  unfold detectAnomaly.
  cbn [trained sequences LSTMTimeSeriesDetector.sequenceLength baseline negb orb].
  rewrite (proj2 (Nat.ltb_ge _ _)) by lia.
  assert (Hrecent : js_slice_from (- Z.of_nat sequenceLength) vectors = vectors).
  { unfold js_slice_from. rewrite (proj2 (Z.ltb_lt _ _)) by lia.
    rewrite Z.opp_involutive, Nat2Z.id, Hlen, Nat.sub_diag. apply drop_0. }
  cbv zeta. rewrite Hrecent. unfold default. cbn [from_option Datatypes.id means variances].
  set (mean_of := fun i => sum (column vectors i) / INR (length vectors)).
  rewrite fold_deviation_zero.
  - unfold Rdiv. rewrite Rmult_0_l, Rminus_0_l.
    unfold Rmin, Rmax. repeat destruct (Rle_dec _ _); lra.
  - intros i Hin. apply in_seq in Hin.
    unfold column at 1 2. rewrite length_map.
    rewrite (nth_indep (map mean_of (seq 0 (length (hd [] vectors)))) 0
               (mean_of 0%nat))
      by (rewrite length_map, length_seq; lia).
    rewrite map_nth, seq_nth by lia. cbn [Nat.add]. unfold mean_of, column.
    unfold Rminus. rewrite Rplus_opp_r, Rabs_R0. unfold Rdiv. apply Rmult_0_l.
Qed.

Lemma addSequencePoint_snoc (points : list Telemetry.Point.t)
  (telemetryData : Telemetry.Point.t) (d : t) :
  fold_left addSequencePoint (points ++ [telemetryData]) d
  = addSequencePoint (fold_left addSequencePoint points d) telemetryData.
Proof. rewrite fold_left_app. reflexivity. Qed.

(** The detector after [addSequencePoint] on each sample of a list. *)
Lemma fold_addSequencePoint (sequenceLength : nat) (points : list Telemetry.Point.t) :
  (1 <= sequenceLength <= 200)%nat ->
  let d := fold_left addSequencePoint points (constructor sequenceLength) in
  let vectors := map sequence_features points in
  d = if (sequenceLength <=? length points)%nat
      then {| LSTMTimeSeriesDetector.sequenceLength := sequenceLength;
              sequences := drop (length vectors - 200) vectors;
              trained := true;
              baseline :=
                baseline (train (unfitted sequenceLength
                                   (take sequenceLength vectors))) |}
      else unfitted sequenceLength vectors.
Proof.
  intros Hsl. cbv zeta.
  induction points as [| telemetryData points IH] using rev_ind.
  - cbn [length]. rewrite (proj2 (Nat.leb_gt _ _)) by lia. reflexivity.
  - rewrite addSequencePoint_snoc, IH. clear IH.
    rewrite map_app, !length_app, !length_map. cbn [map length].
    set (vectors := map sequence_features points).
    assert (Hlen : length vectors = length points) by apply length_map.
    unfold addSequencePoint. fold (sequence_features telemetryData).
    destruct (Nat.leb_spec sequenceLength (length points)) as [Hfit | Hshort].
    + cbn [sequences trained baseline LSTMTimeSeriesDetector.sequenceLength negb].
      rewrite andb_false_r. rewrite <- Hlen.
      rewrite (push_window 200 vectors (sequence_features telemetryData)) by lia.
      rewrite length_app. cbn [length].
      rewrite (proj2 (Nat.leb_le sequenceLength (length vectors + 1))) by lia.
      rewrite take_app_le by lia. reflexivity.
    + cbn [unfitted sequences trained baseline
           LSTMTimeSeriesDetector.sequenceLength negb].
      rewrite andb_true_r.
      assert (Hroom : (200 <? length (vectors ++ [sequence_features telemetryData]))%nat
                      = false).
      { apply Nat.ltb_ge. rewrite length_app. cbn [length]. lia. }
      rewrite Hroom, length_app. cbn [length]. rewrite Hlen.
      destruct (Nat.leb_spec sequenceLength (length points + 1)) as [Hnow | Hstill];
        [| reflexivity].
      assert (Hall : (length (vectors ++ [sequence_features telemetryData])
                      = sequenceLength)%nat)
        by (rewrite length_app; cbn [length]; lia).
      rewrite take_ge by lia.
      replace (length points + 1 - 200)%nat with 0%nat by lia. rewrite drop_0.
      unfold train, unfitted.
      cbn [sequences LSTMTimeSeriesDetector.sequenceLength baseline].
      rewrite !(proj2 (Nat.ltb_ge _ _)) by lia. reflexivity.
Qed.

End SequenceProperties.

(** X19: the time-series detector fits itself once.  After
    [addSequencePoint] on each of a list of samples, a new detector with
    a sequence length between 1 and 200 holds the vectors of the last 200
    samples; it is trained exactly when at least [sequenceLength] samples
    were added, and its baseline is then the one fitted on the first
    [sequenceLength] vectors, whatever was added later.  Its score lies
    in [0, 1] and is 0 as long as no more than [sequenceLength] samples
    were added: before the fit, and right after it, where the recent
    window is the one the baseline was fitted on. *)
Theorem detector_fits_itself (sequenceLength : nat)
  (points : list Telemetry.Point.t) (telemetryData : Telemetry.Point.t)
  (Hlength : (1 <= sequenceLength <= 200)%nat) :
  let d :=
    fold_left LSTMTimeSeriesDetector.addSequencePoint points
      (LSTMTimeSeriesDetector.constructor sequenceLength) in
  let vectors := map sequence_features points in
  LSTMTimeSeriesDetector.sequences d = js_slice_from (-200) vectors
  /\ LSTMTimeSeriesDetector.trained d = (sequenceLength <=? length points)%nat
  /\ LSTMTimeSeriesDetector.baseline d
     = (if (sequenceLength <=? length points)%nat
        then LSTMTimeSeriesDetector.baseline
               (LSTMTimeSeriesDetector.train
                  (unfitted sequenceLength (take sequenceLength vectors)))
        else None)
  /\ 0 <= LSTMTimeSeriesDetector.detectAnomaly d telemetryData <= 1
  /\ ((length points <= sequenceLength)%nat ->
      LSTMTimeSeriesDetector.detectAnomaly d telemetryData = 0).
Proof.
  intros d vectors.
  pose proof (fold_addSequencePoint sequenceLength points Hlength) as Hd.
  cbv zeta in Hd. fold d in Hd. fold vectors in Hd.
  assert (Hlen : length vectors = length points) by apply length_map.
  assert (Hslice : js_slice_from (-200) vectors = drop (length vectors - 200) vectors)
    by reflexivity.
  split; [| split; [| split; [| split]]].
  - rewrite Hd, Hslice.
    destruct (Nat.leb_spec sequenceLength (length points)) as [Hfit | Hshort];
      [reflexivity |].
    cbn [LSTMTimeSeriesDetector.sequences unfitted].
    replace (length vectors - 200)%nat with 0%nat by lia.
    rewrite drop_0. reflexivity.
  - rewrite Hd. destruct (_ <=? _)%nat; reflexivity.
  - rewrite Hd. destruct (_ <=? _)%nat; reflexivity.
  - apply detectAnomaly_range.
  - intros Hfew. rewrite Hd.
    destruct (Nat.leb_spec sequenceLength (length points)) as [Hfit | Hshort];
      [| reflexivity].
    assert (Hexact : length vectors = sequenceLength) by lia.
    destruct (detectAnomaly_after_fit sequenceLength vectors telemetryData)
      as [_ Hzero]; [lia | exact Hexact |].
    rewrite take_ge by lia.
    replace (length vectors - 200)%nat with 0%nat by lia. rewrite drop_0.
    rewrite <- Hzero. f_equal.
    unfold LSTMTimeSeriesDetector.train, unfitted.
    cbn [LSTMTimeSeriesDetector.sequences LSTMTimeSeriesDetector.sequenceLength
         LSTMTimeSeriesDetector.baseline].
    rewrite (proj2 (Nat.ltb_ge _ _)) by lia. reflexivity.
Qed.

Lemma detector_fits_itself_witness :
  (1 <= 30 <= 200)%nat
  /\ LSTMTimeSeriesDetector.detectAnomaly
       (fold_left LSTMTimeSeriesDetector.addSequencePoint [Scenario.quiet 0]
          (LSTMTimeSeriesDetector.constructor 30))
       (Scenario.quiet 0)
     = 0.
Proof.
  assert (Hlength : (1 <= 30 <= 200)%nat) by lia.
  split; [exact Hlength |].
  apply (detector_fits_itself 30 [Scenario.quiet 0] (Scenario.quiet 0) Hlength).
  cbn. lia.
Defined.

(** * The training of the detector *)

Section TrainingProperties.

Import AnomalyDetector.

Variable toString36 : R -> string.
Variable sort_random : list (list R) -> Rng -> list (list R) * Rng.
Variable fl : Arithmetic.

Lemma process_loop_flags (batch : list Detection) (timestamp now : Z) (d : t)
  (g : Rng) :
  isTraining (fst (process_loop toString36 batch timestamp now d g)) = isTraining d
  /\ trainingComplete (fst (process_loop toString36 batch timestamp now d g))
     = trainingComplete d.
Proof.
  revert d g. induction batch as [| found batch IH]; intros d g; [split; reflexivity |].
  cbn [process_loop].
  destruct (generateAnomalyId toString36 now g) as [id g1].
  match goal with
  | |- context [process_loop toString36 batch timestamp now ?d1 g1] =>
      destruct (IH d1 g1) as [-> ->]
  end.
  destruct (negb _); split; reflexivity.
Qed.

(** [processTelemetry] leaves the two training flags as they are. *)
Lemma processTelemetry_flags (d : t) (sim : Telemetry.Simulator)
  (data : Telemetry.Point.t) (now : Z) (g : Rng) :
  isTraining (fst (processTelemetry toString36 sort_random fl d sim data now g))
  = isTraining d
  /\ trainingComplete (fst (processTelemetry toString36 sort_random fl d sim data now g))
     = trainingComplete d.
Proof.
  unfold processTelemetry. set (found := _ ++ _).
  assert (Hmid : isTraining
                   (fst (if (0 <? length found)%nat
                         then processDetectedAnomalies toString36 d found
                                (Telemetry.Point.timestamp data) now g
                         else (d, g))) = isTraining d
                 /\ trainingComplete
                      (fst (if (0 <? length found)%nat
                            then processDetectedAnomalies toString36 d found
                                   (Telemetry.Point.timestamp data) now g
                            else (d, g))) = trainingComplete d).
  { destruct (0 <? length found)%nat; [| split; reflexivity].
    unfold processDetectedAnomalies.
    destruct (process_loop_flags found (Telemetry.Point.timestamp data) now d g)
      as [H1 H2].
    destruct (process_loop toString36 found _ now d g) as [d1 g1].
    cbn [fst] in *. unfold cleanupOldAnomalies.
    destruct (cleanup_filter now (anomalies d1) (store d1)) as [kept st'].
    destruct (_ <? _)%nat; cbn; split; assumption. }
  destruct (if (0 <? length found)%nat then _ else _) as [d1 g1].
  cbn [fst] in Hmid. unfold updateModels.
  destruct (IsolationForest.addTrainingData sort_random _ _ g1) as [forest g2].
  exact Hmid.
Qed.

Lemma tick_flags (now : Z) (s : System.t) :
  isTraining (System.detector (System.tick toString36 sort_random fl now s))
  = isTraining (System.detector s)
  /\ trainingComplete (System.detector (System.tick toString36 sort_random fl now s))
     = trainingComplete (System.detector s)
  /\ System.trainingTimers (System.tick toString36 sort_random fl now s)
     = System.trainingTimers s.
Proof.
  unfold System.tick. destruct (negb _); [auto |].
  destruct (Telemetry.generateTelemetryPoint (System.simulator s) now (System.rng s))
    as [[p sim] g1].
  destruct (Telemetry.getLatestTelemetry sim) as [latest |]; [| auto].
  destruct (detectionEnabled _); [| auto].
  destruct (processTelemetry_flags (System.detector s) sim latest now g1) as [H1 H2].
  destruct (processTelemetry _ _ _ _ _ _ _) as [d g2]. cbn [fst] in *. auto.
Qed.

Lemma acknowledgeAnomaly_flags (d : t) (anomalyId by_ : string) (now : Z) :
  isTraining (snd (acknowledgeAnomaly d anomalyId by_ now)) = isTraining d
  /\ trainingComplete (snd (acknowledgeAnomaly d anomalyId by_ now))
     = trainingComplete d.
Proof.
  unfold acknowledgeAnomaly. destruct (find_by_id _ _ _); split; reflexivity.
Qed.

Lemma step_training (s : System.t) (e : System.Event) :
  training_ok s -> training_ok (System.step toString36 sort_random fl s e).
Proof.
  unfold training_ok. intros Hok. destruct e; cbn [System.step]; try exact Hok.
  - destruct (tick_flags now s) as (-> & _ & ->). exact Hok.
  - unfold System.fire_trainingTimers, System.fire_failureTimers.
    cbn [System.detector System.rng System.trainingTimers System.simulator
         System.failureTimers].
    destruct (System.trainingTimers s) as [| at_ [| at' timers]];
      [| | destruct (isTraining (System.detector s)); discriminate Hok].
    + cbn. exact Hok.
    + cbn [List.filter]. destruct (at_ <=? now)%Z; cbn [negb fold_left].
      * unfold trainingCallback.
        destruct (IsolationForest.train sort_random _ _) as [forest g1].
        reflexivity.
      * exact Hok.
  - match goal with
    | |- context [acknowledgeAnomaly ?d ?i ?b ?n] =>
        destruct (acknowledgeAnomaly_flags d i b n) as [Hsame _]
    end.
    cbn [System.detector System.trainingTimers System.set_detector].
    rewrite Hsame. exact Hok.
  - unfold trainMLModels. destruct (isTraining (System.detector s)) eqn:Hbusy.
    + cbn. rewrite Hbusy. exact Hok.
    + cbn. rewrite length_app, Hok. reflexivity.
Qed.

Lemma run_training (events : list System.Event) (s : System.t) :
  training_ok s -> training_ok (System.run toString36 sort_random fl events s).
Proof.
  revert s. induction events as [| e events IH]; intros s Hok; [exact Hok |].
  simpl. apply IH, step_training, Hok.
Qed.

End TrainingProperties.

(** X20: the training of the detector runs once at a time.  In every
    state of the page a training callback is pending exactly while
    [isTraining] holds, and never more than one.  A request made while
    one is pending answers false and changes nothing; and when the clock
    reaches the time of the pending callback, three seconds after the
    request that was granted, the callback leaves the detector with
    training complete, not training, and nothing pending. *)
Theorem training_once_at_a_time (toString36 : R -> string)
  (sort_random : list (list R) -> Rng -> list (list R) * Rng) (fl : Arithmetic)
  (now : Z) (g : Rng) (events : list System.Event) (now' : Z) :
  let s := System.run toString36 sort_random fl events (System.init now g) in
  length (System.trainingTimers s)
  = (if AnomalyDetector.isTraining (System.detector s) then 1%nat else 0%nat)
  /\ (if AnomalyDetector.isTraining (System.detector s)
      then fst (AnomalyDetector.trainMLModels (System.detector s)) = false
           /\ System.step toString36 sort_random fl s (System.TrainMLModels now') = s
      else fst (AnomalyDetector.trainMLModels (System.detector s)) = true
           /\ System.trainingTimers
                (System.step toString36 sort_random fl s (System.TrainMLModels now'))
              = [(now' + 3000)%Z])
  /\ (forall at_, In at_ (System.trainingTimers s) -> (at_ <= now')%Z ->
      let s' := System.step toString36 sort_random fl s (System.Timeout now') in
      AnomalyDetector.isTraining (System.detector s') = false
      /\ AnomalyDetector.trainingComplete (System.detector s') = true
      /\ System.trainingTimers s' = []).
Proof.
  intros s.
  assert (Hok : training_ok s).
  { apply run_training. unfold System.init, training_ok.
    destruct (Telemetry.constructor now g) as [sim g1]. reflexivity. }
  unfold training_ok in Hok. split; [exact Hok |]. split.
  - cbn [System.step]. unfold AnomalyDetector.trainMLModels.
    destruct (AnomalyDetector.isTraining (System.detector s)) eqn:Hbusy.
    + split; [reflexivity |]. destruct s; reflexivity.
    + split; [reflexivity |]. cbn.
      destruct (System.trainingTimers s); [reflexivity | discriminate Hok].
  - intros at_ Hin Hdue. cbv zeta. cbn [System.step].
    unfold System.fire_trainingTimers, System.fire_failureTimers.
    cbn [System.detector System.rng System.trainingTimers System.simulator
         System.failureTimers].
    destruct (System.trainingTimers s) as [| at0 [| at' timers]];
      [destruct Hin | | destruct (AnomalyDetector.isTraining _); discriminate Hok].
    destruct Hin as [-> | []].
    cbn [List.filter]. rewrite (proj2 (Z.leb_le _ _) Hdue). cbn [negb fold_left].
    unfold AnomalyDetector.trainingCallback.
    destruct (IsolationForest.train sort_random _ _) as [forest g1].
    repeat split.
Qed.

Section KindProperties.

Import AnomalyDetector.

Variable toString36 : R -> string.
Variable sort_random : list (list R) -> Rng -> list (list R) * Rng.
Variable fl : Arithmetic.

(** Decides the tests of a detector and checks the kind of each
    detection that is left. *)
Ltac each_kind :=
  repeat match goal with
         | |- context [if ?b then _ else _] => destruct b
         end;
  cbn [app]; repeat (apply List.Forall_cons; [reflexivity |]);
  apply List.Forall_nil.

Lemma detectThresholdAnomalies_kind (data : Telemetry.Point.t) :
  Forall (fun a => type a = threshold) (detectThresholdAnomalies data).
Proof.
  unfold detectThresholdAnomalies. cbv zeta.
  repeat (apply Forall_app; split); each_kind.
Qed.

Lemma detectStatisticalAnomalies_kind (d : t) (data : Telemetry.Point.t) :
  Forall (fun a => type a = statistical) (detectStatisticalAnomalies d data).
Proof.
  unfold detectStatisticalAnomalies. cbv zeta. cbn [flat_map].
  repeat (apply Forall_app; split); each_kind.
Qed.

Lemma detectPatternAnomalies_kind (sim : Telemetry.Simulator)
  (data : Telemetry.Point.t) :
  Forall (fun a => type a = pattern) (detectPatternAnomalies sim data).
Proof.
  unfold detectPatternAnomalies.
  destruct (Telemetry.getHistoricalData sim "power" 0.5) as [history |];
    [| constructor].
  destruct (length history <? 10)%nat; [constructor |].
  cbv zeta. apply Forall_app; split; each_kind.
Qed.

(** The objects that the loop pushes carry the detections of the
    batch. *)
Lemma process_loop_store (P : Detection -> Prop) (batch : list Detection)
  (timestamp now : Z) (d : t) (g : Rng) :
  Forall P batch ->
  Forall (fun a => P (detection a)) (store d) ->
  Forall (fun a => P (detection a))
    (store (fst (process_loop toString36 batch timestamp now d g))).
Proof.
  intros Hbatch. revert d g.
  induction Hbatch as [| found batch Hfound _ IH]; intros d g Hstore; [exact Hstore |].
  cbn [process_loop].
  destruct (generateAnomalyId toString36 now g) as [id g1].
  apply IH. destruct (negb _); [| exact Hstore].
  cbn [store set_alerts]. apply Forall_app. split; [exact Hstore |].
  repeat constructor. exact Hfound.
Qed.

Lemma same_stamps_detections (P : Detection -> Prop) (st st' : list Anomaly) :
  same_stamps st st' ->
  Forall (fun a => P (detection a)) st -> Forall (fun a => P (detection a)) st'.
Proof.
  intros [Hlen Hsame] Hall. apply Forall_lookup. intros r a' Ha'.
  destruct (lookup_lt_is_Some_2 st r) as [a Ha].
  { rewrite <- Hlen. apply lookup_lt_Some in Ha'. exact Ha'. }
  destruct (Hsame r a Ha) as (a'' & Ha'' & Hdet & _).
  assert (a'' = a') as -> by congruence. rewrite Hdet.
  exact (proj1 (Forall_lookup _ _) Hall r a Ha).
Qed.

(** Without completed training the store gets no detection of
    [detectMLAnomalies]. *)
Lemma processTelemetry_untrained (d : t) (sim : Telemetry.Simulator)
  (data : Telemetry.Point.t) (now : Z) (g : Rng) :
  trainingComplete d = false ->
  Forall (fun a => is_ml (type (detection a)) = false) (store d) ->
  Forall (fun a => is_ml (type (detection a)) = false)
    (store (fst (processTelemetry toString36 sort_random fl d sim data now g))).
Proof.
  intros Huntrained Hstore. unfold processTelemetry. rewrite Huntrained.
  set (found := _ ++ _).
  assert (Hfound : Forall (fun a => is_ml (type a) = false) found).
  { unfold found.
    apply Forall_app; split;
      [| apply Forall_app; split; [| apply Forall_app; split; [constructor |]]].
    - eapply Forall_impl; [apply detectThresholdAnomalies_kind |].
      intros a ->. reflexivity.
    - eapply Forall_impl; [apply detectStatisticalAnomalies_kind |].
      intros a ->. reflexivity.
    - eapply Forall_impl; [apply detectPatternAnomalies_kind |].
      intros a ->. reflexivity. }
  assert (Hmid : Forall (fun a => is_ml (type (detection a)) = false)
                   (store (fst (if (0 <? length found)%nat
                                then processDetectedAnomalies toString36 d found
                                       (Telemetry.Point.timestamp data) now g
                                else (d, g))))).
  { destruct (0 <? length found)%nat; [| exact Hstore].
    unfold processDetectedAnomalies.
    pose proof (process_loop_store (fun a => is_ml (type a) = false) found
                  (Telemetry.Point.timestamp data) now d g Hfound Hstore) as H1.
    destruct (process_loop toString36 found _ now d g) as [d1 g1].
    cbn [fst] in *. unfold cleanupOldAnomalies.
    pose proof (cleanup_filter_spec now (anomalies d1) (store d1)) as [Hsame _].
    destruct (cleanup_filter now (anomalies d1) (store d1)) as [kept st'].
    cbn [snd] in Hsame.
    pose proof (same_stamps_detections (fun a => is_ml (type a) = false) _ _
                  Hsame H1) as H2.
    destruct (_ <? _)%nat; exact H2. }
  destruct (if (0 <? length found)%nat then _ else _) as [d1 g1].
  cbn [fst] in Hmid.
  destruct (updateModels_bound sort_random fl d1 data g1) as (_ & _ & Hs & _).
  cbv zeta in Hs. rewrite Hs. exact Hmid.
Qed.

Lemma step_untrained (s : System.t) (e : System.Event) :
  no_training e = true ->
  untrained_ok s -> untrained_ok (System.step toString36 sort_random fl s e).
Proof.
  intros Hevent (Hflag & Htimers & Hstore).
  destruct e; try discriminate Hevent; cbn [System.step];
    try (split; [exact Hflag | split; [exact Htimers | exact Hstore]]).
  - destruct (tick_flags toString36 sort_random fl now s) as (_ & Hc & Ht).
    split; [rewrite Hc; exact Hflag |]. split; [rewrite Ht; exact Htimers |].
    unfold System.tick. destruct (negb _); [exact Hstore |].
    destruct (Telemetry.generateTelemetryPoint (System.simulator s) now
                (System.rng s)) as [[p sim] g1].
    destruct (Telemetry.getLatestTelemetry sim) as [latest |]; [| exact Hstore].
    destruct (detectionEnabled _); [| exact Hstore].
    pose proof (processTelemetry_untrained (System.detector s) sim latest now g1
                  Hflag Hstore) as H.
    destruct (processTelemetry _ _ _ _ _ _ _) as [d g2]. exact H.
  - unfold System.fire_trainingTimers, System.fire_failureTimers.
    cbn [System.detector System.rng System.trainingTimers System.simulator
         System.failureTimers].
    rewrite Htimers. cbn.
    split; [exact Hflag | split; [reflexivity | exact Hstore]].
  - match goal with
    | |- context [acknowledgeAnomaly ?d ?i ?b ?n] =>
        destruct (acknowledgeAnomaly_flags d i b n) as [_ Hc]
    end.
    unfold untrained_ok.
    cbn [System.detector System.trainingTimers System.set_detector].
    split; [rewrite Hc; exact Hflag |]. split; [exact Htimers |].
    unfold acknowledgeAnomaly. destruct (find_by_id _ _ _) as [r |]; [| exact Hstore].
    cbn [snd store set_alerts].
    apply (same_stamps_detections (fun a => is_ml (type a) = false)
             (store (System.detector s))); [apply same_stamps_alter | exact Hstore].
Qed.

End KindProperties.

(** X21: no alert of the isolation forest or of the time-series
    detector without requested training.  In every state that the page
    reaches by events other than a call of [trainMLModels], training is
    not complete and no alert, active or in the history, is of kind
    [ml_isolation] or [ml_lstm]. *)
Theorem no_ml_alert_without_training (toString36 : R -> string)
  (sort_random : list (list R) -> Rng -> list (list R) * Rng) (fl : Arithmetic)
  (now : Z) (g : Rng) (events : list System.Event)
  (Hevents : forallb no_training events = true) :
  let d :=
    System.detector (System.run toString36 sort_random fl events (System.init now g)) in
  AnomalyDetector.trainingComplete d = false
  /\ Forall (fun a => is_ml (AnomalyDetector.type (AnomalyDetector.detection a))
                      = false)
       (AnomalyDetector.objects (AnomalyDetector.store d)
          (AnomalyDetector.anomalies d)
        ++ AnomalyDetector.objects (AnomalyDetector.store d)
             (AnomalyDetector.anomalyHistory d)).
Proof.
  cbv zeta.
  assert (Hok : untrained_ok
                  (System.run toString36 sort_random fl events (System.init now g))).
  { assert (Hinit : untrained_ok (System.init now g)).
    { unfold System.init. destruct (Telemetry.constructor now g) as [sim g1].
      repeat split. constructor. }
    revert Hinit. generalize (System.init now g) as s.
    induction events as [| e events IH]; intros s Hs; [exact Hs |].
    cbn [forallb] in Hevents. apply andb_true_iff in Hevents.
    destruct Hevents as [He Hrest]. cbn [System.run fold_left].
    apply (IH Hrest). apply step_untrained; assumption. }
  destruct Hok as (Hflag & _ & Hstore). split; [exact Hflag |].
  apply List.Forall_forall. intros a Hin.
  assert (Hobject : exists r, AnomalyDetector.store
                                (System.detector
                                   (System.run toString36 sort_random fl events
                                      (System.init now g))) !! r = Some a).
  { apply in_app_or in Hin.
    destruct Hin as [Hin | Hin]; apply In_objects in Hin;
      destruct Hin as (r & _ & Ha); eauto. }
  destruct Hobject as [r Ha].
  exact (proj1 (Forall_lookup _ _) Hstore r a Ha).
Qed.

Lemma no_ml_alert_without_training_witness :
  forallb no_training [System.Start; System.Tick 1000] = true
  /\ AnomalyDetector.trainingComplete
       (System.detector
          (System.run Scenario.no_text Scenario.keep_order real_arithmetic
             [System.Start; System.Tick 1000] (System.init 0 Scenario.steady)))
     = false.
Proof.
  assert (Hevents : forallb no_training [System.Start; System.Tick 1000] = true)
    by reflexivity.
  split; [exact Hevents |].
  exact (proj1 (no_ml_alert_without_training Scenario.no_text Scenario.keep_order real_arithmetic 0
                  Scenario.steady [System.Start; System.Tick 1000] Hevents)).
Defined.

(** * The pattern check *)

Section PatternProperties.

Import AnomalyDetector.

Lemma fold_Rplus_bounds (low high : R) (l : list R) (a : R) :
  Forall (fun x => low <= x <= high) l ->
  a + INR (length l) * low <= fold_left Rplus l a <= a + INR (length l) * high.
Proof.
  intros Hall. revert a. induction Hall as [| x l Hx _ IH]; intros a.
  - cbn. lra.
  - cbn [fold_left length]. rewrite S_INR. specialize (IH (a + x)). lra.
Qed.

(** The average of a non-empty array lies between its bounds. *)
Lemma average_bounds (low high : R) (l : list R) :
  l <> [] -> Forall (fun x => low <= x <= high) l -> low <= average l <= high.
Proof.
  intros Hne Hall. unfold average, sum.
  assert (Hlen : 0 < INR (length l)).
  { apply lt_0_INR. destruct l; [congruence | cbn; lia]. }
  pose proof (fold_Rplus_bounds low high l 0 Hall) as [Hlo Hhi].
  rewrite Rplus_0_l in Hlo, Hhi.
  split.
  - apply Rmult_le_reg_r with (INR (length l)); [exact Hlen |].
    unfold Rdiv. rewrite Rmult_assoc, Rinv_l by lra. lra.
  - apply Rmult_le_reg_r with (INR (length l)); [exact Hlen |].
    unfold Rdiv. rewrite Rmult_assoc, Rinv_l by lra. lra.
Qed.

(** The two windows that [detectPatternAnomalies] compares are the last
    five samples of the power history and the five before them. *)
Lemma pattern_windows (older previous recent : list Telemetry.Point.t) :
  length previous = 5%nat -> length recent = 5%nat ->
  let history := js_slice_from (-30) (older ++ previous ++ recent) in
  (length history <? 10)%nat = false
  /\ js_slice_from (-5) history = recent
  /\ js_slice_neg 10 5 history = previous.
Proof.
  intros Hprevious Hrecent. cbv zeta.
  assert (Hslice : js_slice_from (-30) (older ++ previous ++ recent)
                   = drop (length older - 20) older ++ previous ++ recent).
  { unfold js_slice_from. change (-30 <? 0)%Z with true.
    change (Z.to_nat (- (-30))) with 30%nat. cbv iota.
    rewrite !length_app, Hprevious, Hrecent.
    replace (length older + (5 + 5) - 30)%nat with (length older - 20)%nat by lia.
    apply drop_app_le. lia. }
  rewrite Hslice. set (kept := drop (length older - 20) older).
  split; [| split].
  - apply Nat.ltb_ge. rewrite !length_app. lia.
  - unfold js_slice_from. change (-5 <? 0)%Z with true.
    change (Z.to_nat (- (-5))) with 5%nat. cbv iota.
    rewrite !length_app, Hprevious, Hrecent.
    replace (length kept + (5 + 5) - 5)%nat
      with (length (kept ++ previous)) by (rewrite length_app; lia).
    rewrite app_assoc. apply drop_app_length.
  - unfold js_slice_neg. rewrite !length_app, Hprevious, Hrecent.
    replace (length kept + (5 + 5) - 10)%nat with (length kept) by lia.
    replace (length kept + (5 + 5) - 5 - length kept)%nat with (length previous) by lia.
    rewrite drop_app_length, take_app_length. reflexivity.
Qed.

End PatternProperties.

(** X22: the pattern check sees the voltage drop of a battery fault.
    When the last five samples of the power history have battery
    voltages in the range of a battery fault, [19.8, 21], and the five
    before them in the range without one, [23.3, 24.7],
    [detectPatternAnomalies] reports a critical voltage-rate detection
    whose value, the distance of the two averages, is between 2.3 and
    4.9 volts. *)
Theorem voltage_drop_detected (sim : Telemetry.Simulator) (data : Telemetry.Point.t)
  (older previous recent : list Telemetry.Point.t)
  (Hhistory : Telemetry.h_power (Telemetry.dataHistory sim)
              = older ++ previous ++ recent)
  (Hprevious : length previous = 5%nat) (Hrecent : length recent = 5%nat)
  (Hhealthy : voltages_within 23.3 24.7 previous)
  (Hfaulty : voltages_within 19.8 21 recent) :
  exists change,
    2.3 <= change <= 4.9
    /\ change
       = Rabs (AnomalyDetector.average (map voltage_of recent)
               - AnomalyDetector.average (map voltage_of previous))
    /\ hd_error (AnomalyDetector.detectPatternAnomalies sim data)
       = Some {| AnomalyDetector.type := AnomalyDetector.pattern;
                 AnomalyDetector.severity := AnomalyDetector.sev_critical;
                 AnomalyDetector.subsystem := "battery";
                 AnomalyDetector.parameter := "voltage_rate";
                 AnomalyDetector.value := Some change;
                 AnomalyDetector.limit := None;
                 AnomalyDetector.score := None |}.
Proof.
  unfold AnomalyDetector.detectPatternAnomalies, Telemetry.getHistoricalData.
  rewrite Math_trunc_half_minute.
  change (Telemetry.history_of (Telemetry.dataHistory sim) "power")
    with (Telemetry.HArray (Telemetry.h_power (Telemetry.dataHistory sim))).
  cbv iota. rewrite Hhistory.
  destruct (pattern_windows older previous recent Hprevious Hrecent)
    as (Hlong & Hlast & Hbefore).
  cbv zeta in Hlong, Hlast, Hbefore. rewrite Hlong. cbv zeta.
  rewrite Hlast, Hbefore.
  fold voltage_of.
  set (change := Rabs (AnomalyDetector.average (map voltage_of recent)
                       - AnomalyDetector.average (map voltage_of previous))).
  assert (Hrange : 2.3 <= change <= 4.9).
  { destruct (average_bounds 19.8 21 (map voltage_of recent)) as [Hr1 Hr2].
    - destruct recent; [discriminate Hrecent | discriminate].
    - apply Forall_map. exact Hfaulty.
    - destruct (average_bounds 23.3 24.7 (map voltage_of previous)) as [Hp1 Hp2].
      + destruct previous; [discriminate Hprevious | discriminate].
      + apply Forall_map. exact Hhealthy.
      + unfold change. rewrite Rabs_left by lra. lra. }
  exists change. split; [exact Hrange |]. split; [reflexivity |].
  unfold gtb. rewrite !bool_decide_eq_true_2 by lra. reflexivity.
Qed.

Lemma voltage_drop_detected_witness :
  let previous := map Scenario.quiet [1000; 2000; 3000; 4000; 5000]%Z in
  let recent := map sagging [6000; 7000; 8000; 9000; 10000]%Z in
  exists change,
    2.3 <= change <= 4.9
    /\ hd_error
         (AnomalyDetector.detectPatternAnomalies
            (with_power_history ([] ++ previous ++ recent)) (sagging 10000))
       = Some {| AnomalyDetector.type := AnomalyDetector.pattern;
                 AnomalyDetector.severity := AnomalyDetector.sev_critical;
                 AnomalyDetector.subsystem := "battery";
                 AnomalyDetector.parameter := "voltage_rate";
                 AnomalyDetector.value := Some change;
                 AnomalyDetector.limit := None;
                 AnomalyDetector.score := None |}.
Proof.
  cbv zeta.
  destruct (voltage_drop_detected
              (with_power_history
                 ([] ++ map Scenario.quiet [1000; 2000; 3000; 4000; 5000]%Z
                  ++ map sagging [6000; 7000; 8000; 9000; 10000]%Z))
              (sagging 10000) []
              (map Scenario.quiet [1000; 2000; 3000; 4000; 5000]%Z)
              (map sagging [6000; 7000; 8000; 9000; 10000]%Z)
              eq_refl eq_refl eq_refl)
    as (change & Hrange & _ & Hfound).
  - unfold voltages_within, voltage_of. cbn [map].
    repeat (apply List.Forall_cons;
            [ unfold Scenario.quiet;
              cbn [Telemetry.Battery.voltage Telemetry.Power.battery
                   Telemetry.Point.power]; lra |]).
    apply List.Forall_nil.
  - unfold voltages_within, voltage_of. cbn [map].
    repeat (apply List.Forall_cons;
            [ unfold sagging;
              cbn [Telemetry.Battery.voltage Telemetry.Power.battery
                   Telemetry.Point.power]; lra |]).
    apply List.Forall_nil.
  - exists change. split; [exact Hrange | exact Hfound].
Defined.

(** * The attitude readings *)

Section AttitudeProperties.

Import Telemetry.

(** Rounding does not cross a number that has the digits kept. *)
Lemma toFixed_grid (x : R) (d : nat) (k : Z) :
  (x <= IZR k / 10 ^ d -> toFixed x d <= IZR k / 10 ^ d)
  /\ (IZR k / 10 ^ d <= x -> IZR k / 10 ^ d <= toFixed x d).
Proof.
  assert (Hp : 0 < 10 ^ d) by (apply pow_lt; lra).
  assert (Hinv : 0 < / 10 ^ d) by (apply Rinv_0_lt_compat; exact Hp).
  assert (Hscale : forall y, (y <= IZR k / 10 ^ d -> y * 10 ^ d <= IZR k)
                             /\ (IZR k / 10 ^ d <= y -> IZR k <= y * 10 ^ d)).
  { intros y. unfold Rdiv. split; intros Hy;
      apply Rmult_le_compat_r with (r := 10 ^ d) in Hy; try lra;
      rewrite Rmult_assoc, Rinv_l in Hy by lra; lra. }
  unfold toFixed, ltb. case_bool_decide.
  - pose proof (Zfloor_bound (- x * 10 ^ d + / 2)) as [Hlo Hhi].
    unfold Rdiv. rewrite Ropp_mult_distr_l, <- opp_IZR. split; intros Hx.
    + apply Rmult_le_compat_r; [lra |]. apply IZR_le.
      apply (proj1 (Hscale x)) in Hx.
      assert (Hge : (- k <= Zfloor (- x * 10 ^ d + / 2))%Z).
      { apply Zfloor_lub. rewrite opp_IZR. lra. }
      lia.
    + apply Rmult_le_compat_r; [lra |]. apply IZR_le.
      apply (proj2 (Hscale x)) in Hx.
      assert (Hlt : (Zfloor (- x * 10 ^ d + / 2) < - k + 1)%Z).
      { apply lt_IZR. rewrite plus_IZR, opp_IZR. lra. }
      lia.
  - pose proof (Zfloor_bound (x * 10 ^ d + / 2)) as [Hlo Hhi].
    unfold Rdiv. split; intros Hx.
    + apply Rmult_le_compat_r; [lra |]. apply IZR_le.
      apply (proj1 (Hscale x)) in Hx.
      assert (Hlt : (Zfloor (x * 10 ^ d + / 2) < k + 1)%Z).
      { apply lt_IZR. rewrite plus_IZR. lra. }
      lia.
    + apply Rmult_le_compat_r; [lra |]. apply IZR_le. apply Zfloor_lub.
      apply (proj2 (Hscale x)) in Hx. lra.
Qed.

Lemma toFixed_between (x : R) (d : nat) (low high : Z) :
  IZR low / 10 ^ d <= x <= IZR high / 10 ^ d ->
  IZR low / 10 ^ d <= toFixed x d <= IZR high / 10 ^ d.
Proof.
  intros [Hlow Hhigh]. split.
  - apply (proj2 (toFixed_grid x d low)), Hlow.
  - apply (proj1 (toFixed_grid x d high)), Hhigh.
Qed.

End AttitudeProperties.

(** X23: the attitude readings of a generated sample, with draws of
    [Math.random()] in [0, 1): roll, pitch and yaw stay within 2.005
    degrees of zero and the angular velocity between 0 and 0.002,
    whatever the mission time; the generator takes four draws. *)
Theorem attitude_readings_bounded (missionTime : R) (g : Rng)
  (Hdraws : unit_draws g) :
  let attitude := fst (Telemetry.generateAttitudeTelemetry missionTime g) in
  -2.005 <= Telemetry.Attitude.roll attitude <= 2.005
  /\ -2.005 <= Telemetry.Attitude.pitch attitude <= 2.005
  /\ -2.005 <= Telemetry.Attitude.yaw attitude <= 2.005
  /\ 0 <= Telemetry.Attitude.angularVelocity attitude <= 0.002
  /\ snd (Telemetry.generateAttitudeTelemetry missionTime g)
     = {| draws := draws g; pos := (pos g + 4)%nat |}.
Proof.
  cbv zeta. unfold Telemetry.generateAttitudeTelemetry, Telemetry.noise, random.
  cbn [draws pos fst snd Telemetry.Attitude.roll Telemetry.Attitude.pitch
       Telemetry.Attitude.yaw Telemetry.Attitude.angularVelocity].
  pose proof (SIN_bound (missionTime * 0.0001)) as Hsin1.
  pose proof (COS_bound (missionTime * 0.0001)) as Hcos.
  pose proof (SIN_bound (missionTime * 0.00005)) as Hsin2.
  pose proof (Hdraws (pos g)) as H0.
  pose proof (Hdraws (S (pos g))) as H1.
  pose proof (Hdraws (S (S (pos g)))) as H2.
  pose proof (Hdraws (S (S (S (pos g))))) as H3.
  unfold Telemetry.subsystems.attitude.roll_range,
    Telemetry.subsystems.attitude.roll_drift,
    Telemetry.subsystems.attitude.pitch_range,
    Telemetry.subsystems.attitude.pitch_drift,
    Telemetry.subsystems.attitude.yaw_range,
    Telemetry.subsystems.attitude.yaw_drift,
    Telemetry.subsystems.attitude.angularVelocity_base,
    Telemetry.subsystems.attitude.angularVelocity_range.
  assert (Hthird : forall x, -2.005 <= x <= 2.005 -> -2.005 <= toFixed x 3 <= 2.005).
  { intros x Hx. pose proof (toFixed_between x 3 (-2005) 2005) as Hround.
    simpl pow in Hround. lra. }
  assert (Hsixth : forall x, 0 <= x <= 0.002 -> 0 <= toFixed x 6 <= 0.002).
  { intros x Hx. pose proof (toFixed_between x 6 0 2000) as Hround.
    simpl pow in Hround. lra. }
  split; [apply Hthird; lra |]. split; [apply Hthird; lra |].
  split; [apply Hthird; lra |]. split; [apply Hsixth; lra |].
  f_equal. lia.
Qed.

Lemma attitude_readings_bounded_witness :
  unit_draws Scenario.steady
  /\ 0 <= Telemetry.Attitude.angularVelocity
            (fst (Telemetry.generateAttitudeTelemetry 400 Scenario.steady))
     <= 0.002.
Proof.
  split; [exact steady_unit_draws |].
  apply (attitude_readings_bounded 400 Scenario.steady steady_unit_draws).
Defined.
